(** * Breakout strategy back-testing: a shallow embedding and its properties

    The development follows the JavaScript sources module by module:
    [MathUtils] and [DateUtils] (utils), [BreakoutStrategy] (levels,
    breakout detection, one signal per day), [TradeSimulator] (the exit
    checks, results and the running balance), [BacktestEngine] (the run)
    and [DataFormatter] (the exported summary).

    Conventions of the embedding.
    - A JavaScript number is the rational value ([Q]) of a finite
      IEEE 754 binary64 number.  Every arithmetic operation of the
      sources is the exact operation followed by the rounding of
      binary64, to the nearest with ties to even ([Binary64.fl]);
      comparisons, [Math.abs], [Math.max], [Math.min] and the sign
      change are exact.  [NaN], the infinities and the sign of zero
      have no counterpart: a division by zero and a result beyond the
      largest double ([Binary64.MAX_VALUE]) are outside the model.  A
      statement that would not hold of a [NaN] or an infinity carries
      the hypotheses that keep the sources inside the model: a divisor
      other than zero, and the results of the operations it speaks of
      within the largest double ([Binary64.finite]).  Numeric equality
      is [Qeq] ([==]).
    - Timestamps (milliseconds since the epoch, [parseInt]) are in [Z].
    - Strings are strings: trade directions, exit reasons and dates are
      the literals of the sources.
    - [null] and [undefined] are [None]; a number is truthy when it is
      not zero.
    - A JavaScript object used as a dictionary is a [gmap string _]; an
      object literal whose field names matter is a list of pairs.
    - A thrown exception is the [Throw] case of [Completion].
    - Objects are mutated in place in the sources; here every function
      takes the object ([this], the trade) and returns the new one.
    - [console.log] calls are erased. *)

From Stdlib Require Import ZArith QArith Qround Qabs Qminmax Qpower Qfield Qreduction Lqa.
From Stdlib Require Import String Ascii DecimalString.
From stdpp Require Import base option list strings gmap sorting.

Local Open Scope Z_scope.

(** ** JavaScript values *)

(** Comparisons of numbers, as booleans: [a <= b], [a < b]. *)
Definition Qleb (a b : Q) : bool := Qle_bool a b.
Definition Qltb (a b : Q) : bool := negb (Qle_bool b a).

(** *** binary64

    The rounding of a rational to the nearest binary64 number, ties to
    even: 53 bits of precision, least exponent -1074 (gradual
    underflow).  [fl] has no largest exponent; the results that the
    sources keep finite are those within [MAX_VALUE]. *)
Module Binary64.
Local Open Scope Q_scope.

(** The integer nearest to [x], ties to the even one. *)
Definition rne (x : Q) : Z :=
  let f := Qfloor x in
  match Qcompare (x - inject_Z f) (1 # 2) with
  | Lt => f
  | Gt => (f + 1)%Z
  | Eq => if Z.even f then f else (f + 1)%Z
  end.

(** For [0 < x], the [k] with [2^k <= x < 2^(k+1)]. *)
Definition ilog2 (x : Q) : Z :=
  let l := (Z.log2 (Qnum x) - Z.log2 (Z.pos (Qden x)))%Z in
  if Qle_bool (2 ^ l) x then l else (l - 1)%Z.

(** The exponent of the unit in the last place of the binade of [x]. *)
Definition exponent (x : Q) : Z := Z.max (ilog2 (Qabs x) - 52) (-1074).

Definition fl (x : Q) : Q :=
  if Qeq_bool x 0 then 0
  else Qred (inject_Z (rne (x / 2 ^ exponent x)) * 2 ^ exponent x).

(** The rationals that are binary64 numbers. *)
Definition double (x : Q) : Prop := fl x == x.

(** [Number.MAX_VALUE], [(2^53 - 1) * 2^971]: a rounded result beyond it
    is an infinity in the sources. *)
Definition MAX_VALUE : Q := inject_Z ((2 ^ 53 - 1) * 2 ^ 971).

Definition finite (x : Q) : Prop := Qabs x <= MAX_VALUE.

(** [x + y], [x - y], [x * y], [x / y] of two numbers. *)
Definition add (x y : Q) : Q := fl (x + y).
Definition sub (x y : Q) : Q := fl (x - y).
Definition mul (x y : Q) : Q := fl (x * y).
Definition div (x y : Q) : Q := fl (x / y).
End Binary64.

#[global] Arguments Binary64.fl : simpl never.
#[global] Arguments Binary64.add : simpl never.
#[global] Arguments Binary64.sub : simpl never.
#[global] Arguments Binary64.mul : simpl never.
#[global] Arguments Binary64.div : simpl never.

Infix "⊕" := Binary64.add (at level 50, left associativity).
Infix "⊖" := Binary64.sub (at level 50, left associativity).
Infix "⊗" := Binary64.mul (at level 40, left associativity).
Infix "⊘" := Binary64.div (at level 40, left associativity).

(** Truthiness of a number-or-null: [null] and [0] are falsy. *)
Definition truthy (x : option Q) : bool :=
  match x with
  | None => false
  | Some q => negb (Qeq_bool q 0)
  end.

(** Outcome of running a piece of code that may throw. *)
Inductive Completion (A : Type) : Type :=
| Return (a : A)
| Throw (error : string).
Arguments Return {A} a.
Arguments Throw {A} error.

#[global] Instance Completion_ret : MRet Completion := fun A a => Return a.

#[global] Instance Completion_bind : MBind Completion := fun A B k c =>
  match c with
  | Return a => k a
  | Throw e => Throw e
  end.

(** [for (const x of l) st = body(st, x)], stopping at the first throw. *)
Fixpoint forEach {A S : Type} (body : S -> A -> Completion S) (l : list A) (st : S)
    : Completion S :=
  match l with
  | [] => Return st
  | x :: rest => st' ← body st x; forEach body rest st'
  end.

(** [array.findIndex(p)]; [None] stands for [-1]. *)
Fixpoint findIndex {A : Type} (p : A -> bool) (l : list A) : option nat :=
  match l with
  | [] => None
  | x :: rest => if p x then Some O else S <$> findIndex p rest
  end.

(** [Object.keys(o).sort()] on string keys: code-unit order. *)
Definition string_le (a b : string) : Prop := String.leb a b = true.

#[global] Instance string_le_dec : RelDecision string_le.
Proof. intros a b. unfold string_le. apply _. Defined.

Definition sortedKeys {V : Type} (o : gmap string V) : list string :=
  merge_sort string_le (map_to_list o).*1.

(** One price bar as [BinanceAPI.formatKlines] builds it (the fields the
    strategy and the simulator read). *)
Record Candle : Type := {
  openTime : Z;
  open : Q;
  high : Q;
  low : Q;
  close : Q;
  volume : Q
}.

(** ** moment.js

    [moment(timestamp).format(fmt)] renders the timestamp in the time
    zone of the process; the zone is a parameter of the development.
    The strings it gives for ['YYYY-MM-DD'] serve as dictionary keys. *)
Class Moment : Type := { format : string -> Z -> string }.

(** [moment(endDate).diff(moment(startDate), 'days')] for two date
    strings, again in the zone of the process. *)
Class MomentDays : Type := { diffDays : string -> string -> Z }.

(** ** MathUtils *)
Module MathUtils.
Local Open Scope Q_scope.

Definition calculateStopLoss (entryPrice : Q) (direction : string)
    (leverage riskPercent : Q) : Q :=
  let priceRiskPercent := riskPercent ⊘ leverage in
  let priceChange := (priceRiskPercent ⊘ 100) ⊗ entryPrice in
  if String.eqb direction "LONG" then entryPrice ⊖ priceChange
  else entryPrice ⊕ priceChange.

Definition calculateTakeProfit (entryPrice : Q) (direction : string)
    (leverage profitPercent : Q) : Q :=
  let priceProfitPercent := profitPercent ⊘ leverage in
  let priceChange := (priceProfitPercent ⊘ 100) ⊗ entryPrice in
  if String.eqb direction "LONG" then entryPrice ⊕ priceChange
  else entryPrice ⊖ priceChange.

Definition calculateTradeResultPercent (entryPrice exitPrice : Q)
    (direction : string) : Q :=
  if String.eqb direction "LONG"
  then ((exitPrice ⊖ entryPrice) ⊘ entryPrice) ⊗ 100
  else ((entryPrice ⊖ exitPrice) ⊘ entryPrice) ⊗ 100.

(** [Math.round(x)] is the integer nearest to the number [x], ties
    upwards; no rounding of binary64 takes part in it. *)
Definition Math_round (x : Q) : Z := Qfloor (x + (1 # 2)).

(** [Math.pow(10, decimals)], taken as the number nearest to the power:
    the power itself for the decimals from 0 to 22 (every caller
    passes 2). *)
Definition Math_pow10 (decimals : Z) : Q := Binary64.fl (Qpower 10 decimals).

Definition round (number : Q) (decimals : Z) : Q :=
  inject_Z (Math_round (number ⊗ Math_pow10 decimals)) ⊘ Math_pow10 decimals.

(** [Math.max(...numbers)]; [None] is the [-Infinity] of an empty
    argument list, which no caller produces (a day group always holds
    a candle). *)
Definition max (numbers : list Q) : option Q :=
  match numbers with
  | [] => None
  | x :: rest => Some (fold_left Qmax rest x)
  end.

Definition min (numbers : list Q) : option Q :=
  match numbers with
  | [] => None
  | x :: rest => Some (fold_left Qmin rest x)
  end.

End MathUtils.

(** ** DateUtils *)
Module DateUtils.
Section WithZone.
Context `{Moment}.

Definition formatDate (timestamp : Z) : string :=
  format "YYYY-MM-DD HH:mm:ss" timestamp.

Definition getDateOnly (timestamp : Z) : string :=
  format "YYYY-MM-DD" timestamp.

Definition groupCandlesByDay (candles : list Candle) : gmap string (list Candle) :=
  fold_left
    (fun grouped candle =>
       let date := getDateOnly (openTime candle) in
       <[date := default [] (grouped !! date) ++ [candle]]> grouped)
    candles ∅.
End WithZone.

(** [moment(endTime).diff(moment(startTime), 'hours')]: the difference
    in milliseconds over 36e5, truncated towards zero. *)
Definition getHoursDifference (startTime endTime : Z) : Z :=
  Z.quot (endTime - startTime) 3600000.

Definition shouldCloseByTime (entryTime currentTime : Z) (maxHours : Q) : bool :=
  let hoursPassed := getHoursDifference entryTime currentTime in
  Qleb maxHours (inject_Z hoursPassed).

Definition getDaysDifference `{MomentDays} (startDate endDate : string) : Z :=
  diffDays startDate endDate.
End DateUtils.

(** ** BreakoutStrategy *)

(** The entry of [dailyLevels] for one date. *)
Module DayLevels.
Record t : Type := {
  currentHigh : option Q;
  currentLow : option Q;
  previousHigh : option Q;   (* [None]: null, no previous day *)
  previousLow : option Q;
  candles : list Candle
}.
End DayLevels.

(** The object [detectBreakout] returns. *)
Module Breakout.
Record t : Type := {
  type : option string;
  direction : option string;
  reason : option string;
  entryPrice : Q
}.
End Breakout.

(** The signal object [shouldOpenTrade] returns. *)
Module Signal.
Record t : Type := {
  date : string;
  time : string;
  type : option string;
  direction : string;
  entryPrice : Q;
  dailyHigh : option Q;
  dailyLow : option Q;
  reason : option string;
  candle : Candle
}.
End Signal.

Module BreakoutStrategy.
Local Open Scope Q_scope.

(** The body of the loop over the sorted dates of
    [calculateDailyLevels]; [previousDate] is [dates[i - 1]], absent
    when [i = 0]. *)
Fixpoint levelsLoop (dailyCandles : gmap string (list Candle))
    (previousDate : option string) (dates : list string)
    (dailyLevels : gmap string DayLevels.t) : gmap string DayLevels.t :=
  match dates with
  | [] => dailyLevels
  | currentDate :: rest =>
      let currentDayCandles := default [] (dailyCandles !! currentDate) in
      let currentHigh := MathUtils.max (map high currentDayCandles) in
      let currentLow := MathUtils.min (map low currentDayCandles) in
      let previous :=
        match previousDate with
        | Some previousDate =>
            let previousDayCandles := default [] (dailyCandles !! previousDate) in
            (MathUtils.max (map high previousDayCandles),
             MathUtils.min (map low previousDayCandles))
        | None => (None, None)
        end in
      levelsLoop dailyCandles (Some currentDate) rest
        (<[currentDate := {| DayLevels.currentHigh := currentHigh;
                             DayLevels.currentLow := currentLow;
                             DayLevels.previousHigh := fst previous;
                             DayLevels.previousLow := snd previous;
                             DayLevels.candles := currentDayCandles |}]> dailyLevels)
  end.

Definition calculateDailyLevels `{Moment} (candles : list Candle) : gmap string DayLevels.t :=
  let dailyCandles := DateUtils.groupCandlesByDay candles in
  let dates := sortedKeys dailyCandles in
  levelsLoop dailyCandles None dates ∅.

Definition detectBreakout (candle : Candle) (dailyHigh dailyLow : option Q)
    : option Breakout.t :=
  match dailyHigh, dailyLow with
  | Some dailyHigh', Some dailyLow' =>
      if negb (truthy dailyHigh) || negb (truthy dailyLow) then None
      else
        let breakout := {| Breakout.type := None;
                           Breakout.direction := None;
                           Breakout.reason := None;
                           Breakout.entryPrice := close candle |} in
        if Qltb dailyHigh' (high candle) then
          (* high breakout *)
          if Qltb dailyHigh' (open candle) && Qltb dailyHigh' (close candle) then
            Some {| Breakout.type := Some "BREAKOUT_HIGH"%string;
                    Breakout.direction := Some "LONG"%string;
                    Breakout.reason := Some "Body above previous high"%string;
                    Breakout.entryPrice := close candle |}
          else if Qltb (open candle) dailyHigh' && Qltb (close candle) dailyHigh' then
            Some {| Breakout.type := Some "BREAKOUT_HIGH"%string;
                    Breakout.direction := Some "SHORT"%string;
                    Breakout.reason :=
                      Some "Body below previous high, wick touched above"%string;
                    Breakout.entryPrice := close candle |}
          else
            Some {| Breakout.type := Some "BREAKOUT_HIGH"%string;
                    Breakout.direction := Breakout.direction breakout;
                    Breakout.reason := Breakout.reason breakout;
                    Breakout.entryPrice := Breakout.entryPrice breakout |}
        else if Qltb (low candle) dailyLow' then
          (* low breakout *)
          if Qltb (open candle) dailyLow' && Qltb (close candle) dailyLow' then
            Some {| Breakout.type := Some "BREAKOUT_LOW"%string;
                    Breakout.direction := Some "SHORT"%string;
                    Breakout.reason := Some "Body below previous low"%string;
                    Breakout.entryPrice := close candle |}
          else if Qltb dailyLow' (open candle) && Qltb dailyLow' (close candle) then
            Some {| Breakout.type := Some "BREAKOUT_LOW"%string;
                    Breakout.direction := Some "LONG"%string;
                    Breakout.reason :=
                      Some "Body above previous low, wick touched below"%string;
                    Breakout.entryPrice := close candle |}
          else
            Some {| Breakout.type := Some "BREAKOUT_LOW"%string;
                    Breakout.direction := Breakout.direction breakout;
                    Breakout.reason := Breakout.reason breakout;
                    Breakout.entryPrice := Breakout.entryPrice breakout |}
        else None
  | _, _ => None   (* a null level is falsy *)
  end.

Definition determineTradeDirection (breakoutType : string) (candle : Candle)
    (dailyHigh dailyLow : option Q) : option Breakout.t :=
  detectBreakout candle dailyHigh dailyLow.

Section WithZone.
Context `{Moment}.

Definition shouldOpenTrade (dailyLevels : gmap string DayLevels.t)
    (candle : Candle) (currentDate : string) (todayTrades : list Signal.t)
    : option Signal.t :=
  if (0 <? length todayTrades)%nat then None
  else
    match dailyLevels !! currentDate with
    | None => None
    | Some dayData =>
        if negb (truthy (DayLevels.previousHigh dayData))
           || negb (truthy (DayLevels.previousLow dayData)) then None
        else
          match detectBreakout candle (DayLevels.previousHigh dayData)
                  (DayLevels.previousLow dayData) with
          | Some breakout =>
              match Breakout.direction breakout with
              | Some direction =>
                  Some {| Signal.date := currentDate;
                          Signal.time := DateUtils.formatDate (openTime candle);
                          Signal.type := Breakout.type breakout;
                          Signal.direction := direction;
                          Signal.entryPrice := Breakout.entryPrice breakout;
                          Signal.dailyHigh := DayLevels.previousHigh dayData;
                          Signal.dailyLow := DayLevels.previousLow dayData;
                          Signal.reason := Breakout.reason breakout;
                          Signal.candle := candle |}
              | None => None
              end
          | None => None
          end
    end.

(** One turn of the loop of [processCandles] over the state
    [(signals, dailyTrades)]. *)
Definition processCandle (dailyLevels : gmap string DayLevels.t)
    (st : list Signal.t * gmap string Signal.t) (candle : Candle)
    : list Signal.t * gmap string Signal.t :=
  let '(signals, dailyTrades) := st in
  let currentDate := DateUtils.getDateOnly (openTime candle) in
  match dailyTrades !! currentDate with
  | Some _ => st   (* continue *)
  | None =>
      match shouldOpenTrade dailyLevels candle currentDate
              (match dailyTrades !! currentDate with
               | Some s => [s]
               | None => []
               end) with
      | Some signal => (signals ++ [signal], <[currentDate := signal]> dailyTrades)
      | None => st
      end
  end.

Definition scanCandles (dailyLevels : gmap string DayLevels.t)
    (candles : list Candle) (st : list Signal.t * gmap string Signal.t)
    : list Signal.t * gmap string Signal.t :=
  fold_left (processCandle dailyLevels) candles st.

Definition processCandles (candles : list Candle) : list Signal.t :=
  let dailyLevels := calculateDailyLevels candles in
  fst (scanCandles dailyLevels candles ([], ∅)).
End WithZone.

(** The statistics object of [getSignalsStats], without [byReason]. *)
Definition getSignalsStats (signals : list Signal.t) : list (string * nat) :=
  [ ("total", length signals);
    ("long", length (filter (fun s => Signal.direction s = "LONG") signals));
    ("short", length (filter (fun s => Signal.direction s = "SHORT") signals));
    ("breakoutHigh",
     length (filter (fun s => Signal.type s = Some "BREAKOUT_HIGH") signals));
    ("breakoutLow",
     length (filter (fun s => Signal.type s = Some "BREAKOUT_LOW") signals)) ]%string.
End BreakoutStrategy.

(** ** TradeSimulator *)

Module Trade.
Record t : Type := {
  id : string;
  signal : Signal.t;
  entryPrice : Q;
  entryTime : Z;
  direction : string;
  positionSize : Q;
  leverage : Q;
  stopLoss : Q;
  takeProfit : Q;
  exitPrice : option Q;
  exitTime : option Z;
  exitReason : option string;
  resultUSD : Q;
  resultPercent : Q;
  durationHours : Z
}.

(** The four assignments that close a trade. *)
Definition close (trade : t) (price : Q) (time : Z) (why : string) (hours : Z) : t :=
  {| id := id trade; signal := signal trade; entryPrice := entryPrice trade;
     entryTime := entryTime trade; direction := direction trade;
     positionSize := positionSize trade; leverage := leverage trade;
     stopLoss := stopLoss trade; takeProfit := takeProfit trade;
     exitPrice := Some price; exitTime := Some time; exitReason := Some why;
     resultUSD := resultUSD trade; resultPercent := resultPercent trade;
     durationHours := hours |}.

(** [trade.resultUSD = usd; trade.resultPercent = percent]. *)
Definition setResult (trade : t) (usd percent : Q) : t :=
  {| id := id trade; signal := signal trade; entryPrice := entryPrice trade;
     entryTime := entryTime trade; direction := direction trade;
     positionSize := positionSize trade; leverage := leverage trade;
     stopLoss := stopLoss trade; takeProfit := takeProfit trade;
     exitPrice := exitPrice trade; exitTime := exitTime trade;
     exitReason := exitReason trade;
     resultUSD := usd; resultPercent := percent;
     durationHours := durationHours trade |}.
End Trade.

(** The entry of [dailyResults] for one date. *)
Module DailyResult.
Record t : Type := {
  tradeExecuted : bool;
  trade : option Trade.t;
  reason : option string;
  balanceBefore : Q;
  balanceAfter : Q;
  dailyReturn : Q
}.
End DailyResult.

(** What [checkExitConditions] returns when a check fires. *)
Module ExitCondition.
Record t : Type := { price : Q; reason : string }.
End ExitCondition.

Module TradeSimulator.
Local Open Scope Q_scope.

(** The fields of a simulator object. *)
Record t : Type := {
  initialCapital : Q;
  leverage : Q;
  maxHours : Q;
  stopLossPercent : Q;
  takeProfitPercent : Q;
  currentBalance : Q;
  trades : list Trade.t;
  dailyResults : gmap string DailyResult.t
}.

Definition new (initialCapital leverage maxHours stopLossPercent takeProfitPercent : Q) : t :=
  {| initialCapital := initialCapital; leverage := leverage; maxHours := maxHours;
     stopLossPercent := stopLossPercent; takeProfitPercent := takeProfitPercent;
     currentBalance := initialCapital; trades := []; dailyResults := ∅ |}.

Definition calculateStopLoss (this : t) (entryPrice : Q) (direction : string) : Q :=
  MathUtils.calculateStopLoss entryPrice direction (leverage this) (stopLossPercent this).

Definition calculateTakeProfit (this : t) (entryPrice : Q) (direction : string) : Q :=
  MathUtils.calculateTakeProfit entryPrice direction (leverage this) (takeProfitPercent this).

Definition checkExitConditions (this : t) (candle : Candle) (trade : Trade.t)
    : option ExitCondition.t :=
  if DateUtils.shouldCloseByTime (Trade.entryTime trade) (openTime candle) (maxHours this)
  then Some {| ExitCondition.price := close candle; ExitCondition.reason := "TIME" |}
  else if String.eqb (Trade.direction trade) "LONG"
          && Qleb (low candle) (Trade.stopLoss trade)
  then Some {| ExitCondition.price := Trade.stopLoss trade; ExitCondition.reason := "SL" |}
  else if String.eqb (Trade.direction trade) "SHORT"
          && Qleb (Trade.stopLoss trade) (high candle)
  then Some {| ExitCondition.price := Trade.stopLoss trade; ExitCondition.reason := "SL" |}
  else if String.eqb (Trade.direction trade) "LONG"
          && Qleb (Trade.takeProfit trade) (high candle)
  then Some {| ExitCondition.price := Trade.takeProfit trade; ExitCondition.reason := "TP" |}
  else if String.eqb (Trade.direction trade) "SHORT"
          && Qleb (low candle) (Trade.takeProfit trade)
  then Some {| ExitCondition.price := Trade.takeProfit trade; ExitCondition.reason := "TP" |}
  else None.

(** Returns [(usd, percent)]; reads the exit price of a closed trade. *)
Definition calculateTradeResult (this : t) (trade : Trade.t) : Q * Q :=
  let pricePercent :=
    MathUtils.calculateTradeResultPercent (Trade.entryPrice trade)
      (default 0 (Trade.exitPrice trade)) (Trade.direction trade) in
  let resultUSD := (pricePercent ⊘ 100) ⊗ currentBalance this ⊗ leverage this in
  let capitalPercent := pricePercent ⊗ leverage this in
  (MathUtils.round resultUSD 2, MathUtils.round capitalPercent 2).

(** The results of the operations of [calculateTradeResult], the
    products inside the two [MathUtils.round] included, in the order
    they are made.  In the sources one that is beyond the largest
    double is an infinity. *)
Definition tradeResultSteps (this : t) (trade : Trade.t) : list Q :=
  let entryPrice := Trade.entryPrice trade in
  let exitPrice := default 0 (Trade.exitPrice trade) in
  let priceMove :=
    if String.eqb (Trade.direction trade) "LONG"
    then exitPrice ⊖ entryPrice else entryPrice ⊖ exitPrice in
  let pricePercent := (priceMove ⊘ entryPrice) ⊗ 100 in
  let resultUSD := (pricePercent ⊘ 100) ⊗ currentBalance this ⊗ leverage this in
  let capitalPercent := pricePercent ⊗ leverage this in
  [ priceMove; priceMove ⊘ entryPrice; pricePercent;
    pricePercent ⊘ 100; (pricePercent ⊘ 100) ⊗ currentBalance this; resultUSD;
    resultUSD ⊗ 100;
    capitalPercent; capitalPercent ⊗ 100 ].

Definition updateBalance (this : t) (tradeResult : Q) : t :=
  {| initialCapital := initialCapital this; leverage := leverage this;
     maxHours := maxHours this; stopLossPercent := stopLossPercent this;
     takeProfitPercent := takeProfitPercent this;
     currentBalance := MathUtils.round (currentBalance this ⊕ tradeResult) 2;
     trades := trades this; dailyResults := dailyResults this |}.

(** [this.trades.push(trade)]. *)
Definition pushTrade (this : t) (trade : Trade.t) : t :=
  {| initialCapital := initialCapital this; leverage := leverage this;
     maxHours := maxHours this; stopLossPercent := stopLossPercent this;
     takeProfitPercent := takeProfitPercent this;
     currentBalance := currentBalance this;
     trades := trades this ++ [trade]; dailyResults := dailyResults this |}.

(** [this.dailyResults[date] = result]. *)
Definition setDailyResult (this : t) (date : string) (result : DailyResult.t) : t :=
  {| initialCapital := initialCapital this; leverage := leverage this;
     maxHours := maxHours this; stopLossPercent := stopLossPercent this;
     takeProfitPercent := takeProfitPercent this;
     currentBalance := currentBalance this;
     trades := trades this; dailyResults := <[date := result]> (dailyResults this) |}.

Definition recordDailyResult (this : t) (date : string) (trade : Trade.t) : t :=
  setDailyResult this date
    {| DailyResult.tradeExecuted := true;
       DailyResult.trade := Some trade;
       DailyResult.reason := None;
       DailyResult.balanceBefore := currentBalance this ⊖ Trade.resultUSD trade;
       DailyResult.balanceAfter := currentBalance this;
       DailyResult.dailyReturn := Trade.resultUSD trade |}.

Definition recordNoTradeDay (this : t) (date : string) : t :=
  setDailyResult this date
    {| DailyResult.tradeExecuted := false;
       DailyResult.trade := None;
       DailyResult.reason := Some "No breakout detected"%string;
       DailyResult.balanceBefore := currentBalance this;
       DailyResult.balanceAfter := currentBalance this;
       DailyResult.dailyReturn := 0 |}.

(** The trade object as created on entry. *)
Definition openTrade (this : t) (signal : Signal.t) : Trade.t :=
  {| Trade.id := "trade_" +:+ NilZero.string_of_uint (Nat.to_uint (length (trades this) + 1));
     Trade.signal := signal;
     Trade.entryPrice := Signal.entryPrice signal;
     Trade.entryTime := openTime (Signal.candle signal);
     Trade.direction := Signal.direction signal;
     Trade.positionSize := currentBalance this ⊗ leverage this;
     Trade.leverage := leverage this;
     Trade.stopLoss :=
       calculateStopLoss this (Signal.entryPrice signal) (Signal.direction signal);
     Trade.takeProfit :=
       calculateTakeProfit this (Signal.entryPrice signal) (Signal.direction signal);
     Trade.exitPrice := None;
     Trade.exitTime := None;
     Trade.exitReason := None;
     Trade.resultUSD := 0;
     Trade.resultPercent := 0;
     Trade.durationHours := 0%Z |}.

(** Closing [trade] at [price] on [candle]: exit fields first, then the
    result computed from them. *)
Definition closeTrade (this : t) (trade : Trade.t) (price : Q) (candle : Candle)
    (why : string) : Trade.t :=
  let trade :=
    Trade.close trade price (openTime candle) why
      (DateUtils.getHoursDifference (Trade.entryTime trade) (openTime candle)) in
  let result := calculateTradeResult this trade in
  Trade.setResult trade (fst result) (snd result).

(** The [for] loop: the first candle whose check fires closes the trade
    ([break]); without one the trade is left open. *)
Fixpoint exitLoop (this : t) (trade : Trade.t) (remainingCandles : list Candle) : Trade.t :=
  match remainingCandles with
  | [] => trade
  | candle :: rest =>
      match checkExitConditions this candle trade with
      | Some exitCondition =>
          closeTrade this trade (ExitCondition.price exitCondition) candle
            (ExitCondition.reason exitCondition)
      | None => exitLoop this trade rest
      end
  end.

(** [if (!trade.exitPrice) { ... }]: reading [lastCandle.close] of an
    empty array throws a [TypeError]. *)
Definition closeAtEnd (this : t) (trade : Trade.t) (remainingCandles : list Candle)
    : Completion Trade.t :=
  if negb (truthy (Trade.exitPrice trade)) then
    match last remainingCandles with
    | Some lastCandle =>
        Return (closeTrade this trade (close lastCandle) lastCandle "END_OF_DAY")
    | None => Throw "TypeError: Cannot read properties of undefined (reading 'close')"
    end
  else Return trade.

Definition simulateTradeSilent (this : t) (signal : Signal.t)
    (remainingCandles : list Candle) : Completion (Trade.t * t) :=
  let trade := openTrade this signal in
  let trade := exitLoop this trade remainingCandles in
  trade ← closeAtEnd this trade remainingCandles;
  let this := updateBalance this (Trade.resultUSD trade) in
  let this := pushTrade this trade in
  let this := recordDailyResult this (Signal.date signal) trade in
  Return (trade, this).

(** [simulateTrade] is [simulateTradeSilent] with logging. *)
Definition simulateTrade (this : t) (signal : Signal.t)
    (remainingCandles : list Candle) : Completion (Trade.t * t) :=
  let trade := openTrade this signal in
  let trade := exitLoop this trade remainingCandles in
  trade ← closeAtEnd this trade remainingCandles;
  let this := updateBalance this (Trade.resultUSD trade) in
  let this := pushTrade this trade in
  let this := recordDailyResult this (Signal.date signal) trade in
  Return (trade, this).

(** The statistics object, field by field. *)
Definition getTradingStats (this : t) : list (string * Q) :=
  let winningTrades := List.filter (fun t => Qltb 0 (Trade.resultUSD t)) (trades this) in
  let losingTrades := List.filter (fun t => Qltb (Trade.resultUSD t) 0) (trades this) in
  let count (l : list Trade.t) : Q := inject_Z (Z.of_nat (length l)) in
  let sum (l : list Trade.t) : Q :=
    fold_left (fun sum t => sum ⊕ Trade.resultUSD t) l 0 in
  let totalReturn := currentBalance this ⊖ initialCapital this in
  let totalReturnPercent := (totalReturn ⊘ initialCapital this) ⊗ 100 in
  let winRate :=
    if (0 <? length (trades this))%nat
    then (count winningTrades ⊘ count (trades this)) ⊗ 100 else 0 in
  let avgWin :=
    if (0 <? length winningTrades)%nat
    then sum winningTrades ⊘ count winningTrades else 0 in
  let avgLoss :=
    if (0 <? length losingTrades)%nat
    then Qabs (sum losingTrades ⊘ count losingTrades) else 0 in
  [ ("totalTrades", count (trades this));
    ("winningTrades", count winningTrades);
    ("losingTrades", count losingTrades);
    ("winRate", MathUtils.round winRate 2);
    ("initialCapital", initialCapital this);
    ("finalBalance", currentBalance this);
    ("totalReturn", MathUtils.round totalReturn 2);
    ("totalReturnPercent", MathUtils.round totalReturnPercent 2);
    ("avgWin", MathUtils.round avgWin 2);
    ("avgLoss", MathUtils.round avgLoss 2) ]%string.

Definition getDailyResults (this : t) : gmap string DailyResult.t := dailyResults this.

Definition getTrades (this : t) : list Trade.t := trades this.
End TradeSimulator.

(** ** DataFormatter *)

(** Reading the property [k] of an object literal; [None] is [undefined]. *)
Definition prop {V : Type} (o : list (string * V)) (k : string) : option V :=
  snd <$> List.find (fun kv => String.eqb (fst kv) k) o.

(** The configuration object of the application. *)
Module Config.
Record t : Type := {
  symbol : string;
  capital : Q;
  leverage : Q;
  maxHours : Q;
  stopLossPercent : Q;
  takeProfitPercent : Q;
  outputDir : string;
  saveResults : bool
}.
End Config.

(** The metadata object of an export; [generatedAt], the time of the
    export, is left out. *)
Module Metadata.
Record t : Type := {
  symbol : string;
  startDate : string;
  endDate : string;
  totalDays : Z;
  strategy : string;
  parameters : list (string * Q)
}.
End Metadata.

(** The trade object inside a formatted daily result. *)
Module FormattedTrade.
Record t : Type := {
  id : string;
  direction : string;
  entryPrice : Q;
  exitPrice : option Q;
  exitReason : option string;
  durationHours : Z;
  resultUSD : Q;
  resultPercent : Q;
  stopLoss : Q;
  takeProfit : Q
}.
End FormattedTrade.

(** A formatted daily result: with [trade] when a trade was executed,
    with [reason] otherwise. *)
Module FormattedResult.
Record t : Type := {
  tradeExecuted : bool;
  balanceBefore : Q;
  balanceAfter : Q;
  dailyReturn : Q;
  trade : option FormattedTrade.t;
  reason : option string
}.
End FormattedResult.

(** The object that is validated and written to the file. *)
Module ExportData.
Record t : Type := {
  metadata : Metadata.t;
  dailyResults : gmap string FormattedResult.t;
  summary : list (string * option Q)
}.
End ExportData.

Module DataFormatter.
Local Open Scope Q_scope.

(** Arithmetic on an [undefined] property gives [NaN], not a number:
    [None]. *)
Definition calculateMaxDrawdown (tradingStats : list (string * Q)) : option Q :=
  avgLoss ← prop tradingStats "avgLoss";
  Some (Qabs avgLoss ⊗ 3).

Definition calculateMaxDrawdownPercent (tradingStats : list (string * Q)) : option Q :=
  maxDrawdown ← calculateMaxDrawdown tradingStats;
  initialCapital ← prop tradingStats "initialCapital";
  Some ((maxDrawdown ⊘ initialCapital) ⊗ 100).

(** The summary object: each field with the value read for it. *)
Definition formatSummary (tradingStats : list (string * Q)) : list (string * option Q) :=
  [ ("totalTrades", prop tradingStats "totalTrades");
    ("winningTrades", prop tradingStats "winningTrades");
    ("losingTrades", prop tradingStats "losingTrades");
    ("winRate", prop tradingStats "winRate");
    ("totalReturn", prop tradingStats "totalReturn");
    ("totalReturnPercent", prop tradingStats "totalReturnPercent");
    ("finalBalance", prop tradingStats "finalBalance");
    ("avgWin", prop tradingStats "avgWin");
    ("avgLoss", prop tradingStats "avgLoss");
    ("maxDrawdown", calculateMaxDrawdown tradingStats);
    ("maxDrawdownPercent", calculateMaxDrawdownPercent tradingStats) ]%string.

(** [candles[0].openTime] of an empty array throws. *)
Definition formatMetadata `{Moment} `{MomentDays} (symbol : string)
    (candles : list Candle) (config : Config.t) : Completion Metadata.t :=
  match head candles, last candles with
  | Some firstCandle, Some lastCandle =>
      let startDate := DateUtils.getDateOnly (openTime firstCandle) in
      let endDate := DateUtils.getDateOnly (openTime lastCandle) in
      let totalDays := (DateUtils.getDaysDifference startDate endDate + 1)%Z in
      Return {| Metadata.symbol := symbol;
                Metadata.startDate := startDate;
                Metadata.endDate := endDate;
                Metadata.totalDays := totalDays;
                Metadata.strategy := "breakout";
                Metadata.parameters :=
                  [ ("initialCapital", Config.capital config);
                    ("leverage", Config.leverage config);
                    ("maxHours", Config.maxHours config);
                    ("stopLossPercent", Config.stopLossPercent config);
                    ("takeProfitPercent", Config.takeProfitPercent config) ]%string |}
  | _, _ => Throw "TypeError: Cannot read properties of undefined (reading 'openTime')"
  end.

Definition formatDailyResult (result : DailyResult.t) : FormattedResult.t :=
  match DailyResult.tradeExecuted result, DailyResult.trade result with
  | true, Some trade =>
      {| FormattedResult.tradeExecuted := DailyResult.tradeExecuted result;
         FormattedResult.balanceBefore := DailyResult.balanceBefore result;
         FormattedResult.balanceAfter := DailyResult.balanceAfter result;
         FormattedResult.dailyReturn := DailyResult.dailyReturn result;
         FormattedResult.trade :=
           Some {| FormattedTrade.id := Trade.id trade;
                   FormattedTrade.direction := Trade.direction trade;
                   FormattedTrade.entryPrice := Trade.entryPrice trade;
                   FormattedTrade.exitPrice := Trade.exitPrice trade;
                   FormattedTrade.exitReason := Trade.exitReason trade;
                   FormattedTrade.durationHours := Trade.durationHours trade;
                   FormattedTrade.resultUSD := Trade.resultUSD trade;
                   FormattedTrade.resultPercent := Trade.resultPercent trade;
                   FormattedTrade.stopLoss := Trade.stopLoss trade;
                   FormattedTrade.takeProfit := Trade.takeProfit trade |};
         FormattedResult.reason := None |}
  | _, _ =>
      {| FormattedResult.tradeExecuted := DailyResult.tradeExecuted result;
         FormattedResult.balanceBefore := DailyResult.balanceBefore result;
         FormattedResult.balanceAfter := DailyResult.balanceAfter result;
         FormattedResult.dailyReturn := DailyResult.dailyReturn result;
         FormattedResult.trade := None;
         FormattedResult.reason :=
           Some (match DailyResult.reason result with
                 | Some reason => if String.eqb reason "" then "No breakout detected"
                                  else reason
                 | None => "No breakout detected"
                 end)%string |}
  end.

(** Each entry of [dailyResults] formatted under its date. *)
Definition formatDailyResults (dailyResults : gmap string DailyResult.t)
    : gmap string FormattedResult.t :=
  formatDailyResult <$> dailyResults.

(** One turn of the loop over the sorted dates: the state is
    [expectedBalance].  The message of the error is given without the
    two numbers. *)
Definition checkBalance (dailyResults : gmap string FormattedResult.t)
    (expectedBalance : option Q) (date : string) : Completion (option Q) :=
  match dailyResults !! date with
  | Some result =>
      let mismatch :=
        match expectedBalance with
        | Some expected =>
            let expectedRounded :=
              inject_Z (MathUtils.Math_round (expected ⊗ 100)) ⊘ 100 in
            let actualRounded :=
              inject_Z (MathUtils.Math_round (FormattedResult.balanceBefore result ⊗ 100))
              ⊘ 100 in
            negb (Qeq_bool actualRounded expectedRounded)
        | None => false
        end in
      if mismatch then Throw ("Balance inconsistency on " +:+ date)
      else Return (Some (FormattedResult.balanceAfter result))
  | None => Throw "TypeError: Cannot read properties of undefined (reading 'balanceBefore')"
  end.

Definition validateBalanceConsistency (dailyResults : gmap string FormattedResult.t)
    : Completion unit :=
  let dates := sortedKeys dailyResults in
  _ ← forEach (checkBalance dailyResults) dates None;
  Return tt.

(** The checks of [validateData] in their order; a thrown error is
    caught and makes the result [false].  The three objects of the data
    are always there in an [ExportData.t]. *)
Definition validateDataChecks (data : ExportData.t) : Completion unit :=
  if String.eqb (Metadata.symbol (ExportData.metadata data)) ""
  then Throw "Missing metadata or symbol"
  else if (length (map_to_list (ExportData.dailyResults data)).*1 =? 0)%nat
  then Throw "No daily results found"
  else validateBalanceConsistency (ExportData.dailyResults data).

Definition validateData (data : ExportData.t) : bool :=
  match validateDataChecks data with
  | Return _ => true
  | Throw _ => false
  end.
End DataFormatter.

(** ** BacktestEngine *)

(** The object [runBacktest] returns. *)
Module BacktestData.
Record t : Type := {
  symbol : string;
  totalCandles : nat;
  signals : list Signal.t;
  trades : list Trade.t;
  stats : list (string * nat);
  tradingStats : list (string * Q);
  dailyResults : gmap string DailyResult.t
}.
End BacktestData.

Module BacktestEngine.
(** The fields of an engine object that the simulation reads and
    writes (the strategy carries no state between calls, the exporter
    only writes files). *)
Record t : Type := {
  simulator : TradeSimulator.t;
  signals : list Signal.t;
  trades : list Trade.t
}.

Definition new (initialCapital leverage maxHours stopLossPercent takeProfitPercent : Q) : t :=
  {| simulator :=
       TradeSimulator.new initialCapital leverage maxHours stopLossPercent takeProfitPercent;
     signals := [];
     trades := [] |}.

Definition groupSignalsByDay (this : t) : gmap string (list Signal.t) :=
  fold_left
    (fun signalsByDay signal =>
       <[Signal.date signal :=
           default [] (signalsByDay !! Signal.date signal) ++ [signal]]> signalsByDay)
    (signals this) ∅.

(** [Array.from(days).sort()] for the set of the candles' dates. *)
Definition getAllDays `{Moment} (candles : list Candle) : list string :=
  let days : gset string :=
    fold_left (fun days candle => days ∪ {[DateUtils.getDateOnly (openTime candle)]})
      candles ∅ in
  merge_sort string_le (elements days).

Definition showSignalAndTrade (this : t) (signal : Signal.t)
    (remainingCandles : list Candle) : Completion t :=
  r ← TradeSimulator.simulateTradeSilent (simulator this) signal remainingCandles;
  Return {| simulator := snd r; signals := signals this;
            trades := trades this ++ [fst r] |}.

(** [candles.slice(entryCandleIndex + 1)] for the signal's candle, or
    [None] when [findIndex] gives [-1]. *)
Definition remainingCandles (candles : list Candle) (signal : Signal.t)
    : option (list Candle) :=
  entryCandleIndex ←
    findIndex (fun c => (openTime c =? openTime (Signal.candle signal))%Z) candles;
  Some (drop (entryCandleIndex + 1) candles).

Definition simulateAllTradesWithLogs `{Moment} (this : t) (candles : list Candle)
    : Completion t :=
  let this := {| simulator := simulator this; signals := signals this; trades := [] |} in
  let signalsByDay := groupSignalsByDay this in
  let allDays := getAllDays candles in
  forEach
    (fun this day =>
       let daySignals := default [] (signalsByDay !! day) in
       if (0 <? length daySignals)%nat then
         forEach
           (fun this signal =>
              match remainingCandles candles signal with
              | None => Return this   (* continue *)
              | Some remaining => showSignalAndTrade this signal remaining
              end)
           daySignals this
       else Return this)
    allDays this.

(** [runBacktest] up to the export, whose failures are caught and
    logged; the engine after the run comes with the returned data. *)
Definition runBacktest `{Moment} (this : t) (candles : list Candle) (symbol : string)
    : Completion (t * BacktestData.t) :=
  let this :=
    {| simulator := simulator this;
       signals := BreakoutStrategy.processCandles candles;
       trades := trades this |} in
  this ← simulateAllTradesWithLogs this candles;
  Return (this,
          {| BacktestData.symbol := symbol;
             BacktestData.totalCandles := length candles;
             BacktestData.signals := signals this;
             BacktestData.trades := trades this;
             BacktestData.stats := BreakoutStrategy.getSignalsStats (signals this);
             BacktestData.tradingStats := TradeSimulator.getTradingStats (simulator this);
             BacktestData.dailyResults := TradeSimulator.getDailyResults (simulator this) |}).
End BacktestEngine.

(** ** ResultsExporter *)
Module ResultsExporter.
Definition formatBacktestData `{Moment} `{MomentDays} (backtestData : BacktestData.t)
    (symbol : string) (candles : list Candle) (config : Config.t)
    : Completion ExportData.t :=
  metadata ← DataFormatter.formatMetadata symbol candles config;
  Return {| ExportData.metadata := metadata;
            ExportData.dailyResults :=
              DataFormatter.formatDailyResults (BacktestData.dailyResults backtestData);
            ExportData.summary :=
              DataFormatter.formatSummary (BacktestData.tradingStats backtestData) |}.
End ResultsExporter.

(** ** A zone to run the model in: UTC

    [format] for the two patterns the sources use, with the proleptic
    Gregorian calendar. *)
Module UTC.
Definition digit (n : Z) : ascii := ascii_of_N (48 + Z.to_N n).

Definition pad2 (n : Z) : string :=
  String (digit ((n / 10) mod 10)) (String (digit (n mod 10)) EmptyString).

Definition pad4 (n : Z) : string := pad2 (n / 100) +:+ pad2 (n mod 100).

(** Year, month and day of the day number [days] (0 is 1970-01-01). *)
Definition civil (days : Z) : Z * Z * Z :=
  let z := days + 719468 in
  let era := z / 146097 in
  let doe := z - era * 146097 in
  let yoe := (doe - doe / 1460 + doe / 36524 - doe / 146096) / 365 in
  let doy := doe - (365 * yoe + yoe / 4 - yoe / 100) in
  let mp := (5 * doy + 2) / 153 in
  let d := doy - (153 * mp + 2) / 5 + 1 in
  let m := if mp <? 10 then mp + 3 else mp - 9 in
  let y := yoe + era * 400 + (if m <=? 2 then 1 else 0) in
  (y, m, d).

Definition formatUTC (fmt : string) (timestamp : Z) : string :=
  let '(y, m, d) := civil (timestamp / 86400000) in
  let ms := timestamp mod 86400000 in
  let date := pad4 y +:+ "-" +:+ pad2 m +:+ "-" +:+ pad2 d in
  if String.eqb fmt "YYYY-MM-DD" then date
  else date +:+ " " +:+ pad2 (ms / 3600000) +:+ ":" +:+ pad2 ((ms / 60000) mod 60)
            +:+ ":" +:+ pad2 ((ms / 1000) mod 60).

(** The day number of a year, month and day. *)
Definition daysFromCivil (y m d : Z) : Z :=
  let y := if m <=? 2 then y - 1 else y in
  let era := y / 400 in
  let yoe := y - era * 400 in
  let doy := (153 * (if 2 <? m then m - 3 else m + 9) + 2) / 5 + d - 1 in
  let doe := yoe * 365 + yoe / 4 - yoe / 100 + doy in
  era * 146097 + doe - 719468.

Definition number (s : string) : Z :=
  fold_left (fun n c => n * 10 + (Z.of_N (N_of_ascii c) - 48)) (list_ascii_of_string s) 0.

(** The day number of a date written [YYYY-MM-DD]. *)
Definition parseDate (s : string) : Z :=
  daysFromCivil (number (String.substring 0 4 s)) (number (String.substring 5 2 s))
    (number (String.substring 8 2 s)).
End UTC.

#[global] Instance moment_utc : Moment := {| format := UTC.formatUTC |}.

#[global] Instance moment_days_utc : MomentDays :=
  {| diffDays := fun startDate endDate => UTC.parseDate endDate - UTC.parseDate startDate |}.

(** ** Sample bars *)
Module Samples.
Local Open Scope Q_scope.

Definition bar (t : Z) (o h l c : Q) : Candle :=
  {| openTime := t; open := o; high := h; low := l; close := c; volume := 1 |}.

(** 2025-08-25 00:00:00 UTC, and one hour in milliseconds. *)
Definition day1 : Z := 1756080000000.
Definition hour : Z := 3600000.
Definition day2 : Z := (day1 + 24 * hour)%Z.

(** Previous-day range 97..99; on the next day a bar with its body
    above 99 closes at 100, and the bar after it reaches 104.5. *)
Definition takeProfitRun : list Candle :=
  [ bar day1 98 99 97 98;
    bar day2 (995 # 10) (1005 # 10) (992 # 10) 100;
    bar (day2 + hour) 100 (1045 # 10) (995 # 10) 104 ].

(** The signal the second bar of [takeProfitRun] gives. *)
Definition longAt100 : Signal.t :=
  {| Signal.date := "2025-08-26";
     Signal.time := "2025-08-26 00:00:00";
     Signal.type := Some "BREAKOUT_HIGH"%string;
     Signal.direction := "LONG";
     Signal.entryPrice := 100;
     Signal.dailyHigh := Some 99;
     Signal.dailyLow := Some 97;
     Signal.reason := Some "Body above previous high"%string;
     Signal.candle := bar day2 (995 # 10) (1005 # 10) (992 # 10) 100 |}.

(** After the long breakout of 00:00, the bar of 01:00 on the same date
    has its body below the previous low 97: a short breakout. *)
Definition breakdownBar : Candle := bar (day2 + hour) 96 (965 # 10) 95 (955 # 10).

Definition suppressedRun : list Candle :=
  [ bar day1 98 99 97 98;
    bar day2 (995 # 10) (1005 # 10) (992 # 10) 100;
    breakdownBar ].

(** [takeProfitRun] followed by a third day: a long entry at 105 above
    the second day's high 104.5, stopped out by the next bar at 102.9. *)
Definition day3 : Z := (day2 + 24 * hour)%Z.

Definition winLossRun : list Candle :=
  takeProfitRun
  ++ [ bar day3 105 106 (Binary64.fl (1048 # 10)) 105;
       bar (day3 + hour) 105 (1055 # 10) 102 103 ].

(** Capital 100, leverage 5, at most 4 hours, stop-loss 10%, take-profit 20%. *)
Definition simulator : TradeSimulator.t := TradeSimulator.new 100 5 4 10 20.

(** Formatted daily results of two days whose balances do not follow
    on one another: 120 after the first, 119 before the second. *)
Definition formattedDay (balanceBefore balanceAfter : Q) : FormattedResult.t :=
  {| FormattedResult.tradeExecuted := false;
     FormattedResult.balanceBefore := balanceBefore;
     FormattedResult.balanceAfter := balanceAfter;
     FormattedResult.dailyReturn := balanceAfter ⊖ balanceBefore;
     FormattedResult.trade := None;
     FormattedResult.reason := Some "No breakout detected"%string |}.

Definition brokenResults : gmap string FormattedResult.t :=
  <["2025-08-26"%string := formattedDay 119 119]>
    (<["2025-08-25"%string := formattedDay 100 120]> ∅).

(** The default configuration of the application. *)
Definition config : Config.t :=
  {| Config.symbol := "BTCUSDT"; Config.capital := 100; Config.leverage := 5;
     Config.maxHours := 4; Config.stopLossPercent := 10;
     Config.takeProfitPercent := 20; Config.outputDir := "./results";
     Config.saveResults := true |}.

(** The bar after the entry that reaches the take-profit, and a bar
    that stays between 98 and 104. *)
Definition reachingBar : Candle := bar (day2 + hour) 100 (1045 # 10) (995 # 10) 104.
Definition quietBar : Candle := bar (day2 + hour) 100 101 99 (1005 # 10).

(** The closed trade and the simulator after [longAt100] meets
    [reachingBar]. *)
Definition tpTrade : Trade.t :=
  let trade := TradeSimulator.openTrade simulator longAt100 in
  TradeSimulator.closeTrade simulator trade (Trade.takeProfit trade) reachingBar "TP".

Definition tpState : TradeSimulator.t :=
  TradeSimulator.recordDailyResult
    (TradeSimulator.pushTrade
       (TradeSimulator.updateBalance simulator (Trade.resultUSD tpTrade)) tpTrade)
    "2025-08-26" tpTrade.

(** A bar that reaches the stop-loss 98 of [longAt100], and a simulator
    with 50.25 of capital: two percent of it times the leverage 5 is a
    tie between two cents. *)
Definition stopBar : Candle := bar (day2 + hour) 100 101 97 98.
Definition tieSimulator : TradeSimulator.t := TradeSimulator.new (5025 # 100) 5 4 10 20.

(** A bar within the stop-loss and the take-profit of [longAt100] that
    closes at the number nearest to 98.192. *)
Definition fadingBar : Candle :=
  bar (day2 + hour) 100 101 99 (Binary64.fl (98192 # 1000)).

(** A simulator whose percentages are too small to move a price of 100. *)
Definition tinySimulator : TradeSimulator.t :=
  TradeSimulator.new 100 5 4 (Binary64.fl (1 # 100000000000000))
    (Binary64.fl (2 # 100000000000000)).

(** The same for [quietBar], after which the bars run out. *)
Definition quietTrade : Trade.t :=
  TradeSimulator.closeTrade simulator (TradeSimulator.openTrade simulator longAt100)
    (close quietBar) quietBar "END_OF_DAY".

Definition quietState : TradeSimulator.t :=
  TradeSimulator.recordDailyResult
    (TradeSimulator.pushTrade
       (TradeSimulator.updateBalance simulator (Trade.resultUSD quietTrade)) quietTrade)
    "2025-08-26" quietTrade.
End Samples.

(** ** The exit checks, as conditions on a bar and a trade *)
Module ExitChecks.
Local Open Scope Q_scope.

Definition TIME (candle : Candle) : ExitCondition.t :=
  {| ExitCondition.price := close candle; ExitCondition.reason := "TIME" |}.
Definition SL (trade : Trade.t) : ExitCondition.t :=
  {| ExitCondition.price := Trade.stopLoss trade; ExitCondition.reason := "SL" |}.
Definition TP (trade : Trade.t) : ExitCondition.t :=
  {| ExitCondition.price := Trade.takeProfit trade; ExitCondition.reason := "TP" |}.



End ExitChecks.

(** ** The profit factor of the specification

    The sum of the winning [resultUSD] over the absolute value of the
    sum of the losing ones; [None] (null) without losing trades.  The
    sources compute no such value; this definition follows the
    specification's words, for comparison. *)
Module Spec.
Local Open Scope Q_scope.

Definition profitFactor (trades : list Trade.t) : option Q :=
  let winning := List.filter (fun t => Qltb 0 (Trade.resultUSD t)) trades in
  let losing := List.filter (fun t => Qltb (Trade.resultUSD t) 0) trades in
  let sum (l : list Trade.t) : Q := fold_left (fun sum t => sum + Trade.resultUSD t) l 0 in
  match losing with
  | [] => None
  | _ => Some (sum winning / Qabs (sum losing))
  end.
End Spec.

(** ** What a run of trades leaves behind

    Notions to state what the simulator holds after trades were
    simulated one after the other: the balance, the entries
    [recordDailyResult] wrote, and the body of the engine's loop over
    the signals. *)
Module RunLog.
Local Open Scope Q_scope.

(** The balance after trades with these results, from [balance]. *)
Definition balanceAfter (balance : Q) (trades : list Trade.t) : Q :=
  fold_left (fun balance trade => MathUtils.round (balance ⊕ Trade.resultUSD trade) 2)
    trades balance.

(** The daily result [recordDailyResult] writes for [trade] when the
    balance after it is [balance]. *)
Definition dailyResult (balance : Q) (trade : Trade.t) : DailyResult.t :=
  {| DailyResult.tradeExecuted := true;
     DailyResult.trade := Some trade;
     DailyResult.reason := None;
     DailyResult.balanceBefore := balance ⊖ Trade.resultUSD trade;
     DailyResult.balanceAfter := balance;
     DailyResult.dailyReturn := Trade.resultUSD trade |}.

(** The daily results written for the trades, in their order. *)
Fixpoint dailyEntries (balance : Q) (trades : list Trade.t)
    : list (string * DailyResult.t) :=
  match trades with
  | [] => []
  | trade :: rest =>
      let balance' := MathUtils.round (balance ⊕ Trade.resultUSD trade) 2 in
      (Signal.date (Trade.signal trade), dailyResult balance' trade)
      :: dailyEntries balance' rest
  end.

(** Writing entries into a dictionary, a later one over an earlier one
    of the same date. *)
Definition record {V : Type} (entries : list (string * V)) (o : gmap string V)
    : gmap string V :=
  fold_left (fun o entry => <[entry.1 := entry.2]> o) entries o.

(** The body of the loop over the signals of a day in
    [simulateAllTradesWithLogs]. *)
Definition simulateSignal (candles : list Candle) (this : BacktestEngine.t)
    (signal : Signal.t) : Completion BacktestEngine.t :=
  match BacktestEngine.remainingCandles candles signal with
  | None => Return this
  | Some remaining => BacktestEngine.showSignalAndTrade this signal remaining
  end.
End RunLog.

(** ** Balances that follow on one another

    What [validateBalanceConsistency] compares: the balance before a
    day and the balance after the day before it in the sorted dates,
    both rounded to hundredths. *)
Module BalanceChain.
Local Open Scope Q_scope.

Definition follows (previous next : FormattedResult.t) : Prop :=
  inject_Z (MathUtils.Math_round (FormattedResult.balanceBefore next ⊗ 100)) ⊘ 100
  == inject_Z (MathUtils.Math_round (FormattedResult.balanceAfter previous ⊗ 100)) ⊘ 100.

Definition chained (dailyResults : gmap string FormattedResult.t) : Prop :=
  forall pre date1 date2 post result1 result2,
    sortedKeys dailyResults = pre ++ date1 :: date2 :: post ->
    dailyResults !! date1 = Some result1 ->
    dailyResults !! date2 = Some result2 ->
    follows result1 result2.
End BalanceChain.

(** * Properties *)

(** ** The rounding of binary64 *)
Section Binary64Facts.
Local Open Scope Q_scope.
Import Binary64.

Lemma rne_floor (x : Q) : (Qfloor x <= rne x <= Qfloor x + 1)%Z.
Proof.
  unfold rne. cbv zeta.
  destruct (Qcompare _ _); [destruct (Z.even _)|..]; lia.
Qed.

Lemma rne_le (x y : Q) : x <= y -> (rne x <= rne y)%Z.
Proof.
  intros Hxy. pose proof (Qfloor_resp_le x y Hxy) as Hf.
  destruct (Z.eq_dec (Qfloor x) (Qfloor y)) as [E|NE].
  - unfold rne. cbv zeta. rewrite E.
    destruct (Qcompare (x - inject_Z (Qfloor y)) (1 # 2)) eqn:Cx;
      destruct (Qcompare (y - inject_Z (Qfloor y)) (1 # 2)) eqn:Cy;
      first [apply Qeq_alt in Cx | apply Qlt_alt in Cx | apply Qgt_alt in Cx];
      first [apply Qeq_alt in Cy | apply Qlt_alt in Cy | apply Qgt_alt in Cy];
      try (destruct (Z.even (Qfloor y))); try lia; exfalso; lra.
  - pose proof (rne_floor x). pose proof (rne_floor y). lia.
Qed.

Lemma rne_Z (n : Z) : rne (inject_Z n) = n.
Proof.
  unfold rne. cbv zeta. rewrite Qfloor_Z.
  destruct (Qcompare (inject_Z n - inject_Z n) (1 # 2)) eqn:C; [| reflexivity |].
  - apply Qeq_alt in C. exfalso. lra.
  - apply Qgt_alt in C. exfalso. lra.
Qed.

Lemma rne_comp (x y : Q) : x == y -> rne x = rne y.
Proof.
  intros E. unfold rne. cbv zeta. rewrite (Qfloor_comp x y E).
  assert (E' : x - inject_Z (Qfloor y) == y - inject_Z (Qfloor y)) by (rewrite E; reflexivity).
  rewrite (Qcompare_comp _ _ E' (1 # 2) (1 # 2) (Qeq_refl _)). reflexivity.
Qed.

Lemma pow2_pos (e : Z) : 0 < 2 ^ e.
Proof. apply Qpower_0_lt. reflexivity. Qed.

Lemma pow2_le (a b : Z) : (a <= b)%Z -> 2 ^ a <= 2 ^ b.
Proof. intros H. apply Qpower_le_compat_l; [exact H | discriminate]. Qed.

Lemma pow2_plus (a b : Z) : 2 ^ (a + b) == 2 ^ a * 2 ^ b.
Proof. apply Qpower_plus. discriminate. Qed.

Lemma pow2_Z (n : Z) : (0 <= n)%Z -> inject_Z (2 ^ n) == 2 ^ n.
Proof. intros H. apply (Zpower_Qpower 2 n H). Qed.

Lemma ilog2_spec (x : Q) : 0 < x -> 2 ^ ilog2 x <= x /\ x < 2 ^ (ilog2 x + 1).
Proof.
  intros Hx. unfold ilog2. cbv zeta.
  destruct x as [n d]. cbn [Qnum Qden].
  assert (Hn : (0 < n)%Z) by (unfold Qlt in Hx; cbn in Hx; lia).
  set (a := Z.log2 n). set (b := Z.log2 (Z.pos d)).
  assert (Ha : (0 <= a)%Z) by apply Z.log2_nonneg.
  assert (Hb : (0 <= b)%Z) by apply Z.log2_nonneg.
  destruct (Z.log2_spec n Hn) as [Ha1 Ha2]. fold a in Ha1, Ha2.
  destruct (Z.log2_spec (Z.pos d) ltac:(lia)) as [Hb1 Hb2]. fold b in Hb1, Hb2.
  assert (Hx' : n # d == inject_Z n / inject_Z (Z.pos d)) by apply Qmake_Qdiv.
  assert (HD : 0 < inject_Z (Z.pos d)) by (change 0 with (inject_Z 0); rewrite <- Zlt_Qlt; lia).
  assert (Hupper : n # d < 2 ^ (a - b + 1)).
  { rewrite Hx'. apply Qlt_shift_div_r; [exact HD|].
    apply Qlt_le_trans with (y := 2 ^ (a - b + 1) * 2 ^ b).
    - rewrite <- pow2_plus. replace (a - b + 1 + b)%Z with (Z.succ a) by lia.
      rewrite <- pow2_Z by lia. rewrite <- Zlt_Qlt. exact Ha2.
    - apply Qmult_le_l; [apply pow2_pos|].
      rewrite <- pow2_Z by lia. rewrite <- Zle_Qle. exact Hb1. }
  assert (Hlower : 2 ^ (a - b - 1) <= n # d).
  { rewrite Hx'. apply Qle_shift_div_l; [exact HD|].
    apply Qle_trans with (y := 2 ^ (a - b - 1) * 2 ^ (b + 1)).
    - apply Qmult_le_l; [apply pow2_pos|].
      rewrite <- pow2_Z by lia. rewrite <- Zle_Qle. change (b + 1)%Z with (Z.succ b). lia.
    - rewrite <- pow2_plus. replace (a - b - 1 + (b + 1))%Z with a by lia.
      rewrite <- pow2_Z by lia. rewrite <- Zle_Qle. exact Ha1. }
  destruct (Qle_bool (2 ^ (a - b)) (n # d)) eqn:E.
  - apply Qle_bool_iff in E. split; assumption.
  - assert (Hlt : n # d < 2 ^ (a - b)).
    { apply Qnot_le_lt. intros Hle. apply Qle_bool_iff in Hle. congruence. }
    replace (a - b - 1 + 1)%Z with (a - b)%Z by lia. split; assumption.
Qed.

Lemma ilog2_le (x y : Q) : 0 < x -> x <= y -> (ilog2 x <= ilog2 y)%Z.
Proof.
  intros Hx Hxy. destruct (ilog2_spec x Hx) as [Hlo _].
  destruct (ilog2_spec y) as [_ Hhi]; [lra|].
  assert (H : 2 ^ ilog2 x < 2 ^ (ilog2 y + 1)) by lra.
  apply Qpower_lt_compat_l_inv in H; [lia | reflexivity].
Qed.

Lemma ilog2_comp (x y : Q) : 0 < x -> x == y -> ilog2 x = ilog2 y.
Proof.
  intros Hx E.
  assert (ilog2 x <= ilog2 y)%Z by (apply ilog2_le; [exact Hx | lra]).
  assert (ilog2 y <= ilog2 x)%Z by (apply ilog2_le; lra).
  lia.
Qed.

Lemma Qabs_zero (x : Q) : Qabs x == 0 -> x == 0.
Proof.
  intros E. destruct (Qlt_le_dec x 0) as [H|H].
  - rewrite Qabs_neg in E by lra. lra.
  - rewrite Qabs_pos in E by exact H. exact E.
Qed.

Lemma exponent_comp (x y : Q) : ~ x == 0 -> x == y -> exponent x = exponent y.
Proof.
  intros Hx E. unfold exponent. rewrite (ilog2_comp (Qabs x) (Qabs y)); [reflexivity| |].
  - destruct (Qlt_le_dec 0 (Qabs x)) as [H|H]; [exact H|].
    exfalso. apply Hx. pose proof (Qabs_nonneg x).
    apply Qabs_zero. lra.
  - rewrite E. reflexivity.
Qed.

Lemma exponent_le (x y : Q) :
  0 < Qabs x -> Qabs x <= Qabs y -> (exponent x <= exponent y)%Z.
Proof.
  intros Hx Hxy. unfold exponent.
  pose proof (ilog2_le _ _ Hx Hxy). lia.
Qed.

Lemma fl_value (x : Q) :
  fl x == inject_Z (rne (x / 2 ^ exponent x)) * 2 ^ exponent x.
Proof.
  unfold fl. destruct (Qeq_bool x 0) eqn:E.
  - apply Qeq_bool_iff in E. generalize (exponent x). intros e.
    rewrite (rne_comp (x / 2 ^ e) (inject_Z 0)).
    + rewrite rne_Z. ring.
    + rewrite E. unfold Qdiv. ring.
  - apply Qred_correct.
Qed.

Lemma fl_comp (x y : Q) : x == y -> fl x = fl y.
Proof.
  intros E. unfold fl.
  rewrite (Qeqb_comp x y E 0 0 (Qeq_refl 0)).
  destruct (Qeq_bool y 0) eqn:E0; [reflexivity|].
  apply Qeq_bool_neq in E0.
  assert (Hx : ~ x == 0) by (rewrite E; exact E0).
  rewrite (exponent_comp x y Hx E).
  apply Qred_complete.
  rewrite (rne_comp (x / 2 ^ exponent y) (y / 2 ^ exponent y)); [reflexivity|].
  rewrite E. reflexivity.
Qed.

Lemma fl_nonneg (x : Q) : 0 <= x -> 0 <= fl x.
Proof.
  intros Hx. rewrite fl_value. pose proof (pow2_pos (exponent x)) as Hp.
  apply Qmult_le_0_compat; [|lra].
  change 0 with (inject_Z 0). rewrite <- Zle_Qle. rewrite <- (rne_Z 0).
  apply rne_le. apply Qle_shift_div_l; [exact Hp|].
  change (inject_Z 0) with 0. rewrite Qmult_0_l. exact Hx.
Qed.

Lemma fl_nonpos (x : Q) : x <= 0 -> fl x <= 0.
Proof.
  intros Hx. rewrite fl_value. pose proof (pow2_pos (exponent x)) as Hp.
  assert (H : inject_Z (rne (x / 2 ^ exponent x)) <= 0).
  { change 0 with (inject_Z 0). rewrite <- Zle_Qle. rewrite <- (rne_Z 0).
    apply rne_le. apply Qle_shift_div_r; [exact Hp|].
    change (inject_Z 0) with 0. rewrite Qmult_0_l. exact Hx. }
  setoid_replace 0 with (0 * 2 ^ exponent x) using relation Qeq by ring.
  apply Qmult_le_compat_r; lra.
Qed.

Lemma fl_same_exponent (x y : Q) :
  exponent x = exponent y -> x <= y -> fl x <= fl y.
Proof.
  intros E Hxy. rewrite !fl_value, E. pose proof (pow2_pos (exponent y)) as Hp.
  apply Qmult_le_compat_r; [|lra].
  rewrite <- Zle_Qle. apply rne_le.
  unfold Qdiv. apply Qmult_le_compat_r; [exact Hxy|].
  apply Qlt_le_weak, Qinv_lt_0_compat, Hp.
Qed.

Lemma step_up (a b : Z) : (a < b)%Z -> inject_Z (2 ^ 53) * 2 ^ a <= inject_Z (2 ^ 52) * 2 ^ b.
Proof.
  intros H. apply Qle_trans with (y := inject_Z (2 ^ 52) * 2 ^ (a + 1)).
  - rewrite pow2_plus. change (2 ^ 1) with 2.
    change (inject_Z (2 ^ 53)) with (inject_Z (2 ^ 52) * 2). apply Qle_lteq. right. ring.
  - apply Qmult_le_l; [reflexivity|]. apply pow2_le. lia.
Qed.

Lemma fl_mono_pos (x y : Q) : 0 < x -> x <= y -> fl x <= fl y.
Proof.
  intros Hx Hxy.
  assert (Hax : Qabs x == x) by (apply Qabs_pos; lra).
  assert (Hay : Qabs y == y) by (apply Qabs_pos; lra).
  assert (Hle : (exponent x <= exponent y)%Z) by (apply exponent_le; lra).
  destruct (Z.eq_dec (exponent x) (exponent y)) as [E|NE];
    [apply fl_same_exponent; assumption|].
  assert (Hlt : (exponent x < exponent y)%Z) by lia.
  pose proof (pow2_pos (exponent x)) as Hpx. pose proof (pow2_pos (exponent y)) as Hpy.
  apply Qle_trans with (y := inject_Z (2 ^ 53) * 2 ^ exponent x);
    [|apply Qle_trans with (y := inject_Z (2 ^ 52) * 2 ^ exponent y);
       [apply step_up; exact Hlt|]].
  - rewrite fl_value. apply Qmult_le_compat_r; [|lra].
    rewrite <- Zle_Qle. rewrite <- (rne_Z (2 ^ 53)). apply rne_le.
    apply Qle_shift_div_r; [exact Hpx|].
    destruct (ilog2_spec (Qabs x)) as [_ Hhi]; [lra|].
    rewrite (pow2_Z 53) by lia. rewrite <- pow2_plus.
    apply Qle_trans with (y := 2 ^ (ilog2 (Qabs x) + 1)); [lra|].
    apply pow2_le. unfold exponent. lia.
  - rewrite fl_value. apply Qmult_le_compat_r; [|lra].
    rewrite <- Zle_Qle. rewrite <- (rne_Z (2 ^ 52)). apply rne_le.
    apply Qle_shift_div_l; [exact Hpy|].
    destruct (ilog2_spec (Qabs y)) as [Hlo _]; [lra|].
    rewrite (pow2_Z 52) by lia. rewrite <- pow2_plus.
    apply Qle_trans with (y := 2 ^ ilog2 (Qabs y)); [|lra].
    apply pow2_le. unfold exponent in *. lia.
Qed.

Lemma fl_mono_neg (x y : Q) : y < 0 -> x <= y -> fl x <= fl y.
Proof.
  intros Hy Hxy.
  assert (Hax : Qabs x == - x) by (apply Qabs_neg; lra).
  assert (Hay : Qabs y == - y) by (apply Qabs_neg; lra).
  assert (Hle : (exponent y <= exponent x)%Z) by (apply exponent_le; lra).
  destruct (Z.eq_dec (exponent x) (exponent y)) as [E|NE];
    [apply fl_same_exponent; assumption|].
  assert (Hlt : (exponent y < exponent x)%Z) by lia.
  pose proof (pow2_pos (exponent x)) as Hpx. pose proof (pow2_pos (exponent y)) as Hpy.
  pose proof (step_up _ _ Hlt) as Hstep.
  apply Qle_trans with (y := - (inject_Z (2 ^ 52) * 2 ^ exponent x));
    [|apply Qle_trans with (y := - (inject_Z (2 ^ 53) * 2 ^ exponent y)); [lra|]].
  - rewrite fl_value.
    setoid_replace (- (inject_Z (2 ^ 52) * 2 ^ exponent x))
      with (inject_Z (- 2 ^ 52) * 2 ^ exponent x) using relation Qeq by (rewrite inject_Z_opp; ring).
    apply Qmult_le_compat_r; [|lra].
    rewrite <- Zle_Qle. rewrite <- (rne_Z (- 2 ^ 52)). apply rne_le.
    apply Qle_shift_div_r; [exact Hpx|].
    destruct (ilog2_spec (Qabs x)) as [Hlo _]; [lra|].
    rewrite inject_Z_opp, (pow2_Z 52) by lia.
    setoid_replace (- 2 ^ 52 * 2 ^ exponent x) with (- (2 ^ (52 + exponent x)))
      using relation Qeq by (rewrite pow2_plus; ring).
    assert (2 ^ (52 + exponent x) <= 2 ^ ilog2 (Qabs x))
      by (apply pow2_le; unfold exponent in *; lia).
    lra.
  - rewrite fl_value.
    setoid_replace (- (inject_Z (2 ^ 53) * 2 ^ exponent y))
      with (inject_Z (- 2 ^ 53) * 2 ^ exponent y) using relation Qeq by (rewrite inject_Z_opp; ring).
    apply Qmult_le_compat_r; [|lra].
    rewrite <- Zle_Qle. rewrite <- (rne_Z (- 2 ^ 53)). apply rne_le.
    apply Qle_shift_div_l; [exact Hpy|].
    destruct (ilog2_spec (Qabs y)) as [_ Hhi]; [lra|].
    rewrite inject_Z_opp, (pow2_Z 53) by lia.
    setoid_replace (- 2 ^ 53 * 2 ^ exponent y) with (- (2 ^ (53 + exponent y)))
      using relation Qeq by (rewrite pow2_plus; ring).
    assert (2 ^ (ilog2 (Qabs y) + 1) <= 2 ^ (53 + exponent y))
      by (apply pow2_le; unfold exponent; lia).
    lra.
Qed.

Lemma fl_monotone (x y : Q) : x <= y -> fl x <= fl y.
Proof.
  intros Hxy. destruct (Qlt_le_dec 0 x) as [Hx|Hx].
  - apply fl_mono_pos; assumption.
  - destruct (Qlt_le_dec y 0) as [Hy|Hy].
    + apply fl_mono_neg; assumption.
    + apply Qle_trans with (y := 0); [apply fl_nonpos | apply fl_nonneg]; assumption.
Qed.
End Binary64Facts.

(** From here on the rounding is used through the facts above and
    evaluated on numbers; it is not unfolded on variables. *)
Opaque Binary64.fl.

(** ** Numbers *)
Section Numbers.
Local Open Scope Q_scope.

Lemma Qleb_le (a b : Q) : Qleb a b = true <-> a <= b.
Proof. apply Qle_bool_iff. Qed.

Lemma Qltb_lt (a b : Q) : Qltb a b = true <-> a < b.
Proof.
  unfold Qltb. rewrite negb_true_iff. split.
  - intros Hf. apply Qnot_le_lt. intros Hle.
    apply Qle_bool_iff in Hle. congruence.
  - intros Hlt. destruct (Qle_bool b a) eqn:E; [|reflexivity].
    apply Qle_bool_iff in E. exfalso. exact (Qlt_not_le _ _ Hlt E).
Qed.

Lemma Qleb_nle (a b : Q) : Qleb a b = false <-> ~ a <= b.
Proof.
  rewrite <- Qleb_le. destruct (Qleb a b); split; try congruence; tauto.
Qed.

Lemma Qltb_nlt (a b : Q) : Qltb a b = false <-> ~ a < b.
Proof.
  rewrite <- Qltb_lt. destruct (Qltb a b); split; try congruence; tauto.
Qed.

Lemma Qltb_irrefl_eq (a b : Q) : a == b -> Qltb a b = false /\ Qltb b a = false.
Proof.
  intros E. split; apply Qltb_nlt; rewrite E; apply Qlt_irrefl.
Qed.

Lemma truthy_Some (q : Q) : truthy (Some q) = true <-> ~ q == 0.
Proof.
  unfold truthy. rewrite negb_true_iff. split.
  - intros Hf E. apply Qeq_bool_iff in E. congruence.
  - intros Hne. destruct (Qeq_bool q 0) eqn:E; [|reflexivity].
    apply Qeq_bool_iff in E. contradiction.
Qed.

Lemma truthy_is_Some (x : option Q) : truthy x = true -> is_Some x.
Proof. destruct x; [eauto | discriminate]. Qed.

(** *** The rounded operations

    They keep the signs and the order of the exact ones. *)
Lemma mul_nonneg (x y : Q) : 0 <= x -> 0 <= y -> 0 <= x ⊗ y.
Proof. intros Hx Hy. apply fl_nonneg, Qmult_le_0_compat; assumption. Qed.

Lemma mul_nonpos (x y : Q) : x <= 0 -> 0 <= y -> x ⊗ y <= 0.
Proof. intros Hx Hy. apply fl_nonpos. nra. Qed.

Lemma div_nonneg (x y : Q) : 0 <= x -> 0 < y -> 0 <= x ⊘ y.
Proof.
  intros Hx Hy. apply fl_nonneg, Qle_shift_div_l; [exact Hy|].
  rewrite Qmult_0_l. exact Hx.
Qed.

Lemma div_nonpos (x y : Q) : x <= 0 -> 0 < y -> x ⊘ y <= 0.
Proof.
  intros Hx Hy. apply fl_nonpos, Qle_shift_div_r; [exact Hy|].
  rewrite Qmult_0_l. exact Hx.
Qed.

Lemma sub_nonneg (x y : Q) : y <= x -> 0 <= x ⊖ y.
Proof. intros H. apply fl_nonneg. lra. Qed.

Lemma sub_nonpos (x y : Q) : x <= y -> x ⊖ y <= 0.
Proof. intros H. apply fl_nonpos. lra. Qed.

(** Taking something not negative from a number does not give more,
    adding it does not give less. *)
Lemma sub_le (x d : Q) : Binary64.double x -> 0 <= d -> x ⊖ d <= x.
Proof.
  intros Hx Hd. apply Qle_trans with (y := Binary64.fl x).
  - apply fl_monotone. lra.
  - apply Qle_lteq. right. exact Hx.
Qed.

Lemma add_ge (x d : Q) : Binary64.double x -> 0 <= d -> x <= x ⊕ d.
Proof.
  intros Hx Hd. apply Qle_trans with (y := Binary64.fl x).
  - apply Qle_lteq. right. symmetry. exact Hx.
  - apply fl_monotone. lra.
Qed.

(** *** [Math.round] and [MathUtils.round] *)
Lemma Math_round_le (x y : Q) :
  x <= y -> (MathUtils.Math_round x <= MathUtils.Math_round y)%Z.
Proof.
  intros H. unfold MathUtils.Math_round. apply Qfloor_resp_le. lra.
Qed.

Lemma Math_round_nearest (x : Q) :
  inject_Z (MathUtils.Math_round x) - (1 # 2) <= x
  /\ x < inject_Z (MathUtils.Math_round x) + (1 # 2).
Proof.
  unfold MathUtils.Math_round.
  pose proof (Qfloor_le (x + (1 # 2))) as Hlo.
  pose proof (Qlt_floor (x + (1 # 2))) as Hhi.
  rewrite inject_Z_plus in Hhi. change (inject_Z 1) with 1 in Hhi.
  split; lra.
Qed.

Lemma Math_pow10_nonneg (d : Z) : 0 <= MathUtils.Math_pow10 d.
Proof. apply fl_nonneg, Qpower_0_le. discriminate. Qed.

Lemma round_compat (x y : Q) (d : Z) :
  x == y -> MathUtils.round x d = MathUtils.round y d.
Proof.
  intros E. unfold MathUtils.round, Binary64.mul.
  rewrite (fl_comp (x * MathUtils.Math_pow10 d) (y * MathUtils.Math_pow10 d));
    [reflexivity|].
  rewrite E. reflexivity.
Qed.

Lemma round_monotone (x y : Q) (d : Z) :
  x <= y -> MathUtils.round x d <= MathUtils.round y d.
Proof.
  intros Hle. unfold MathUtils.round. pose proof (Math_pow10_nonneg d) as Hp.
  apply fl_monotone. unfold Qdiv. apply Qmult_le_compat_r.
  - rewrite <- Zle_Qle. apply Math_round_le, fl_monotone.
    apply Qmult_le_compat_r; assumption.
  - apply Qinv_le_0_compat. exact Hp.
Qed.

Lemma round_0 (d : Z) : MathUtils.round 0 d == 0.
Proof.
  unfold MathUtils.round, Binary64.mul, Binary64.div.
  rewrite (fl_comp (0 * MathUtils.Math_pow10 d) 0) by ring.
  change (Binary64.fl 0) with 0. change (MathUtils.Math_round 0) with 0%Z.
  rewrite (fl_comp (inject_Z 0 / MathUtils.Math_pow10 d) 0); [reflexivity|].
  unfold Qdiv. change (inject_Z 0) with 0. ring.
Qed.

Lemma round_nonneg (x : Q) (d : Z) : 0 <= x -> 0 <= MathUtils.round x d.
Proof. intros Hx. rewrite <- (round_0 d). apply round_monotone. exact Hx. Qed.

Lemma round_nonpos (x : Q) (d : Z) : x <= 0 -> MathUtils.round x d <= 0.
Proof. intros Hx. rewrite <- (round_0 d). apply round_monotone. exact Hx. Qed.

(** Rounding to two decimals gives the number nearest to a count of
    hundredths, the count being the integer nearest to the number
    times 100, ties upwards. *)
Lemma round_cents (x : Q) :
  exists n : Z,
    MathUtils.round x 2 = inject_Z n ⊘ 100
    /\ inject_Z n - (1 # 2) <= x ⊗ 100
    /\ x ⊗ 100 < inject_Z n + (1 # 2).
Proof.
  exists (MathUtils.Math_round (x ⊗ 100)).
  split; [reflexivity|]. apply Math_round_nearest.
Qed.
End Numbers.

(** ** The exit checks of one bar *)
Section ExitChecksFacts.
Local Open Scope Q_scope.
Import TradeSimulator ExitChecks.




(** The nested conditionals as one cascade over the three conditions. *)
Lemma checkExitConditions_cascade this candle trade :
  checkExitConditions this candle trade =
  if DateUtils.shouldCloseByTime (Trade.entryTime trade) (openTime candle) (maxHours this)
  then Some (TIME candle)
  else if (String.eqb (Trade.direction trade) "LONG"
             && Qleb (low candle) (Trade.stopLoss trade))
          || (String.eqb (Trade.direction trade) "SHORT"
                && Qleb (Trade.stopLoss trade) (high candle))
  then Some (SL trade)
  else if (String.eqb (Trade.direction trade) "LONG"
             && Qleb (Trade.takeProfit trade) (high candle))
          || (String.eqb (Trade.direction trade) "SHORT"
                && Qleb (low candle) (Trade.takeProfit trade))
  then Some (TP trade)
  else None.
Proof.
  unfold checkExitConditions, TIME, SL, TP.
  destruct (DateUtils.shouldCloseByTime _ _ _); [reflexivity|].
  destruct (String.eqb (Trade.direction trade) "LONG"),
    (String.eqb (Trade.direction trade) "SHORT"),
    (Qleb (low candle) (Trade.stopLoss trade)),
    (Qleb (Trade.stopLoss trade) (high candle)),
    (Qleb (Trade.takeProfit trade) (high candle)),
    (Qleb (low candle) (Trade.takeProfit trade)); reflexivity.
Qed.

Lemma checkExitConditions_reason this candle trade exitCondition :
  checkExitConditions this candle trade = Some exitCondition ->
  ExitCondition.reason exitCondition ∈ ["TIME"; "SL"; "TP"]%string.
Proof.
  rewrite checkExitConditions_cascade.
  repeat (match goal with |- context [if ?b then _ else _] => destruct b end);
    intros [= <-]; cbn; set_solver.
Qed.

(** Each reason comes with its price. *)
Lemma checkExitConditions_price this candle trade exitCondition :
  checkExitConditions this candle trade = Some exitCondition ->
  exitCondition = TIME candle \/ exitCondition = SL trade \/ exitCondition = TP trade.
Proof.
  rewrite checkExitConditions_cascade.
  repeat (match goal with |- context [if ?b then _ else _] => destruct b end);
    intros [= <-]; tauto.
Qed.


(** The loop stops at the first bar whose check fires, or leaves the
    trade as it was. *)
Lemma exitLoop_cases this trade remainingCandles :
  (Forall (fun c => checkExitConditions this c trade = None) remainingCandles
   /\ exitLoop this trade remainingCandles = trade)
  \/ (exists pre candle post exitCondition,
         remainingCandles = pre ++ candle :: post
         /\ Forall (fun c => checkExitConditions this c trade = None) pre
         /\ checkExitConditions this candle trade = Some exitCondition
         /\ exitLoop this trade remainingCandles =
            closeTrade this trade (ExitCondition.price exitCondition) candle
              (ExitCondition.reason exitCondition)).
Proof.
  induction remainingCandles as [|c rest IH]; cbn.
  - left. split; [constructor | reflexivity].
  - destruct (checkExitConditions this c trade) as [ec|] eqn:E.
    + right. exists [], c, rest, ec. repeat split; [constructor | exact E].
    + destruct IH as [[Hall Heq] | (pre & c' & post & ec & -> & Hall & Hc & Heq)].
      * left. split; [constructor; assumption | exact Heq].
      * right. exists (c :: pre), c', post, ec.
        repeat split; [constructor; assumption | exact Hc | exact Heq].
Qed.

Lemma exitLoop_first this trade pre candle post exitCondition :
  Forall (fun c => checkExitConditions this c trade = None) pre ->
  checkExitConditions this candle trade = Some exitCondition ->
  exitLoop this trade (pre ++ candle :: post) =
  closeTrade this trade (ExitCondition.price exitCondition) candle
    (ExitCondition.reason exitCondition).
Proof.
  intros Hall Hc. induction Hall as [|c pre Hn _ IH]; cbn.
  - rewrite Hc. reflexivity.
  - rewrite Hn. exact IH.
Qed.

End ExitChecksFacts.

(** ** Simulating one trade *)
Section SimulateTrade.
Local Open Scope Q_scope.
Import TradeSimulator ExitChecks.

Lemma simulateTrade_silent this signal remainingCandles :
  simulateTrade this signal remainingCandles
  = simulateTradeSilent this signal remainingCandles.
Proof. reflexivity. Qed.

Lemma closeAtEnd_cases this trade remainingCandles closed :
  closeAtEnd this trade remainingCandles = Return closed ->
  (truthy (Trade.exitPrice trade) = true /\ closed = trade)
  \/ (truthy (Trade.exitPrice trade) = false
      /\ exists lastCandle,
          last remainingCandles = Some lastCandle
          /\ closed = closeTrade this trade (close lastCandle) lastCandle "END_OF_DAY").
Proof.
  unfold closeAtEnd. destruct (truthy (Trade.exitPrice trade)); cbn.
  - intros [= <-]. left. split; reflexivity.
  - destruct (last remainingCandles) as [lc|]; [|discriminate].
    intros [= <-]. right. split; [reflexivity|]. exists lc. split; reflexivity.
Qed.

(** A returned trade was closed by [closeTrade], on a bar of the
    remaining ones, from a trade that still has its entry fields; the
    simulator that comes with it is the old one after the three
    updates. *)
Lemma simulateTradeSilent_closed this signal remainingCandles trade this' :
  simulateTradeSilent this signal remainingCandles = Return (trade, this') ->
  this' = recordDailyResult
            (pushTrade (updateBalance this (Trade.resultUSD trade)) trade)
            (Signal.date signal) trade
  /\ exists base price candle why,
      trade = closeTrade this base price candle why
      /\ candle ∈ remainingCandles
      /\ why ∈ ["TIME"; "SL"; "TP"; "END_OF_DAY"]%string
      /\ Trade.entryPrice base = Signal.entryPrice signal
      /\ Trade.direction base = Signal.direction signal
      /\ Trade.positionSize base = currentBalance this ⊗ leverage this.
Proof.
  unfold simulateTradeSilent.
  destruct (closeAtEnd this _ remainingCandles) as [closed|e] eqn:E; [|discriminate].
  cbn. intros [= <- <-]. split; [reflexivity|].
  pose proof (exitLoop_cases this (openTrade this signal) remainingCandles) as Hloop.
  apply closeAtEnd_cases in E.
  destruct E as [[Ht ->] | [_ (lc & Hlast & ->)]].
  - destruct Hloop as [[_ Heq] | (pre & c & post & ec & -> & _ & Hc & Heq)].
    + rewrite Heq in Ht. discriminate Ht.
    + rewrite Heq.
      exists (openTrade this signal), (ExitCondition.price ec), c, (ExitCondition.reason ec).
      repeat split; try reflexivity.
      * set_solver.
      * apply checkExitConditions_reason in Hc. revert Hc.
        rewrite !elem_of_cons. tauto.
  - apply last_Some_elem_of in Hlast.
    destruct Hloop as [[_ Heq] | (pre & c & post & ec & _ & _ & _ & Heq)]; rewrite Heq.
    + exists (openTrade this signal), (close lc), lc, "END_OF_DAY"%string.
      repeat split; try reflexivity; [exact Hlast | set_solver].
    + exists (closeTrade this (openTrade this signal) (ExitCondition.price ec) c
                (ExitCondition.reason ec)), (close lc), lc, "END_OF_DAY"%string.
      repeat split; try reflexivity; [exact Hlast | set_solver].
Qed.

(** With a bar to fall back on the simulation returns. *)
Lemma simulateTradeSilent_returns this signal remainingCandles :
  remainingCandles <> [] ->
  exists trade this',
    simulateTradeSilent this signal remainingCandles = Return (trade, this').
Proof.
  intros Hne. apply last_is_Some in Hne. destruct Hne as [lc Hlast].
  unfold simulateTradeSilent, closeAtEnd. rewrite Hlast.
  destruct (negb _); eexists _, _; reflexivity.
Qed.

(** How a returned trade was closed: by the first bar whose check
    fires, at a price that is not zero, or on the last bar. *)
Lemma simulateTradeSilent_inv this signal remainingCandles trade this' :
  simulateTradeSilent this signal remainingCandles = Return (trade, this') ->
  (exists pre candle post exitCondition,
      remainingCandles = pre ++ candle :: post
      /\ Forall (fun c => checkExitConditions this c (openTrade this signal) = None) pre
      /\ checkExitConditions this candle (openTrade this signal) = Some exitCondition
      /\ truthy (Some (ExitCondition.price exitCondition)) = true
      /\ trade = closeTrade this (openTrade this signal)
                   (ExitCondition.price exitCondition) candle
                   (ExitCondition.reason exitCondition))
  \/ (exists base lastCandle,
         last remainingCandles = Some lastCandle
         /\ trade = closeTrade this base (close lastCandle) lastCandle "END_OF_DAY").
Proof.
  unfold simulateTradeSilent.
  destruct (closeAtEnd this _ remainingCandles) as [closed|e] eqn:E; [|discriminate].
  cbn. intros [= <- _].
  apply closeAtEnd_cases in E.
  destruct E as [[Ht ->] | [_ (lc & Hlast & ->)]].
  - left.
    destruct (exitLoop_cases this (openTrade this signal) remainingCandles)
      as [[_ Heq] | (pre & c & post & ec & -> & Hpre & Hc & Heq)].
    + rewrite Heq in Ht. discriminate Ht.
    + rewrite Heq in Ht |- *. exists pre, c, post, ec.
      repeat split; assumption.
  - right. eexists _, lc. split; [exact Hlast | reflexivity].
Qed.



(** C1, as the code has it. Provided a bar follows the entry bar, the
    simulation of a trade returns a trade with one exit reason, among
    TIME, SL, TP and END_OF_DAY (the label the code gives to running out
    of bars); and when no remaining bar triggers the TIME, SL or TP
    check, the trade is closed on the last remaining bar, at its close,
    with reason END_OF_DAY.  [simulateTrade] and [simulateTradeSilent]
    agree. *)
Theorem exit_reason_assigned this signal remainingCandles :
  remainingCandles <> [] ->
  exists trade this',
    simulateTradeSilent this signal remainingCandles = Return (trade, this')
    /\ simulateTrade this signal remainingCandles = Return (trade, this')
    /\ (exists why,
           Trade.exitReason trade = Some why
           /\ why ∈ ["TIME"; "SL"; "TP"; "END_OF_DAY"]%string)
    /\ (Forall (fun c => checkExitConditions this c (openTrade this signal) = None)
          remainingCandles ->
        exists lastCandle,
          last remainingCandles = Some lastCandle
          /\ Trade.exitPrice trade = Some (close lastCandle)
          /\ Trade.exitTime trade = Some (openTime lastCandle)
          /\ Trade.exitReason trade = Some "END_OF_DAY"%string).
Proof.
  intros Hne.
  destruct (simulateTradeSilent_returns this signal _ Hne) as (trade & this' & E).
  exists trade, this'. split; [exact E|]. split; [exact E|]. split.
  - apply simulateTradeSilent_closed in E.
    destruct E as (_ & base & price & c & why & -> & _ & Hwhy & _).
    exists why. split; [reflexivity | exact Hwhy].
  - intros Hquiet. revert E. unfold simulateTradeSilent.
    destruct (exitLoop_cases this (openTrade this signal) remainingCandles)
      as [[_ Heq] | (pre & c & post & ec & -> & _ & Hc & _)].
    + rewrite Heq. unfold closeAtEnd. cbn.
      apply last_is_Some in Hne. destruct Hne as [lc Hlast]. rewrite Hlast. cbn.
      intros [= <- _]. exists lc. repeat split; reflexivity.
    + exfalso. apply Forall_app in Hquiet. destruct Hquiet as [_ Hq].
      apply Forall_cons in Hq. destruct Hq as [Hq _]. congruence.
Qed.

Lemma exit_reason_assigned_witness :
  exists trade this',
    simulateTradeSilent Samples.simulator Samples.longAt100 [Samples.quietBar]
    = Return (trade, this')
    /\ Trade.exitPrice trade = Some (close Samples.quietBar)
    /\ Trade.exitReason trade = Some "END_OF_DAY"%string.
Proof.
  destruct (exit_reason_assigned Samples.simulator Samples.longAt100 [Samples.quietBar])
    as (trade & this' & E & _ & _ & Hquiet); [discriminate|].
  exists trade, this'. split; [exact E|].
  destruct Hquiet as (lc & Hlast & Hprice & _ & Hwhy).
  - repeat constructor.
  - injection Hlast as <-. split; assumption.
Defined.

(** C1, as the claim words it, fails twice.  On the label: a long trade
    at 100 followed by one bar between its stop-loss and its take-profit
    ends with the reason END_OF_DAY, which is none of TIME, SL, TP and
    DATA_EXHAUSTION.  And without a bar after the entry bar no check is
    triggered and yet no trade is closed, under any label: the
    simulation throws. *)
Lemma exit_reason_counterexample :
  ~ (forall this signal remainingCandles trade this',
        simulateTradeSilent this signal remainingCandles = Return (trade, this') ->
        exists why,
          Trade.exitReason trade = Some why
          /\ why ∈ ["TIME"; "SL"; "TP"; "DATA_EXHAUSTION"]%string)
  /\ ~ (forall this signal remainingCandles,
           Forall (fun c => checkExitConditions this c (openTrade this signal) = None)
             remainingCandles ->
           exists trade this',
             simulateTradeSilent this signal remainingCandles = Return (trade, this')
             /\ is_Some (Trade.exitReason trade)).
Proof.
  split.
  - intros Hclaim.
    destruct (Hclaim Samples.simulator Samples.longAt100 [Samples.quietBar]
                Samples.quietTrade Samples.quietState)
      as (why & Hwhy & Hin).
    + vm_compute. reflexivity.
    + cbn in Hwhy. injection Hwhy as <-.
      repeat (apply elem_of_cons in Hin; destruct Hin as [Hin | Hin]; [discriminate Hin|]).
      inversion Hin.
  - intros Hclaim.
    destruct (Hclaim Samples.simulator Samples.longAt100 [])
      as (trade & this' & Hrun & _); [constructor|].
    discriminate Hrun.
Qed.

(** C4. A closed trade has an exit price.  Its price move percent is
    [(exit - entry) / entry * 100] when LONG and
    [(entry - exit) / entry * 100] when SHORT, every operation being
    that of binary64.  For an entry price other than zero, and as long
    as no operation of the computation gives a result beyond the
    largest double, its [resultUSD] is
    [(priceMovePercent / 100) * balance at entry * leverage] and its
    [resultPercent] is [priceMovePercent * leverage], each rounded to
    two decimals: the number nearest to a count of hundredths, the
    count being the integer nearest to the value times 100, ties
    upwards. *)
Theorem trade_result_formula this signal remainingCandles trade this' :
  simulateTradeSilent this signal remainingCandles = Return (trade, this') ->
  ~ Signal.entryPrice signal == 0 ->
  exists exit,
    Trade.exitPrice trade = Some exit
    /\ Trade.entryPrice trade = Signal.entryPrice signal
    /\ Trade.direction trade = Signal.direction signal
    /\ let entry := Trade.entryPrice trade in
       let priceMovePercent :=
         MathUtils.calculateTradeResultPercent entry exit (Trade.direction trade) in
       let usd := (priceMovePercent ⊘ 100) ⊗ currentBalance this ⊗ leverage this in
       let percent := priceMovePercent ⊗ leverage this in
       (Trade.direction trade = "LONG"%string ->
        priceMovePercent = ((exit ⊖ entry) ⊘ entry) ⊗ 100)
       /\ (Trade.direction trade = "SHORT"%string ->
           priceMovePercent = ((entry ⊖ exit) ⊘ entry) ⊗ 100)
       /\ Trade.resultUSD trade = MathUtils.round usd 2
       /\ Trade.resultPercent trade = MathUtils.round percent 2
       /\ (Forall Binary64.finite (tradeResultSteps this trade) ->
           (exists cents : Z,
               Trade.resultUSD trade = inject_Z cents ⊘ 100
               /\ inject_Z cents - (1 # 2) <= usd ⊗ 100
               /\ usd ⊗ 100 < inject_Z cents + (1 # 2))
           /\ (exists cents : Z,
                  Trade.resultPercent trade = inject_Z cents ⊘ 100
                  /\ inject_Z cents - (1 # 2) <= percent ⊗ 100
                  /\ percent ⊗ 100 < inject_Z cents + (1 # 2))).
Proof.
  intros E _. apply simulateTradeSilent_closed in E.
  destruct E as (_ & base & price & c & why & -> & _ & _ & He & Hd & _).
  exists price. cbn [closeTrade Trade.setResult Trade.close Trade.exitPrice
                     Trade.entryPrice Trade.direction Trade.resultUSD
                     Trade.resultPercent calculateTradeResult fst snd default].
  rewrite He, Hd. split; [reflexivity|]. split; [reflexivity|]. split; [reflexivity|].
  cbv zeta. split; [|split; [|split; [|split]]].
  - intros ->. reflexivity.
  - intros ->. reflexivity.
  - reflexivity.
  - reflexivity.
  - intros _. split; apply round_cents.
Qed.

(** With 50.25 of capital a stop at two percent below the entry costs
    5.03: the product is just beyond the tie of 5.025. *)
Lemma trade_result_formula_witness :
  exists trade this',
    simulateTradeSilent Samples.tieSimulator Samples.longAt100 [Samples.stopBar]
    = Return (trade, this')
    /\ Trade.exitPrice trade = Some 98
    /\ Trade.resultUSD trade == - (503 # 100) ⊘ 1
    /\ Trade.resultPercent trade == - 10
    /\ exists cents : Z,
        Trade.resultUSD trade = inject_Z cents ⊘ 100
        /\ inject_Z cents - (1 # 2)
           <= (((98 ⊖ 100) ⊘ 100) ⊗ 100 ⊘ 100) ⊗ (5025 # 100) ⊗ 5 ⊗ 100.
Proof.
  destruct (simulateTradeSilent Samples.tieSimulator Samples.longAt100 [Samples.stopBar])
    as [[trade this']|e] eqn:E; [|vm_compute in E; discriminate E].
  exists trade, this'. split; [reflexivity|].
  destruct (trade_result_formula _ _ _ _ _ E) as (exit & Hexit & He & Hd & Hrest);
    [discriminate|].
  cbv zeta in Hrest. destruct Hrest as (Hlong & _ & _ & _ & Hcents).
  rewrite He, Hd in Hlong, Hcents.
  assert (Hfacts : Trade.exitPrice trade = Some 98
                   /\ Trade.resultUSD trade == - (503 # 100) ⊘ 1
                   /\ Trade.resultPercent trade == - 10
                   /\ Forall Binary64.finite (tradeResultSteps Samples.tieSimulator trade)).
  { pose proof E as E'. vm_compute in E'. injection E' as <- _.
    split; [vm_compute; reflexivity|]. split; [vm_compute; reflexivity|].
    split; [vm_compute; reflexivity|].
    repeat (constructor; [vm_compute; discriminate|]). constructor. }
  destruct Hfacts as (Hprice & Hvalue & Hpercent & Hfinite).
  destruct (Hcents Hfinite) as [(cents & Husd & Hlo & _) _].
  split; [exact Hprice|]. split; [exact Hvalue|]. split; [exact Hpercent|].
  exists cents. split; [exact Husd|].
  rewrite Hprice in Hexit. injection Hexit as <-.
  rewrite (Hlong eq_refl) in Hlo. exact Hlo.
Defined.

(** C5. After a trade the balance is the balance before it plus the
    trade's [resultUSD], rounded once to two decimals (the number
    nearest to a count of hundredths, the count being the integer
    nearest to the sum times 100); the daily result recorded under the
    signal's date has that balance as [balanceAfter] and
    [balanceAfter - resultUSD] as [balanceBefore]; the trade's position
    size is the balance at entry times the leverage, so the next trade
    is sized from the rounded balance this one leaves.  Every operation
    is that of binary64; the count of hundredths is stated for an
    entry price other than zero and results within the largest
    double. *)
Theorem balance_update this signal remainingCandles trade this' :
  simulateTradeSilent this signal remainingCandles = Return (trade, this') ->
  currentBalance this' = MathUtils.round (currentBalance this ⊕ Trade.resultUSD trade) 2
  /\ (~ Signal.entryPrice signal == 0 ->
      Forall Binary64.finite
        (tradeResultSteps this trade
         ++ [ currentBalance this ⊕ Trade.resultUSD trade;
              (currentBalance this ⊕ Trade.resultUSD trade) ⊗ 100 ]) ->
      exists cents : Z,
        currentBalance this' = inject_Z cents ⊘ 100
        /\ inject_Z cents - (1 # 2)
           <= (currentBalance this ⊕ Trade.resultUSD trade) ⊗ 100
        /\ (currentBalance this ⊕ Trade.resultUSD trade) ⊗ 100
           < inject_Z cents + (1 # 2))
  /\ leverage this' = leverage this
  /\ Trade.positionSize trade = currentBalance this ⊗ leverage this
  /\ (exists outcome,
         dailyResults this' !! Signal.date signal = Some outcome
         /\ DailyResult.tradeExecuted outcome = true
         /\ DailyResult.trade outcome = Some trade
         /\ DailyResult.dailyReturn outcome = Trade.resultUSD trade
         /\ DailyResult.balanceAfter outcome = currentBalance this'
         /\ DailyResult.balanceBefore outcome
            = currentBalance this' ⊖ Trade.resultUSD trade)
  /\ (forall signal2 remainingCandles2 trade2 this2,
         simulateTradeSilent this' signal2 remainingCandles2 = Return (trade2, this2) ->
         Trade.positionSize trade2 = currentBalance this' ⊗ leverage this).
Proof.
  intros E.
  destruct (simulateTradeSilent_closed _ _ _ _ _ E)
    as (-> & base & price & c & why & -> & _ & _ & _ & _ & Hsize).
  split; [reflexivity|]. split; [intros _ _; apply round_cents|].
  split; [reflexivity|]. split; [exact Hsize|]. split.
  - eexists. split; [apply lookup_insert_eq|]. repeat split; reflexivity.
  - intros signal2 rem2 trade2 this2 E2.
    destruct (simulateTradeSilent_closed _ _ _ _ _ E2)
      as (_ & base2 & price2 & c2 & why2 & -> & _ & _ & _ & _ & Hsize2).
    exact Hsize2.
Qed.

(** A trade of the default simulator that fades to 98.192: the balance
    goes from 100 to 90.96 by a result of -9.04, and the recorded
    balance before is 100. *)
Lemma balance_update_witness :
  exists trade this' outcome,
    simulateTradeSilent Samples.simulator Samples.longAt100 [Samples.fadingBar]
    = Return (trade, this')
    /\ Trade.resultUSD trade == - Binary64.fl (904 # 100)
    /\ currentBalance this' == Binary64.fl (9096 # 100)
    /\ Trade.positionSize trade == 500
    /\ dailyResults this' !! "2025-08-26"%string = Some outcome
    /\ DailyResult.balanceAfter outcome = currentBalance this'
    /\ DailyResult.balanceBefore outcome = currentBalance this' ⊖ Trade.resultUSD trade
    /\ exists cents : Z, currentBalance this' = inject_Z cents ⊘ 100.
Proof.
  destruct (simulateTradeSilent Samples.simulator Samples.longAt100 [Samples.fadingBar])
    as [[trade this']|e] eqn:E; [|vm_compute in E; discriminate E].
  destruct (balance_update _ _ _ _ _ E)
    as (_ & Hcents & _ & Hsize & (outcome & Hlook & _ & _ & _ & Hafter & Hbefore) & _).
  exists trade, this', outcome. split; [reflexivity|].
  assert (Hfacts : Trade.resultUSD trade == - Binary64.fl (904 # 100)
                   /\ currentBalance this' == Binary64.fl (9096 # 100)
                   /\ Forall Binary64.finite
                        (tradeResultSteps Samples.simulator trade
                         ++ [ currentBalance Samples.simulator ⊕ Trade.resultUSD trade;
                              (currentBalance Samples.simulator ⊕ Trade.resultUSD trade)
                              ⊗ 100 ])).
  { pose proof E as E'. vm_compute in E'. injection E' as <- <-.
    split; [vm_compute; reflexivity|]. split; [vm_compute; reflexivity|].
    cbn [tradeResultSteps app].
    repeat (constructor; [vm_compute; discriminate|]). constructor. }
  destruct Hfacts as (Husd & Hbal & Hfinite).
  split; [exact Husd|]. split; [exact Hbal|].
  split; [rewrite Hsize; vm_compute; reflexivity|].
  split; [exact Hlook|]. split; [exact Hafter|]. split; [exact Hbefore|].
  destruct Hcents as (cents & Hc & _); [discriminate | exact Hfinite|].
  exists cents. exact Hc.
Defined.

(** C5, as the claim words it, fails: for the trade above the recorded
    balance after is 90.96, and the recorded balance before plus the
    result is not, neither added in binary64 (90.96000000000001) nor
    added exactly. *)
Lemma balance_identity_counterexample :
  ~ (forall this signal remainingCandles trade this' outcome,
        simulateTradeSilent this signal remainingCandles = Return (trade, this') ->
        dailyResults this' !! Signal.date signal = Some outcome ->
        DailyResult.balanceAfter outcome
        == DailyResult.balanceBefore outcome ⊕ Trade.resultUSD trade
        \/ DailyResult.balanceAfter outcome
           == DailyResult.balanceBefore outcome + Trade.resultUSD trade).
Proof.
  intros H.
  destruct (simulateTradeSilent Samples.simulator Samples.longAt100 [Samples.fadingBar])
    as [[trade this']|e] eqn:E; [|vm_compute in E; discriminate E].
  destruct (dailyResults this' !! Signal.date Samples.longAt100) as [outcome|] eqn:L;
    [|vm_compute in E; injection E as <- <-; vm_compute in L; discriminate L].
  specialize (H _ _ _ _ _ outcome E L).
  vm_compute in E. injection E as <- <-. vm_compute in L. injection L as <-.
  destruct H as [H|H]; vm_compute in H; discriminate H.
Qed.

(** [entryCandleIndex] of a signal whose candle is the last bar, and the
    slice after it. *)
Lemma findIndex_last {A : Type} (p : A -> bool) (pre : list A) (x : A) :
  Forall (fun y => p y = false) pre -> p x = true ->
  findIndex p (pre ++ [x]) = Some (length pre).
Proof.
  intros Hpre Hx. induction Hpre as [|y pre Hy _ IH]; cbn.
  - rewrite Hx. reflexivity.
  - rewrite Hy, IH. reflexivity.
Qed.

Lemma remainingCandles_last pre signal :
  Forall (fun c => openTime c <> openTime (Signal.candle signal)) pre ->
  BacktestEngine.remainingCandles (pre ++ [Signal.candle signal]) signal = Some [].
Proof.
  intros Hpre. unfold BacktestEngine.remainingCandles.
  rewrite findIndex_last.
  - cbn. f_equal. apply drop_ge. rewrite length_app. cbn. lia.
  - eapply Forall_impl; [exact Hpre|]. cbn. intros c Hc. apply Z.eqb_neq. exact Hc.
  - apply Z.eqb_refl.
Qed.


(** The first bar whose check fires closes the simulated trade, when the
    exit price is not zero. *)
Lemma simulateTradeSilent_first_exit this signal pre candle post exitCondition :
  Forall (fun c => checkExitConditions this c (openTrade this signal) = None) pre ->
  checkExitConditions this candle (openTrade this signal) = Some exitCondition ->
  ~ ExitCondition.price exitCondition == 0 ->
  exists trade this',
    simulateTradeSilent this signal (pre ++ candle :: post) = Return (trade, this')
    /\ Trade.exitPrice trade = Some (ExitCondition.price exitCondition)
    /\ Trade.exitReason trade = Some (ExitCondition.reason exitCondition)
    /\ Trade.exitTime trade = Some (openTime candle).
Proof.
  intros Hpre Hc Hprice. unfold simulateTradeSilent.
  rewrite (exitLoop_first _ _ _ _ _ _ Hpre Hc). unfold closeAtEnd.
  cbn [closeTrade Trade.setResult Trade.close Trade.exitPrice].
  apply truthy_Some in Hprice. rewrite Hprice. cbn.
  eexists _, _. repeat split; reflexivity.
Qed.

(** An exit at price zero counts as no exit: [!trade.exitPrice] holds
    and the trade is closed again on the last bar. *)
Example zero_exit_price_falls_through :
  let zeroClose := Samples.bar (Samples.day2 + 4 * Samples.hour) 100 101 99 0 in
  checkExitConditions Samples.simulator zeroClose
    (openTrade Samples.simulator Samples.longAt100) = Some (TIME zeroClose)
  /\ exists trade this',
      simulateTradeSilent Samples.simulator Samples.longAt100
        [zeroClose; Samples.bar (Samples.day2 + 5 * Samples.hour) 100 101 99 100]
      = Return (trade, this')
      /\ Trade.exitReason trade = Some "END_OF_DAY"%string
      /\ Trade.exitPrice trade = Some 100.
Proof.
  split; [reflexivity|]. eexists _, _. split; [vm_compute; reflexivity|].
  split; reflexivity.
Qed.
End SimulateTrade.

(** ** The entry fields of a trade *)
Section EntryFields.
Import TradeSimulator.

(** Closing a trade leaves what was set on entry. *)
Lemma closeTrade_entry this trade price candle why :
  let closed := closeTrade this trade price candle why in
  Trade.signal closed = Trade.signal trade
  /\ Trade.id closed = Trade.id trade
  /\ Trade.entryTime closed = Trade.entryTime trade
  /\ Trade.leverage closed = Trade.leverage trade
  /\ Trade.durationHours closed
     = DateUtils.getHoursDifference (Trade.entryTime trade) (openTime candle)
  /\ exists n : Z, Trade.resultUSD closed = inject_Z n ⊘ 100.
Proof.
  cbv zeta. repeat (split; [reflexivity|]).
  destruct (round_cents
              (fst (let pricePercent :=
                      MathUtils.calculateTradeResultPercent (Trade.entryPrice trade)
                        price (Trade.direction trade) in
                    ((pricePercent ⊘ 100) ⊗ currentBalance this ⊗ leverage this, 0%Q))))
    as (n & Hn & _).
  exists n. exact Hn.
Qed.

Lemma exitLoop_entry this trade remainingCandles :
  let left := exitLoop this trade remainingCandles in
  Trade.signal left = Trade.signal trade
  /\ Trade.id left = Trade.id trade
  /\ Trade.entryTime left = Trade.entryTime trade
  /\ Trade.entryPrice left = Trade.entryPrice trade
  /\ Trade.direction left = Trade.direction trade
  /\ Trade.positionSize left = Trade.positionSize trade
  /\ Trade.leverage left = Trade.leverage trade
  /\ Trade.stopLoss left = Trade.stopLoss trade
  /\ Trade.takeProfit left = Trade.takeProfit trade.
Proof.
  cbv zeta.
  destruct (exitLoop_cases this trade remainingCandles)
    as [[_ ->] | (pre & c & post & ec & _ & _ & _ & ->)]; cbn; repeat split; reflexivity.
Qed.

(** A returned trade carries its signal, the number of the trade in its
    id, the entry fields of the signal and a result in hundredths. *)
Lemma simulateTradeSilent_entry this signal remainingCandles trade this' :
  simulateTradeSilent this signal remainingCandles = Return (trade, this') ->
  Trade.signal trade = signal
  /\ Trade.id trade
     = "trade_" +:+ NilZero.string_of_uint (Nat.to_uint (length (trades this) + 1))
  /\ Trade.entryTime trade = openTime (Signal.candle signal)
  /\ Trade.leverage trade = leverage this
  /\ Trade.stopLoss trade
     = calculateStopLoss this (Signal.entryPrice signal) (Signal.direction signal)
  /\ Trade.takeProfit trade
     = calculateTakeProfit this (Signal.entryPrice signal) (Signal.direction signal)
  /\ (exists exitTime,
         Trade.exitTime trade = Some exitTime
         /\ Trade.durationHours trade
            = DateUtils.getHoursDifference (openTime (Signal.candle signal)) exitTime)
  /\ exists n : Z, Trade.resultUSD trade = inject_Z n ⊘ 100.
Proof.
  unfold simulateTradeSilent.
  destruct (closeAtEnd this _ remainingCandles) as [closed|e] eqn:E; [|discriminate].
  cbn. intros [= <- _].
  pose proof (exitLoop_entry this (openTrade this signal) remainingCandles) as Hloop.
  cbv zeta in Hloop.
  destruct Hloop as (Hs & Hid & Ht & _ & _ & _ & Hlev & Hsl & Htp).
  apply closeAtEnd_cases in E.
  destruct E as [[Htruthy ->] | [_ (lc & _ & ->)]].
  - repeat split; try assumption.
    + destruct (exitLoop_cases this (openTrade this signal) remainingCandles)
        as [[_ Heq] | (pre & c & post & ec & _ & _ & _ & Heq)]; rewrite Heq in *.
      * discriminate Htruthy.
      * eexists. split; reflexivity.
    + destruct (exitLoop_cases this (openTrade this signal) remainingCandles)
        as [[_ Heq] | (pre & c & post & ec & _ & _ & _ & Heq)]; rewrite Heq in *.
      * discriminate Htruthy.
      * eexists. reflexivity.
  - cbn. rewrite Hs, Hid, Ht, Hlev, Hsl, Htp. repeat split.
    + eexists. split; reflexivity.
    + eexists. reflexivity.
Qed.
End EntryFields.

(** ** Stop-loss and take-profit prices *)
Section StopLossTakeProfit.
Local Open Scope Q_scope.
Import TradeSimulator.

(** The price change of a stop-loss or take-profit is not negative. *)
Lemma priceChange_nonneg (percent leverage entryPrice : Q) :
  0 <= percent -> 0 < leverage -> 0 <= entryPrice ->
  0 <= (percent ⊘ leverage ⊘ 100) ⊗ entryPrice.
Proof.
  intros Hp Hl He. apply mul_nonneg; [|exact He].
  apply div_nonneg; [|reflexivity]. apply div_nonneg; assumption.
Qed.

(** The stop-loss is not on the winning side of the entry price, the
    take-profit not on the losing side. *)
Lemma stop_take_sides (entryPrice leverage slPercent tpPercent : Q) (direction : string) :
  Binary64.double entryPrice -> 0 <= entryPrice -> 0 < leverage ->
  0 <= slPercent -> 0 <= tpPercent ->
  let stop := MathUtils.calculateStopLoss entryPrice direction leverage slPercent in
  let take := MathUtils.calculateTakeProfit entryPrice direction leverage tpPercent in
  if String.eqb direction "LONG"
  then stop <= entryPrice /\ entryPrice <= take
  else take <= entryPrice /\ entryPrice <= stop.
Proof.
  intros Hd He Hl Hsl Htp.
  pose proof (priceChange_nonneg _ _ _ Hsl Hl He) as Dsl.
  pose proof (priceChange_nonneg _ _ _ Htp Hl He) as Dtp.
  unfold MathUtils.calculateStopLoss, MathUtils.calculateTakeProfit. cbv zeta.
  destruct (String.eqb direction "LONG");
    split; first [apply sub_le | apply add_ge]; assumption.
Qed.

(** The entry price and the two prices of a returned trade. *)
Lemma simulateTradeSilent_prices this signal remainingCandles trade this' :
  simulateTradeSilent this signal remainingCandles = Return (trade, this') ->
  Trade.entryPrice trade = Signal.entryPrice signal
  /\ Trade.stopLoss trade
     = MathUtils.calculateStopLoss (Signal.entryPrice signal) (Signal.direction signal)
         (leverage this) (stopLossPercent this)
  /\ Trade.takeProfit trade
     = MathUtils.calculateTakeProfit (Signal.entryPrice signal) (Signal.direction signal)
         (leverage this) (takeProfitPercent this).
Proof.
  intros E.
  destruct (simulateTradeSilent_entry _ _ _ _ _ E) as (_ & _ & _ & _ & Hsl & Htp & _).
  destruct (simulateTradeSilent_closed _ _ _ _ _ E)
    as (_ & base & price & c & why & -> & _ & _ & He & _).
  split; [exact He|]. split; [exact Hsl | exact Htp].
Qed.

(** C3. For a leverage other than zero, the stop-loss and the
    take-profit of every trade are the entry price moved by
    [(percent / leverage) / 100 * entryPrice]: down and up for LONG,
    up and down for SHORT, every operation being that of binary64;
    with entry 100, leverage 5, stop-loss 10% and take-profit 20% a
    LONG trade has its stop-loss at 98 and its take-profit at 104; and
    for a positive entry price, leverage and percentages the stop-loss
    is not on the winning side of the entry price and the take-profit
    not on the losing side. *)
Theorem stop_take_geometry :
  (forall this signal remainingCandles trade this',
      simulateTradeSilent this signal remainingCandles = Return (trade, this') ->
      ~ leverage this == 0 ->
      let entryPrice := Signal.entryPrice signal in
      let slDelta := (stopLossPercent this ⊘ leverage this ⊘ 100) ⊗ entryPrice in
      let tpDelta := (takeProfitPercent this ⊘ leverage this ⊘ 100) ⊗ entryPrice in
      Trade.entryPrice trade = entryPrice
      /\ (Signal.direction signal = "LONG"%string ->
          Trade.stopLoss trade = entryPrice ⊖ slDelta
          /\ Trade.takeProfit trade = entryPrice ⊕ tpDelta)
      /\ (Signal.direction signal = "SHORT"%string ->
          Trade.stopLoss trade = entryPrice ⊕ slDelta
          /\ Trade.takeProfit trade = entryPrice ⊖ tpDelta))
  /\ (calculateStopLoss (TradeSimulator.new 100 5 4 10 20) 100 "LONG" == 98
      /\ calculateTakeProfit (TradeSimulator.new 100 5 4 10 20) 100 "LONG" == 104)
  /\ (forall this signal remainingCandles trade this',
         simulateTradeSilent this signal remainingCandles = Return (trade, this') ->
         Binary64.double (Signal.entryPrice signal) ->
         0 < Signal.entryPrice signal -> 0 < leverage this ->
         0 < stopLossPercent this -> 0 < takeProfitPercent this ->
         (Signal.direction signal = "LONG"%string ->
          Trade.stopLoss trade <= Trade.entryPrice trade
          /\ Trade.entryPrice trade <= Trade.takeProfit trade)
         /\ (Signal.direction signal = "SHORT"%string ->
             Trade.takeProfit trade <= Trade.entryPrice trade
             /\ Trade.entryPrice trade <= Trade.stopLoss trade)).
Proof.
  split; [|split].
  - intros this signal rem trade this' E _. cbv zeta.
    destruct (simulateTradeSilent_prices _ _ _ _ _ E) as (He & Hsl & Htp).
    split; [exact He|]. rewrite Hsl, Htp.
    split; intros ->; split; reflexivity.
  - split; vm_compute; reflexivity.
  - intros this signal rem trade this' E Hd He Hl Hslp Htpp.
    destruct (simulateTradeSilent_prices _ _ _ _ _ E) as (-> & -> & ->).
    pose proof (stop_take_sides (Signal.entryPrice signal) (leverage this)
                  (stopLossPercent this) (takeProfitPercent this)
                  (Signal.direction signal) Hd
                  (Qlt_le_weak _ _ He) Hl (Qlt_le_weak _ _ Hslp) (Qlt_le_weak _ _ Htpp))
      as Hsides.
    cbv zeta in Hsides. split; intros Hdir; rewrite Hdir in Hsides |- *; exact Hsides.
Qed.

Lemma stop_take_geometry_witness :
  exists trade this',
    simulateTradeSilent Samples.simulator Samples.longAt100 [Samples.reachingBar]
    = Return (trade, this')
    /\ Trade.stopLoss trade == 98
    /\ Trade.takeProfit trade == 104
    /\ Trade.stopLoss trade <= Trade.entryPrice trade
    /\ Trade.entryPrice trade <= Trade.takeProfit trade.
Proof.
  destruct (simulateTradeSilent Samples.simulator Samples.longAt100 [Samples.reachingBar])
    as [[trade this']|e] eqn:E; [|vm_compute in E; discriminate E].
  exists trade, this'. split; [reflexivity|].
  destruct stop_take_geometry as (Hprices & _ & Hsides).
  destruct (Hprices _ _ _ _ _ E) as (_ & Hlong & _); [vm_compute; discriminate|].
  destruct (Hlong eq_refl) as [Hsl Htp].
  split; [rewrite Hsl; vm_compute; reflexivity|].
  split; [rewrite Htp; vm_compute; reflexivity|].
  refine (proj1 (Hsides _ _ _ _ _ E _ _ _ _ _) eq_refl);
    vm_compute; reflexivity.
Defined.

(** C3 with the prices strictly on either side of the entry price
    fails: a stop-loss of 1e-14 percent and a take-profit of 2e-14
    percent move a price of 100 by less than half the distance to the
    next number, and both prices are 100. *)
Lemma stop_take_strict_counterexample :
  ~ (forall this signal remainingCandles trade this',
        simulateTradeSilent this signal remainingCandles = Return (trade, this') ->
        Binary64.double (Signal.entryPrice signal) ->
        0 < Signal.entryPrice signal -> 0 < leverage this ->
        0 < stopLossPercent this -> 0 < takeProfitPercent this ->
        Signal.direction signal = "LONG"%string ->
        Trade.stopLoss trade < Trade.entryPrice trade
        /\ Trade.entryPrice trade < Trade.takeProfit trade).
Proof.
  intros H.
  destruct (simulateTradeSilent Samples.tinySimulator Samples.longAt100 [Samples.quietBar])
    as [[trade this']|e] eqn:E; [|vm_compute in E; discriminate E].
  destruct (H _ _ _ _ _ E) as [Hlt _]; try (vm_compute; reflexivity).
  vm_compute in E. injection E as <- _. vm_compute in Hlt. discriminate Hlt.
Qed.
End StopLossTakeProfit.

(** ** The order of date strings *)
Section StringOrder.

Lemma ascii_compare_refl (a : ascii) : Ascii.compare a a = Eq.
Proof. unfold Ascii.compare. apply N.compare_refl. Qed.

Lemma ascii_compare_Lt_trans (a b c : ascii) :
  Ascii.compare a b = Lt -> Ascii.compare b c = Lt -> Ascii.compare a c = Lt.
Proof.
  unfold Ascii.compare. rewrite !N.compare_lt_iff. apply N.lt_trans.
Qed.

Lemma string_leb_trans (s1 s2 s3 : string) :
  String.leb s1 s2 = true -> String.leb s2 s3 = true -> String.leb s1 s3 = true.
Proof.
  unfold String.leb. revert s2 s3.
  induction s1 as [|c1 s1 IH]; intros [|c2 s2] [|c3 s3]; cbn;
    try reflexivity; try discriminate.
  destruct (Ascii.compare c1 c2) eqn:E12; try discriminate;
    destruct (Ascii.compare c2 c3) eqn:E23; try discriminate.
  - apply Ascii.compare_eq_iff in E12. apply Ascii.compare_eq_iff in E23. subst.
    rewrite ascii_compare_refl. apply IH.
  - apply Ascii.compare_eq_iff in E12. subst. rewrite E23. reflexivity.
  - apply Ascii.compare_eq_iff in E23. subst. rewrite E12. reflexivity.
  - rewrite (ascii_compare_Lt_trans _ _ _ E12 E23). reflexivity.
Qed.

#[global] Instance string_le_trans : Transitive string_le.
Proof. intros s1 s2 s3. apply string_leb_trans. Qed.

#[global] Instance string_le_total : Total string_le.
Proof. intros s1 s2. apply String.leb_total. Qed.

Lemma string_le_refl (s : string) : string_le s s.
Proof. destruct (string_le_total s s); assumption. Qed.

Lemma string_le_antisym (s1 s2 : string) : string_le s1 s2 -> string_le s2 s1 -> s1 = s2.
Proof. apply String.leb_antisym. Qed.
End StringOrder.

(** ** Daily levels *)
Section DailyLevels.
Context `{Moment}.
Import BreakoutStrategy.

Lemma sortedKeys_Permutation {V : Type} (o : gmap string V) :
  sortedKeys o ≡ₚ (map_to_list o).*1.
Proof. apply merge_sort_Permutation. Qed.

Lemma sortedKeys_NoDup {V : Type} (o : gmap string V) : NoDup (sortedKeys o).
Proof.
  rewrite sortedKeys_Permutation. apply NoDup_fst_map_to_list.
Qed.

Lemma elem_of_sortedKeys {V : Type} (o : gmap string V) (k : string) :
  k ∈ sortedKeys o <-> is_Some (o !! k).
Proof.
  rewrite sortedKeys_Permutation, list_elem_of_fmap. split.
  - intros ([k' v] & -> & Hin). apply elem_of_map_to_list in Hin. eauto.
  - intros [v Hv]. exists (k, v). split; [reflexivity|].
    apply elem_of_map_to_list. exact Hv.
Qed.

(** The first of the sorted keys is the least key. *)
Lemma sortedKeys_least {V : Type} (o : gmap string V) (first : string) (later : list string) :
  sortedKeys o = first :: later ->
  forall k, is_Some (o !! k) -> string_le first k.
Proof.
  intros Hkeys k Hk. apply elem_of_sortedKeys in Hk.
  pose proof (StronglySorted_merge_sort string_le (map_to_list o).*1) as Hsorted.
  fold (sortedKeys o) in Hsorted. rewrite Hkeys in Hsorted, Hk.
  apply StronglySorted_inv in Hsorted. destruct Hsorted as [_ Hall].
  apply elem_of_cons in Hk. destruct Hk as [-> | Hk].
  - apply string_le_refl.
  - eapply Forall_forall in Hall; eassumption.
Qed.

(** The dates that have a group are the dates of the candles. *)
Lemma groupCandlesByDay_is_Some (candles : list Candle) (date : string) :
  is_Some (DateUtils.groupCandlesByDay candles !! date)
  <-> exists c, c ∈ candles /\ DateUtils.getDateOnly (openTime c) = date.
Proof.
  unfold DateUtils.groupCandlesByDay.
  cut (forall acc : gmap string (list Candle),
          is_Some (fold_left
                     (fun grouped candle =>
                        <[DateUtils.getDateOnly (openTime candle) :=
                            default [] (grouped !! DateUtils.getDateOnly (openTime candle))
                            ++ [candle]]> grouped) candles acc !! date)
          <-> is_Some (acc !! date)
              \/ exists c, c ∈ candles /\ DateUtils.getDateOnly (openTime c) = date).
  { intros Hgen. rewrite Hgen, lookup_empty. split.
    - intros [[x Hx] | Hc]; [discriminate | exact Hc].
    - intros Hc. right. exact Hc. }
  induction candles as [|c rest IH]; intros acc; cbn.
  - split; [intros Hs; left; exact Hs|].
    intros [Hs | (c & Hc & _)]; [exact Hs | inversion Hc].
  - rewrite IH. split.
    + intros [Hs | (c' & Hc' & Hd)].
      * destruct (decide (DateUtils.getDateOnly (openTime c) = date)) as [E|NE].
        -- right. exists c. split; [left | exact E].
        -- rewrite lookup_insert_ne in Hs by exact NE. left. exact Hs.
      * right. exists c'. split; [right; exact Hc' | exact Hd].
    + intros [Hs | (c' & Hc' & Hd)].
      * left. destruct (decide (DateUtils.getDateOnly (openTime c) = date)) as [E|NE].
        -- rewrite E, lookup_insert_eq. eauto.
        -- rewrite lookup_insert_ne by exact NE. exact Hs.
      * apply elem_of_cons in Hc'. destruct Hc' as [-> | Hc'].
        -- left. rewrite Hd, lookup_insert_eq. eauto.
        -- right. exists c'. split; [exact Hc' | exact Hd].
Qed.

(** The loop only writes the entries of the dates it walks. *)
Lemma levelsLoop_other dailyCandles previousDate dates dailyLevels date :
  date ∉ dates ->
  levelsLoop dailyCandles previousDate dates dailyLevels !! date = dailyLevels !! date.
Proof.
  revert previousDate dailyLevels.
  induction dates as [|d rest IH]; intros previousDate dailyLevels Hnotin; cbn.
  - reflexivity.
  - apply not_elem_of_cons in Hnotin. destruct Hnotin as [Hne Hrest].
    rewrite IH by exact Hrest. apply lookup_insert_ne. congruence.
Qed.

Lemma levelsLoop_keys dailyCandles previousDate dates dailyLevels date :
  is_Some (levelsLoop dailyCandles previousDate dates dailyLevels !! date) ->
  date ∈ dates \/ is_Some (dailyLevels !! date).
Proof.
  destruct (decide (date ∈ dates)) as [Hin|Hnotin]; [left; exact Hin|].
  rewrite levelsLoop_other by exact Hnotin. right. assumption.
Qed.

(** The first of the sorted dates has no previous-day levels. *)
Lemma levelsLoop_first dailyCandles firstDate laterDates :
  NoDup (firstDate :: laterDates) ->
  exists levels,
    levelsLoop dailyCandles None (firstDate :: laterDates) ∅ !! firstDate = Some levels
    /\ DayLevels.previousHigh levels = None
    /\ DayLevels.previousLow levels = None.
Proof.
  intros Hnd. apply NoDup_cons in Hnd. destruct Hnd as [Hnotin _]. cbn.
  rewrite levelsLoop_other by exact Hnotin.
  rewrite lookup_insert_eq. eexists. repeat split; reflexivity.
Qed.

Lemma calculateDailyLevels_first candles firstDate laterDates :
  sortedKeys (DateUtils.groupCandlesByDay candles) = firstDate :: laterDates ->
  exists levels,
    calculateDailyLevels candles !! firstDate = Some levels
    /\ DayLevels.previousHigh levels = None
    /\ DayLevels.previousLow levels = None.
Proof.
  intros Hkeys. unfold calculateDailyLevels. rewrite Hkeys.
  apply levelsLoop_first. rewrite <- Hkeys. apply sortedKeys_NoDup.
Qed.

(** With all candles on one date, no entry has previous-day levels. *)
Lemma calculateDailyLevels_single_day candles day date levels :
  (forall c, c ∈ candles -> DateUtils.getDateOnly (openTime c) = day) ->
  calculateDailyLevels candles !! date = Some levels ->
  DayLevels.previousHigh levels = None /\ DayLevels.previousLow levels = None.
Proof.
  intros Hday Hlook.
  assert (Hall : forall k, k ∈ sortedKeys (DateUtils.groupCandlesByDay candles) -> k = day).
  { intros k Hk. apply elem_of_sortedKeys, groupCandlesByDay_is_Some in Hk.
    destruct Hk as (c & Hc & <-). apply Hday. exact Hc. }
  pose proof (sortedKeys_NoDup (DateUtils.groupCandlesByDay candles)) as Hnd.
  destruct (sortedKeys (DateUtils.groupCandlesByDay candles)) as [|d rest] eqn:Hkeys.
  - unfold calculateDailyLevels in Hlook. rewrite Hkeys in Hlook. cbn in Hlook.
    rewrite lookup_empty in Hlook. discriminate.
  - assert (date = d) as ->.
    { unfold calculateDailyLevels in Hlook. rewrite Hkeys in Hlook.
      destruct (levelsLoop_keys _ _ _ _ date (mk_is_Some _ _ Hlook)) as [Hin | [x Hx]].
      - rewrite (Hall d) by left. apply Hall. exact Hin.
      - rewrite lookup_empty in Hx. discriminate. }
    destruct (calculateDailyLevels_first candles d rest Hkeys) as (lv & Hlv & Hh & Hl).
    rewrite Hlook in Hlv. injection Hlv as <-. split; assumption.
Qed.
End DailyLevels.

(** ** Breakout detection *)
Section BreakoutDetection.
Local Open Scope Q_scope.
Import BreakoutStrategy.

Lemma detectBreakout_entryPrice candle dailyHigh dailyLow breakout :
  detectBreakout candle dailyHigh dailyLow = Some breakout ->
  Breakout.entryPrice breakout = close candle.
Proof.
  unfold detectBreakout. destruct dailyHigh as [h|], dailyLow as [l|]; try discriminate.
  repeat (match goal with |- context [if ?b then _ else _] => destruct b end);
    try discriminate; intros [= <-]; reflexivity.
Qed.

(** The high branch: decided by the high level alone. *)
Lemma detectBreakout_high candle dailyHigh dailyLow :
  ~ dailyHigh == 0 -> ~ dailyLow == 0 -> dailyHigh < high candle ->
  detectBreakout candle (Some dailyHigh) (Some dailyLow) =
  Some {| Breakout.type := Some "BREAKOUT_HIGH"%string;
          Breakout.direction :=
            if Qltb dailyHigh (open candle) && Qltb dailyHigh (close candle)
            then Some "LONG"%string
            else if Qltb (open candle) dailyHigh && Qltb (close candle) dailyHigh
                 then Some "SHORT"%string else None;
          Breakout.reason :=
            if Qltb dailyHigh (open candle) && Qltb dailyHigh (close candle)
            then Some "Body above previous high"%string
            else if Qltb (open candle) dailyHigh && Qltb (close candle) dailyHigh
                 then Some "Body below previous high, wick touched above"%string
                 else None;
          Breakout.entryPrice := close candle |}.
Proof.
  intros Hh Hl Hbreak. unfold detectBreakout.
  apply truthy_Some in Hh. apply truthy_Some in Hl. rewrite Hh, Hl.
  apply Qltb_lt in Hbreak. rewrite Hbreak. cbn [negb orb].
  destruct (Qltb dailyHigh (open candle) && Qltb dailyHigh (close candle));
    [reflexivity|].
  destruct (Qltb (open candle) dailyHigh && Qltb (close candle) dailyHigh);
    reflexivity.
Qed.

(** The low branch, reached without a high breakout. *)
Lemma detectBreakout_low candle dailyHigh dailyLow :
  ~ dailyHigh == 0 -> ~ dailyLow == 0 ->
  ~ dailyHigh < high candle -> low candle < dailyLow ->
  detectBreakout candle (Some dailyHigh) (Some dailyLow) =
  Some {| Breakout.type := Some "BREAKOUT_LOW"%string;
          Breakout.direction :=
            if Qltb (open candle) dailyLow && Qltb (close candle) dailyLow
            then Some "SHORT"%string
            else if Qltb dailyLow (open candle) && Qltb dailyLow (close candle)
                 then Some "LONG"%string else None;
          Breakout.reason :=
            if Qltb (open candle) dailyLow && Qltb (close candle) dailyLow
            then Some "Body below previous low"%string
            else if Qltb dailyLow (open candle) && Qltb dailyLow (close candle)
                 then Some "Body above previous low, wick touched below"%string
                 else None;
          Breakout.entryPrice := close candle |}.
Proof.
  intros Hh Hl Hno Hbreak. unfold detectBreakout.
  apply truthy_Some in Hh. apply truthy_Some in Hl. rewrite Hh, Hl.
  apply Qltb_nlt in Hno. apply Qltb_lt in Hbreak. rewrite Hno, Hbreak. cbn [negb orb].
  destruct (Qltb (open candle) dailyLow && Qltb (close candle) dailyLow);
    [reflexivity|].
  destruct (Qltb dailyLow (open candle) && Qltb dailyLow (close candle));
    reflexivity.
Qed.

(** A body that touches the level is neither above nor below it. *)
Lemma body_at_level (level o c : Q) :
  o == level \/ c == level ->
  Qltb level o && Qltb level c = false /\ Qltb o level && Qltb c level = false.
Proof.
  intros [E | E]; apply Qltb_irrefl_eq in E; destruct E as [E1 E2];
    rewrite E1, E2, ?andb_false_r; split; reflexivity.
Qed.

Section WithZone.
Context `{Moment}.

(** What a signal is made of. *)
Lemma shouldOpenTrade_Some dailyLevels candle currentDate todayTrades signal :
  shouldOpenTrade dailyLevels candle currentDate todayTrades = Some signal ->
  exists dayData breakout,
    dailyLevels !! currentDate = Some dayData
    /\ truthy (DayLevels.previousHigh dayData) = true
    /\ truthy (DayLevels.previousLow dayData) = true
    /\ detectBreakout candle (DayLevels.previousHigh dayData)
         (DayLevels.previousLow dayData) = Some breakout
    /\ Breakout.direction breakout = Some (Signal.direction signal)
    /\ Signal.date signal = currentDate
    /\ Signal.candle signal = candle
    /\ Signal.entryPrice signal = Breakout.entryPrice breakout.
Proof.
  unfold shouldOpenTrade. destruct (0 <? length todayTrades)%nat; [discriminate|].
  destruct (dailyLevels !! currentDate) as [dayData|]; [|discriminate].
  destruct (truthy (DayLevels.previousHigh dayData)) eqn:Th; [|discriminate].
  destruct (truthy (DayLevels.previousLow dayData)) eqn:Tl; [|discriminate].
  cbn [negb orb].
  destruct (detectBreakout _ _ _) as [breakout|] eqn:E; [|discriminate].
  destruct (Breakout.direction breakout) as [direction|] eqn:D; [|discriminate].
  intros [= <-]. exists dayData, breakout. cbn. repeat split; assumption.
Qed.

(** No direction, no signal. *)
Lemma shouldOpenTrade_no_direction dailyLevels candle currentDate todayTrades dayData breakout :
  dailyLevels !! currentDate = Some dayData ->
  detectBreakout candle (DayLevels.previousHigh dayData) (DayLevels.previousLow dayData)
  = Some breakout ->
  Breakout.direction breakout = None ->
  shouldOpenTrade dailyLevels candle currentDate todayTrades = None.
Proof.
  intros Hl Hb Hd. unfold shouldOpenTrade. rewrite Hl, Hb, Hd.
  repeat (match goal with |- context [if ?b then _ else _] => destruct b end);
    reflexivity.
Qed.

(** Signals come from [shouldOpenTrade] on a scanned candle. *)
Lemma scanCandles_signal dailyLevels candles st signal :
  signal ∈ (scanCandles dailyLevels candles st).1 ->
  signal ∈ st.1
  \/ exists c,
      c ∈ candles
      /\ shouldOpenTrade dailyLevels c (DateUtils.getDateOnly (openTime c)) []
         = Some signal.
Proof.
  unfold scanCandles. revert st.
  induction candles as [|c rest IH]; intros st; cbn.
  - intros Hin. left. exact Hin.
  - intros Hin. apply IH in Hin. destruct Hin as [Hin | (c' & Hc' & Hs)].
    + destruct st as [signals dailyTrades]. unfold processCandle in Hin.
      destruct (dailyTrades !! DateUtils.getDateOnly (openTime c)) eqn:Hmark.
      * left. exact Hin.
      * destruct (shouldOpenTrade _ _ _ _) as [s|] eqn:Hs; [|left; exact Hin].
        cbn in Hin. apply elem_of_app in Hin. destruct Hin as [Hin | Hin].
        -- left. exact Hin.
        -- apply list_elem_of_singleton in Hin. subst s.
           right. exists c. split; [left | exact Hs].
    + right. exists c'. split; [right; exact Hc' | exact Hs].
Qed.

Lemma processCandles_signal candles signal :
  signal ∈ processCandles candles ->
  exists c,
    c ∈ candles
    /\ shouldOpenTrade (calculateDailyLevels candles) c
         (DateUtils.getDateOnly (openTime c)) [] = Some signal.
Proof.
  intros Hin. apply scanCandles_signal in Hin.
  destruct Hin as [Hin | Hc]; [inversion Hin | exact Hc].
Qed.
End WithZone.
End BreakoutDetection.

Section BreakoutClaims.
Local Open Scope Q_scope.
Import BreakoutStrategy.
Context `{Moment}.

(** C7, as the code has it. For reference levels that are neither null
    nor zero (the guard treats a zero level like a missing one): a bar
    with [high] above the previous high is decided by the high-breakout
    branch alone, whatever the previous low is and even when the bar's
    [low] is below it: LONG for a body above the level, SHORT for a body
    below it, no direction otherwise, in particular when open or close
    is exactly at the level; the low-breakout branch, reached only
    without a high breakout, is symmetric.  A breakout without direction
    gives no signal, and the entry price of every signal is the close of
    its bar. *)
Theorem breakout_branches :
  (forall candle dailyHigh dailyLow,
      ~ dailyHigh == 0 -> ~ dailyLow == 0 -> dailyHigh < high candle ->
      exists breakout,
        detectBreakout candle (Some dailyHigh) (Some dailyLow) = Some breakout
        /\ Breakout.type breakout = Some "BREAKOUT_HIGH"%string
        /\ Breakout.entryPrice breakout = close candle
        /\ (dailyHigh < open candle -> dailyHigh < close candle ->
            Breakout.direction breakout = Some "LONG"%string)
        /\ (open candle < dailyHigh -> close candle < dailyHigh ->
            Breakout.direction breakout = Some "SHORT"%string)
        /\ (open candle == dailyHigh \/ close candle == dailyHigh ->
            Breakout.direction breakout = None)
        /\ (forall otherLow, ~ otherLow == 0 ->
            detectBreakout candle (Some dailyHigh) (Some otherLow) = Some breakout))
  /\ (forall candle dailyHigh dailyLow,
         ~ dailyHigh == 0 -> ~ dailyLow == 0 ->
         ~ dailyHigh < high candle -> low candle < dailyLow ->
         exists breakout,
           detectBreakout candle (Some dailyHigh) (Some dailyLow) = Some breakout
           /\ Breakout.type breakout = Some "BREAKOUT_LOW"%string
           /\ Breakout.entryPrice breakout = close candle
           /\ (open candle < dailyLow -> close candle < dailyLow ->
               Breakout.direction breakout = Some "SHORT"%string)
           /\ (dailyLow < open candle -> dailyLow < close candle ->
               Breakout.direction breakout = Some "LONG"%string)
           /\ (open candle == dailyLow \/ close candle == dailyLow ->
               Breakout.direction breakout = None))
  /\ (forall dailyLevels candle currentDate todayTrades dayData breakout,
         dailyLevels !! currentDate = Some dayData ->
         detectBreakout candle (DayLevels.previousHigh dayData)
           (DayLevels.previousLow dayData) = Some breakout ->
         Breakout.direction breakout = None ->
         shouldOpenTrade dailyLevels candle currentDate todayTrades = None)
  /\ (forall dailyLevels candle currentDate todayTrades signal,
         shouldOpenTrade dailyLevels candle currentDate todayTrades = Some signal ->
         Signal.entryPrice signal = close candle)
  /\ (forall candles signal,
         signal ∈ processCandles candles ->
         Signal.entryPrice signal = close (Signal.candle signal)).
Proof.
  split; [|split; [|split; [|split]]].
  - intros candle dh dl Hh Hl Hbreak. eexists.
    split; [apply detectBreakout_high; assumption|].
    cbn. repeat split.
    + intros Ho Hc. apply Qltb_lt in Ho. apply Qltb_lt in Hc.
      rewrite Ho, Hc. reflexivity.
    + intros Ho Hc.
      assert (Qltb dh (open candle) = false) as ->
        by (apply Qltb_nlt; intros T; exact (Qlt_irrefl _ (Qlt_trans _ _ _ T Ho))).
      apply Qltb_lt in Ho. apply Qltb_lt in Hc. rewrite Ho, Hc. reflexivity.
    + intros Hat. apply body_at_level in Hat. destruct Hat as [-> ->]. reflexivity.
    + intros dl' Hl'. apply detectBreakout_high; assumption.
  - intros candle dh dl Hh Hl Hno Hbreak. eexists.
    split; [apply detectBreakout_low; assumption|].
    cbn. repeat split.
    + intros Ho Hc. apply Qltb_lt in Ho. apply Qltb_lt in Hc.
      rewrite Ho, Hc. reflexivity.
    + intros Ho Hc.
      assert (Qltb (open candle) dl = false) as ->
        by (apply Qltb_nlt; intros T; exact (Qlt_irrefl _ (Qlt_trans _ _ _ T Ho))).
      apply Qltb_lt in Ho. apply Qltb_lt in Hc. rewrite Ho, Hc. reflexivity.
    + intros Hat. apply body_at_level in Hat. destruct Hat as [-> ->]. reflexivity.
  - intros. eapply shouldOpenTrade_no_direction; eassumption.
  - intros dailyLevels candle currentDate todayTrades signal Hs.
    apply shouldOpenTrade_Some in Hs.
    destruct Hs as (dayData & breakout & _ & _ & _ & Hb & _ & _ & _ & ->).
    eapply detectBreakout_entryPrice. exact Hb.
  - intros candles signal Hin. apply processCandles_signal in Hin.
    destruct Hin as (c & _ & Hs). apply shouldOpenTrade_Some in Hs.
    destruct Hs as (dayData & breakout & _ & _ & _ & Hb & _ & _ & -> & ->).
    eapply detectBreakout_entryPrice. exact Hb.
Qed.
End BreakoutClaims.

Section BreakoutExamples.
Local Open Scope Q_scope.
Import BreakoutStrategy.

Lemma breakout_branches_witness :
  let candle := Samples.bar Samples.day2 (995 # 10) (1005 # 10) 96 100 in
  low candle < 97
  /\ exists breakout,
      detectBreakout candle (Some 99) (Some 97) = Some breakout
      /\ Breakout.type breakout = Some "BREAKOUT_HIGH"%string
      /\ Breakout.direction breakout = Some "LONG"%string.
Proof.
  intros candle. split; [reflexivity|].
  destruct (proj1 (breakout_branches (H := moment_utc)) candle 99 97)
    as (breakout & Hb & Ht & _ & Hlong & _); [discriminate | discriminate | reflexivity |].
  exists breakout. split; [exact Hb|]. split; [exact Ht|].
  apply Hlong; reflexivity.
Defined.

(** C7, as the claim words it, fails for a zero level: with previous
    high 5 and previous low 0, both non-null, a bar with high 7 and its
    body at 6 is above the previous high and yet the detector returns
    nothing, without entering the high-breakout branch. *)
Lemma zero_level_counterexample :
  ~ (forall candle dailyHigh dailyLow,
        dailyHigh < high candle ->
        exists breakout,
          detectBreakout candle (Some dailyHigh) (Some dailyLow) = Some breakout
          /\ Breakout.type breakout = Some "BREAKOUT_HIGH"%string).
Proof.
  intros Hclaim.
  destruct (Hclaim (Samples.bar Samples.day2 6 7 4 6) 5 0) as (breakout & Hb & _).
  - reflexivity.
  - discriminate Hb.
Qed.
End BreakoutExamples.

(** ** One signal per day *)
Section Scheduler.
Import BreakoutStrategy.
Context `{Moment}.

Lemma scanCandles_app dailyLevels pre post st :
  scanCandles dailyLevels (pre ++ post) st
  = scanCandles dailyLevels post (scanCandles dailyLevels pre st).
Proof. apply fold_left_app. Qed.

(** A bar of a date that is marked changes nothing. *)
Lemma processCandle_marked dailyLevels st candle :
  is_Some (st.2 !! DateUtils.getDateOnly (openTime candle)) ->
  processCandle dailyLevels st candle = st.
Proof.
  destruct st as [signals dailyTrades]. cbn. intros [s Hs].
  rewrite Hs. reflexivity.
Qed.

(** The marked dates are the dates of the signals so far, each once. *)
Lemma processCandle_marks dailyLevels st candle :
  (forall d, is_Some (st.2 !! d) <-> d ∈ Signal.date <$> st.1) ->
  NoDup (Signal.date <$> st.1) ->
  let st' := processCandle dailyLevels st candle in
  (forall d, is_Some (st'.2 !! d) <-> d ∈ Signal.date <$> st'.1)
  /\ NoDup (Signal.date <$> st'.1).
Proof.
  destruct st as [signals dailyTrades]. cbn. intros Hmarks Hnd.
  destruct (dailyTrades !! DateUtils.getDateOnly (openTime candle)) eqn:Hmark;
    [split; assumption|].
  destruct (shouldOpenTrade _ _ _ _) as [s|] eqn:Hs; [|split; assumption].
  apply shouldOpenTrade_Some in Hs.
  destruct Hs as (_ & _ & _ & _ & _ & _ & _ & Hdate & _ & _). cbn. split.
  - intros d. rewrite fmap_app, elem_of_app, <- Hmarks. cbn.
    rewrite list_elem_of_singleton, Hdate.
    destruct (decide (DateUtils.getDateOnly (openTime candle) = d)) as [<-|Hne].
    + rewrite lookup_insert_eq. split; [right; reflexivity | eauto].
    + rewrite lookup_insert_ne by exact Hne. split; [left; assumption|].
      intros [Hd | Hd]; [exact Hd | congruence].
  - rewrite fmap_app. apply NoDup_app. split; [exact Hnd|]. split.
    + intros d Hd. cbn. rewrite list_elem_of_singleton, Hdate. intros ->.
      apply Hmarks in Hd. rewrite Hmark in Hd. destruct Hd as [x Hx]. discriminate.
    + cbn. apply NoDup_singleton.
Qed.

Lemma scanCandles_marks dailyLevels candles st :
  (forall d, is_Some (st.2 !! d) <-> d ∈ Signal.date <$> st.1) ->
  NoDup (Signal.date <$> st.1) ->
  let st' := scanCandles dailyLevels candles st in
  (forall d, is_Some (st'.2 !! d) <-> d ∈ Signal.date <$> st'.1)
  /\ NoDup (Signal.date <$> st'.1).
Proof.
  unfold scanCandles. revert st.
  induction candles as [|c rest IH]; intros st Hmarks Hnd; cbn.
  - split; assumption.
  - destruct (processCandle_marks dailyLevels st c Hmarks Hnd) as [Hmarks' Hnd'].
    apply IH; assumption.
Qed.

Lemma scanCandles_marks_init dailyLevels candles :
  let st := scanCandles dailyLevels candles ([], ∅) in
  (forall d, is_Some (st.2 !! d) <-> d ∈ Signal.date <$> st.1)
  /\ NoDup (Signal.date <$> st.1).
Proof.
  apply scanCandles_marks; cbn.
  - intros d. rewrite lookup_empty. split.
    + intros [x Hx]. discriminate.
    + intros Hd. inversion Hd.
  - constructor.
Qed.

(** The signals keep the order of their candles. *)
Lemma scanCandles_sublist dailyLevels candles st :
  exists new,
    (scanCandles dailyLevels candles st).1 = st.1 ++ new
    /\ (Signal.candle <$> new) `sublist_of` candles.
Proof.
  unfold scanCandles. revert st.
  induction candles as [|c rest IH]; intros st; cbn.
  - exists []. split; [symmetry; apply app_nil_r | constructor].
  - destruct (IH (processCandle dailyLevels st c)) as (new & -> & Hsub).
    destruct st as [signals dailyTrades]. unfold processCandle.
    destruct (dailyTrades !! DateUtils.getDateOnly (openTime c)).
    { exists new. split; [reflexivity | apply sublist_cons; exact Hsub]. }
    destruct (shouldOpenTrade _ _ _ _) as [s|] eqn:Hs.
    + exists (s :: new). cbn. split; [rewrite <- app_assoc; reflexivity|].
      apply shouldOpenTrade_Some in Hs.
      destruct Hs as (_ & _ & _ & _ & _ & _ & _ & _ & -> & _).
      apply sublist_skip. exact Hsub.
    + exists new. split; [reflexivity | apply sublist_cons; exact Hsub].
Qed.

Lemma StronglySorted_sublist {A : Type} (R : relation A) (l k : list A) :
  l `sublist_of` k -> StronglySorted R k -> StronglySorted R l.
Proof.
  induction 1 as [|x l k Hsub IH|x l k Hsub IH]; intros Hk.
  - constructor.
  - apply StronglySorted_inv in Hk. destruct Hk as [Hk Hall]. constructor.
    + apply IH. exact Hk.
    + apply Forall_forall. intros y Hy.
      eapply Forall_forall in Hall; [exact Hall|].
      eapply sublist_subseteq; eassumption.
  - apply StronglySorted_inv in Hk. destruct Hk as [Hk _]. apply IH. exact Hk.
Qed.

(** C6. The signals of [processCandles] have pairwise different dates,
    each the date of its own candle, a candle of the input; the first of
    the sorted dates of the series, which is the least of the bars'
    dates, has null previous-day levels and no signal; for bars in
    strictly increasing time order the signals are in strictly
    increasing time order; and once the scan has produced a signal for a
    date, a further bar of that date leaves the signals as they are,
    whatever breakout it shows. *)
Theorem one_signal_per_day (candles : list Candle) :
  let signals := processCandles candles in
  let dailyLevels := calculateDailyLevels candles in
  NoDup (Signal.date <$> signals)
  /\ (forall s, s ∈ signals ->
        Signal.candle s ∈ candles
        /\ Signal.date s = DateUtils.getDateOnly (openTime (Signal.candle s)))
  /\ (forall firstDate laterDates,
         sortedKeys (DateUtils.groupCandlesByDay candles) = firstDate :: laterDates ->
         (exists c, c ∈ candles /\ DateUtils.getDateOnly (openTime c) = firstDate)
         /\ (forall c, c ∈ candles ->
                       string_le firstDate (DateUtils.getDateOnly (openTime c)))
         /\ (exists levels,
                dailyLevels !! firstDate = Some levels
                /\ DayLevels.previousHigh levels = None
                /\ DayLevels.previousLow levels = None)
         /\ forall s, s ∈ signals -> Signal.date s <> firstDate)
  /\ (StronglySorted Z.lt (openTime <$> candles) ->
      StronglySorted Z.lt ((fun s => openTime (Signal.candle s)) <$> signals))
  /\ (forall pre candle post,
         candles = pre ++ candle :: post ->
         let st := scanCandles dailyLevels pre ([], ∅) in
         (exists s, s ∈ st.1
                    /\ Signal.date s = DateUtils.getDateOnly (openTime candle)) ->
         scanCandles dailyLevels (pre ++ [candle]) ([], ∅) = st).
Proof.
  cbv zeta. split; [|split; [|split; [|split]]].
  - apply scanCandles_marks_init.
  - intros s Hs. apply processCandles_signal in Hs. destruct Hs as (c & Hc & Hs).
    apply shouldOpenTrade_Some in Hs.
    destruct Hs as (_ & _ & _ & _ & _ & _ & _ & -> & -> & _). split; [exact Hc | reflexivity].
  - intros firstDate laterDates Hkeys.
    destruct (calculateDailyLevels_first candles firstDate laterDates Hkeys)
      as (levels & Hl & Hh & Hlow).
    split; [|split; [|split; [exists levels; repeat split; assumption|]]].
    { apply groupCandlesByDay_is_Some, elem_of_sortedKeys. rewrite Hkeys. left. }
    { intros c Hc. eapply sortedKeys_least; [exact Hkeys|].
      apply groupCandlesByDay_is_Some. exists c. split; [exact Hc | reflexivity]. }
    intros s Hs Hdate. apply processCandles_signal in Hs. destruct Hs as (c & _ & Hs).
    apply shouldOpenTrade_Some in Hs.
    destruct Hs as (dayData & _ & Hday & Hth & _ & _ & _ & Hd & _ & _).
    rewrite Hd in Hdate. rewrite Hdate, Hl in Hday. injection Hday as <-.
    rewrite Hh in Hth. discriminate Hth.
  - intros Hsorted.
    destruct (scanCandles_sublist (calculateDailyLevels candles) candles ([], ∅))
      as (new & Hnew & Hsub).
    unfold processCandles. rewrite Hnew. cbn.
    apply (StronglySorted_sublist _ _ (openTime <$> candles)); [|exact Hsorted].
    change ((fun s => openTime (Signal.candle s)) <$> new)
      with ((openTime ∘ Signal.candle) <$> new).
    rewrite (list_fmap_compose Signal.candle openTime new).
    apply fmap_sublist. exact Hsub.
  - intros pre candle post _ (s & Hs & Hdate).
    rewrite scanCandles_app. cbn.
    apply processCandle_marked.
    apply (proj1 (scanCandles_marks_init (calculateDailyLevels candles) pre)).
    rewrite <- Hdate. apply list_elem_of_fmap. exists s. split; [reflexivity | exact Hs].
Qed.
End Scheduler.

Section SchedulerExamples.
Import BreakoutStrategy.

(** The second breakout of the date, a short one after a long one, is
    discarded although the bar alone would give a signal. *)
Example suppressed_second_signal :
  processCandles Samples.suppressedRun = [Samples.longAt100]
  /\ (Signal.direction <$>
        shouldOpenTrade (calculateDailyLevels Samples.suppressedRun)
          Samples.breakdownBar "2025-08-26" [])
     = Some "SHORT"%string.
Proof. split; vm_compute; reflexivity. Qed.

Lemma one_signal_per_day_witness :
  let dailyLevels := calculateDailyLevels Samples.suppressedRun in
  StronglySorted Z.lt
    ((fun s => openTime (Signal.candle s)) <$> processCandles Samples.suppressedRun)
  /\ scanCandles dailyLevels
       (take 2 Samples.suppressedRun ++ [Samples.breakdownBar]) ([], ∅)
     = scanCandles dailyLevels (take 2 Samples.suppressedRun) ([], ∅).
Proof.
  intros dailyLevels.
  destruct (one_signal_per_day Samples.suppressedRun) as (_ & _ & _ & Hsorted & Hskip).
  split.
  - apply Hsorted. repeat (constructor; try reflexivity).
  - apply (Hskip (take 2 Samples.suppressedRun) Samples.breakdownBar []); [reflexivity|].
    exists Samples.longAt100. split; [|reflexivity].
    assert ((scanCandles (calculateDailyLevels Samples.suppressedRun)
               (take 2 Samples.suppressedRun) ([], ∅)).1 = [Samples.longAt100]) as ->
      by (vm_compute; reflexivity).
    apply list_elem_of_singleton. reflexivity.
Defined.
End SchedulerExamples.

(** ** Runs without a usable reference day *)
Section InsufficientData.
Import BreakoutStrategy.
Context `{Moment}.

Lemma scanCandles_no_signal dailyLevels candles st :
  (forall c, c ∈ candles ->
             shouldOpenTrade dailyLevels c (DateUtils.getDateOnly (openTime c)) [] = None) ->
  scanCandles dailyLevels candles st = st.
Proof.
  unfold scanCandles. revert st.
  induction candles as [|c rest IH]; intros st Hnone; cbn; [reflexivity|].
  assert (processCandle dailyLevels st c = st) as ->.
  { destruct st as [signals dailyTrades]. unfold processCandle.
    destruct (dailyTrades !! DateUtils.getDateOnly (openTime c)); [reflexivity|].
    rewrite Hnone by left. reflexivity. }
  apply IH. intros c' Hc'. apply Hnone. right. exact Hc'.
Qed.

(** Without previous-day levels no bar opens a trade. *)
Lemma shouldOpenTrade_no_levels dailyLevels candle currentDate todayTrades :
  (forall levels, dailyLevels !! currentDate = Some levels ->
                  DayLevels.previousHigh levels = None) ->
  shouldOpenTrade dailyLevels candle currentDate todayTrades = None.
Proof.
  intros Hnull. unfold shouldOpenTrade.
  destruct (0 <? length todayTrades)%nat; [reflexivity|].
  destruct (dailyLevels !! currentDate) as [levels|]; [|reflexivity].
  rewrite (Hnull levels eq_refl). reflexivity.
Qed.

Lemma processCandles_single_day candles day :
  (forall c, c ∈ candles -> DateUtils.getDateOnly (openTime c) = day) ->
  processCandles candles = [].
Proof.
  intros Hday. unfold processCandles. rewrite scanCandles_no_signal; [reflexivity|].
  intros c _. apply shouldOpenTrade_no_levels. intros levels Hl.
  eapply calculateDailyLevels_single_day; eassumption.
Qed.

Lemma forEach_unchanged {A S : Type} (body : S -> A -> Completion S) (l : list A) (st : S) :
  (forall x, body st x = Return st) -> forEach body l st = Return st.
Proof.
  intros Hbody. induction l as [|x rest IH]; cbn; [reflexivity|].
  rewrite Hbody. exact IH.
Qed.

(** Without signals the simulation loop does nothing. *)
Lemma simulateAllTradesWithLogs_no_signals engine candles :
  BacktestEngine.signals engine = [] ->
  BacktestEngine.simulateAllTradesWithLogs engine candles
  = Return {| BacktestEngine.simulator := BacktestEngine.simulator engine;
              BacktestEngine.signals := [];
              BacktestEngine.trades := [] |}.
Proof.
  intros Hnone. unfold BacktestEngine.simulateAllTradesWithLogs,
    BacktestEngine.groupSignalsByDay. cbn. rewrite Hnone. cbn.
  apply forEach_unchanged. intros day. rewrite lookup_empty. reflexivity.
Qed.

(** C8, as the code has it. For bars that are all of one calendar date,
    and so for no bars at all, the core raises no error: no entry of the
    level mapping has previous-day levels (the mapping of an empty input
    is empty), no signal is produced, and the run returns with no trade
    and the simulator as it was. *)
Theorem single_day_runs_without_error engine candles symbol day :
  (forall c, c ∈ candles -> DateUtils.getDateOnly (openTime c) = day) ->
  (forall date levels,
      calculateDailyLevels candles !! date = Some levels ->
      DayLevels.previousHigh levels = None /\ DayLevels.previousLow levels = None)
  /\ (candles = [] -> calculateDailyLevels candles = ∅)
  /\ processCandles candles = []
  /\ exists engine' data,
      BacktestEngine.runBacktest engine candles symbol = Return (engine', data)
      /\ BacktestEngine.simulator engine' = BacktestEngine.simulator engine
      /\ BacktestData.signals data = []
      /\ BacktestData.trades data = []
      /\ BacktestData.dailyResults data
         = TradeSimulator.dailyResults (BacktestEngine.simulator engine).
Proof.
  intros Hday. split; [|split; [|split]].
  - intros date levels. apply calculateDailyLevels_single_day with (day := day). exact Hday.
  - intros ->. reflexivity.
  - apply processCandles_single_day with (day := day). exact Hday.
  - unfold BacktestEngine.runBacktest.
    rewrite (processCandles_single_day candles day Hday).
    rewrite simulateAllTradesWithLogs_no_signals by reflexivity.
    cbn. eexists _, _. repeat split; reflexivity.
Qed.
End InsufficientData.

Section InsufficientDataExamples.
Import BreakoutStrategy.

Lemma single_day_runs_without_error_witness :
  processCandles
    [Samples.bar Samples.day1 98 99 97 98;
     Samples.bar (Samples.day1 + Samples.hour) 98 120 90 110] = []
  /\ exists engine' data,
      BacktestEngine.runBacktest (BacktestEngine.new 100 5 4 10 20)
        [Samples.bar Samples.day1 98 99 97 98;
         Samples.bar (Samples.day1 + Samples.hour) 98 120 90 110] "BTCUSDT"
      = Return (engine', data)
      /\ BacktestData.trades data = [].
Proof.
  destruct (single_day_runs_without_error (BacktestEngine.new 100 5 4 10 20)
              [Samples.bar Samples.day1 98 99 97 98;
               Samples.bar (Samples.day1 + Samples.hour) 98 120 90 110]
              "BTCUSDT" "2025-08-25")
    as (_ & _ & Hnone & engine' & data & Hrun & _ & _ & Htrades & _).
  - intros c Hc.
    repeat (apply elem_of_cons in Hc; destruct Hc as [-> | Hc]; [vm_compute; reflexivity|]).
    inversion Hc.
  - split; [exact Hnone|]. exists engine', data. split; assumption.
Defined.

(** C8, as the claim words it, fails: the run over no bars returns, and
    throws nothing. *)
Lemma insufficient_data_counterexample :
  ~ (forall engine candles symbol,
        (forall c c', c ∈ candles -> c' ∈ candles ->
                      DateUtils.getDateOnly (openTime c) = DateUtils.getDateOnly (openTime c')) ->
        exists error, BacktestEngine.runBacktest engine candles symbol = Throw error).
Proof.
  intros Hclaim.
  destruct (Hclaim (BacktestEngine.new 100 5 4 10 20) [] "BTCUSDT"%string)
    as (error & Herror).
  - intros c c' Hc. inversion Hc.
  - vm_compute in Herror. discriminate Herror.
Qed.
End InsufficientDataExamples.

(** ** The summary *)
Section Summary.
Local Open Scope Q_scope.

(** C9 on the code. Neither the statistics of [getTradingStats] nor the
    summary [formatSummary] makes of them has a [profitFactor] field,
    for any simulator; the summary has the eleven other fields.  On the
    run [Samples.winLossRun], with a winning trade of 20 and a losing
    one of -12, the profit factor of the specification is 5/3 and the
    summary has none. *)
Theorem summary_lacks_profitFactor :
  (forall this : TradeSimulator.t,
      prop (TradeSimulator.getTradingStats this) "profitFactor" = None
      /\ prop (DataFormatter.formatSummary (TradeSimulator.getTradingStats this))
           "profitFactor" = None
      /\ (DataFormatter.formatSummary (TradeSimulator.getTradingStats this)).*1
         = [ "totalTrades"; "winningTrades"; "losingTrades"; "winRate";
             "totalReturn"; "totalReturnPercent"; "finalBalance"; "avgWin";
             "avgLoss"; "maxDrawdown"; "maxDrawdownPercent" ]%string)
  /\ exists engine' data,
      BacktestEngine.runBacktest (BacktestEngine.new 100 5 4 10 20)
        Samples.winLossRun "BTCUSDT" = Return (engine', data)
      /\ Forall2 Qeq (Trade.resultUSD <$> BacktestData.trades data) [20; -12]
      /\ (exists factor,
             Spec.profitFactor (BacktestData.trades data) = Some factor
             /\ factor == 5 # 3)
      /\ prop (DataFormatter.formatSummary (BacktestData.tradingStats data))
           "profitFactor" = None.
Proof.
  split.
  - intros this. repeat split; reflexivity.
  - eexists _, _. split; [vm_compute; reflexivity|]. split; [|split].
    + repeat constructor.
    + eexists. split; [vm_compute; reflexivity | reflexivity].
    + reflexivity.
Qed.
End Summary.

(** ** A signal on the last bar *)
Section LastBar.
Import BreakoutStrategy TradeSimulator.
Context `{Moment}.

Lemma forEach_throws {A S : Type} (body : S -> A -> Completion S) (l : list A) (x : A) :
  x ∈ l -> (forall st, exists error, body st x = Throw error) ->
  forall st, exists error, forEach body l st = Throw error.
Proof.
  intros Hin Hthrows. induction l as [|y rest IH]; intros st; [inversion Hin|].
  cbn. destruct (body st y) as [st'|error] eqn:E; cbn; [|eauto].
  apply elem_of_cons in Hin. destruct Hin as [-> | Hin].
  - destruct (Hthrows st) as [error Herror]. congruence.
  - apply IH. exact Hin.
Qed.

Lemma groupSignalsByDay_elem engine signal :
  signal ∈ BacktestEngine.signals engine ->
  signal ∈ default [] (BacktestEngine.groupSignalsByDay engine !! Signal.date signal).
Proof.
  unfold BacktestEngine.groupSignalsByDay.
  cut (forall acc : gmap string (list Signal.t),
          signal ∈ BacktestEngine.signals engine
          \/ signal ∈ default [] (acc !! Signal.date signal) ->
          signal ∈ default []
            (fold_left
               (fun signalsByDay s =>
                  <[Signal.date s := default [] (signalsByDay !! Signal.date s) ++ [s]]>
                    signalsByDay)
               (BacktestEngine.signals engine) acc !! Signal.date signal)).
  { intros Hgen Hin. apply Hgen. left. exact Hin. }
  induction (BacktestEngine.signals engine) as [|s rest IH]; intros acc; cbn.
  - intros [Hin | Hin]; [inversion Hin | exact Hin].
  - intros Hin. apply IH.
    destruct Hin as [Hin | Hin]; [apply elem_of_cons in Hin; destruct Hin as [-> | Hin]|].
    + right. rewrite lookup_insert_eq. cbn. apply elem_of_app. right. left.
    + left. exact Hin.
    + right. destruct (decide (Signal.date s = Signal.date signal)) as [E|NE].
      * rewrite E, lookup_insert_eq. cbn. apply elem_of_app. left. exact Hin.
      * rewrite lookup_insert_ne by exact NE. exact Hin.
Qed.

Lemma getAllDays_elem candles c :
  c ∈ candles -> DateUtils.getDateOnly (openTime c) ∈ BacktestEngine.getAllDays candles.
Proof.
  intros Hc. unfold BacktestEngine.getAllDays.
  rewrite merge_sort_Permutation, elem_of_elements.
  cut (forall acc : gset string,
          DateUtils.getDateOnly (openTime c) ∈ acc \/ c ∈ candles ->
          DateUtils.getDateOnly (openTime c)
          ∈ fold_left (fun days candle => days ∪ {[DateUtils.getDateOnly (openTime candle)]})
              candles acc).
  { intros Hgen. apply Hgen. right. exact Hc. }
  clear Hc. induction candles as [|c' rest IH]; intros acc; cbn.
  - intros [Hin | Hin]; [exact Hin | inversion Hin].
  - intros Hin. apply IH.
    destruct Hin as [Hin | Hin]; [left; set_solver|].
    apply elem_of_cons in Hin. destruct Hin as [-> | Hin]; [left; set_solver | right; exact Hin].
Qed.

(** In a series in strictly increasing time order the last bar's time
    is the time of no earlier bar. *)
Lemma last_bar_time_unique pre c :
  StronglySorted Z.lt (openTime <$> (pre ++ [c])) ->
  Forall (fun c' => openTime c' <> openTime c) pre.
Proof.
  rewrite fmap_app. intros Hsorted. apply Forall_forall. intros c' Hc' Heq.
  assert (openTime c' < openTime c)%Z as Hlt.
  { eapply (StronglySorted_app_1_elem_of Z.lt); [exact Hsorted | |].
    - apply list_elem_of_fmap. exists c'. split; [reflexivity | exact Hc'].
    - cbn. left. }
  lia.
Qed.

(** The run throws when a signal sits on the last bar. *)
Lemma runBacktest_last_bar engine candles symbol signal :
  signal ∈ processCandles candles ->
  last candles = Some (Signal.candle signal) ->
  StronglySorted Z.lt (openTime <$> candles) ->
  exists error, BacktestEngine.runBacktest engine candles symbol = Throw error.
Proof.
  intros Hsig Hlast Hsorted.
  apply last_Some in Hlast. destruct Hlast as [pre ->].
  pose proof (remainingCandles_last pre signal (last_bar_time_unique _ _ Hsorted)) as Hrem.
  assert (Hdate : Signal.date signal
                  = DateUtils.getDateOnly (openTime (Signal.candle signal))).
  { apply processCandles_signal in Hsig. destruct Hsig as (c & _ & Hs).
    apply shouldOpenTrade_Some in Hs.
    destruct Hs as (_ & _ & _ & _ & _ & _ & _ & -> & -> & _). reflexivity. }
  unfold BacktestEngine.runBacktest.
  set (engine0 := {| BacktestEngine.simulator := BacktestEngine.simulator engine;
                     BacktestEngine.signals := processCandles (pre ++ [Signal.candle signal]);
                     BacktestEngine.trades := BacktestEngine.trades engine |}).
  cut (exists error,
          BacktestEngine.simulateAllTradesWithLogs engine0 (pre ++ [Signal.candle signal])
          = Throw error).
  { intros [error ->]. exists error. reflexivity. }
  unfold BacktestEngine.simulateAllTradesWithLogs.
  apply forEach_throws with (x := Signal.date signal).
  - rewrite Hdate. apply getAllDays_elem. apply elem_of_app. right. left.
  - intros st.
    pose proof (groupSignalsByDay_elem
                  {| BacktestEngine.simulator := BacktestEngine.simulator engine0;
                     BacktestEngine.signals := BacktestEngine.signals engine0;
                     BacktestEngine.trades := [] |} signal Hsig) as Hin.
    cbv zeta.
    destruct (default [] _) as [|s0 daySignals] eqn:Hday; [inversion Hin|].
    cbn [length Nat.ltb Nat.leb].
    rewrite <- Hday in Hin |- *. clear Hday.
    apply forEach_throws with (x := signal); [exact Hin|].
    intros st'. rewrite Hrem. eexists. reflexivity.
Qed.

(** C10. With no bar after the entry bar the simulation closes no
    trade: the fallback reads [close] of the last element of an empty
    array and throws, in [simulateTrade], in [simulateTradeSilent] and so
    in the engine's [showSignalAndTrade].  This is what happens to a
    signal whose candle is the last bar of the input: the engine's slice
    for it is empty, and the whole run throws.  With at least one bar
    after the entry bar the simulation returns a trade with an exit
    price and an exit reason. *)
Theorem entry_on_last_bar_throws :
  (forall this signal,
      exists error,
        simulateTradeSilent this signal [] = Throw error
        /\ simulateTrade this signal [] = Throw error)
  /\ (forall engine signal,
         exists error, BacktestEngine.showSignalAndTrade engine signal [] = Throw error)
  /\ (forall pre signal,
         Forall (fun c => openTime c <> openTime (Signal.candle signal)) pre ->
         BacktestEngine.remainingCandles (pre ++ [Signal.candle signal]) signal = Some [])
  /\ (forall engine candles symbol signal,
         signal ∈ processCandles candles ->
         last candles = Some (Signal.candle signal) ->
         StronglySorted Z.lt (openTime <$> candles) ->
         exists error, BacktestEngine.runBacktest engine candles symbol = Throw error)
  /\ (forall this signal remainingCandles,
         remainingCandles <> [] ->
         exists trade this',
           simulateTradeSilent this signal remainingCandles = Return (trade, this')
           /\ is_Some (Trade.exitPrice trade)
           /\ is_Some (Trade.exitReason trade)).
Proof.
  split; [|split; [|split; [|split]]].
  - intros this signal. eexists. split; reflexivity.
  - intros engine signal. eexists. reflexivity.
  - apply remainingCandles_last.
  - apply runBacktest_last_bar.
  - intros this signal rem Hne.
    destruct (simulateTradeSilent_returns this signal rem Hne) as (trade & this' & E).
    exists trade, this'. split; [exact E|].
    apply simulateTradeSilent_closed in E.
    destruct E as (_ & base & price & c & why & -> & _).
    split; eexists; reflexivity.
Qed.
End LastBar.

Section LastBarExamples.
Import BreakoutStrategy TradeSimulator.

Lemma entry_on_last_bar_throws_witness :
  (exists error,
      BacktestEngine.runBacktest (BacktestEngine.new 100 5 4 10 20)
        (take 2 Samples.takeProfitRun) "BTCUSDT" = Throw error)
  /\ exists trade this',
      simulateTradeSilent Samples.simulator Samples.longAt100 [Samples.quietBar]
      = Return (trade, this')
      /\ is_Some (Trade.exitPrice trade).
Proof.
  destruct entry_on_last_bar_throws as (_ & _ & _ & Hrun & Hret). split.
  - apply (Hrun (BacktestEngine.new 100 5 4 10 20) (take 2 Samples.takeProfitRun)
             "BTCUSDT"%string Samples.longAt100).
    + assert (processCandles (take 2 Samples.takeProfitRun) = [Samples.longAt100]) as ->
        by (vm_compute; reflexivity).
      apply list_elem_of_singleton. reflexivity.
    + reflexivity.
    + repeat (constructor; try reflexivity).
  - destruct (Hret Samples.simulator Samples.longAt100 [Samples.quietBar])
      as (trade & this' & E & Hp & _); [discriminate|].
    exists trade, this'. split; assumption.
Defined.
End LastBarExamples.

(** * Further properties *)

(** ** Rounding to decimals *)
Section Rounding.
Local Open Scope Q_scope.

(** X1. [MathUtils.round] in binary64, for the decimals from 0 to 22,
    whose power of ten is a number: the number is multiplied by the
    power, the product is taken to the nearest integer, ties upwards,
    and the integer is divided by the power, the product and the
    quotient being rounded to binary64; so much for a product within
    the largest double.  Rounding keeps the order and the sign and
    respects numeric equality.  It does not always give the decimal
    nearest to the number: the number nearest to 1.005 is rounded to
    1, its product with 100 being the number nearest to
    100.49999999999999, and the number nearest to 0.015, which is
    below 0.015, is rounded to 0.02, its product with 100 being 1.5. *)
Theorem round_in_binary64 (x : Q) (decimals : Z) :
  (0 <= decimals <= 22)%Z ->
  let scale := MathUtils.Math_pow10 decimals in
  scale == Qpower 10 decimals
  /\ (Binary64.finite (x ⊗ scale) ->
      exists n : Z,
        MathUtils.round x decimals = inject_Z n ⊘ scale
        /\ inject_Z n - (1 # 2) <= x ⊗ scale
        /\ x ⊗ scale < inject_Z n + (1 # 2))
  /\ (forall y, x <= y -> MathUtils.round x decimals <= MathUtils.round y decimals)
  /\ (forall y, x == y -> MathUtils.round x decimals = MathUtils.round y decimals)
  /\ (0 <= x -> 0 <= MathUtils.round x decimals)
  /\ (x <= 0 -> MathUtils.round x decimals <= 0)
  /\ MathUtils.round (Binary64.fl (1005 # 1000)) 2 == 1
  /\ (Binary64.fl (15 # 1000) < 15 # 1000
      /\ MathUtils.round (Binary64.fl (15 # 1000)) 2 == Binary64.fl (2 # 100)).
Proof.
  intros Hd. cbv zeta. split; [|split; [|split; [|split; [|split; [|split; [|split]]]]]].
  - assert (Hcases : Forall (fun d => MathUtils.Math_pow10 d == Qpower 10 d)
                       (Z.of_nat <$> seq 0 23)).
    { repeat (constructor; [vm_compute; reflexivity|]). constructor. }
    rewrite Forall_forall in Hcases. apply Hcases.
    apply list_elem_of_fmap. exists (Z.to_nat decimals).
    split; [lia|]. apply elem_of_seq. lia.
  - intros _. exists (MathUtils.Math_round (x ⊗ MathUtils.Math_pow10 decimals)).
    split; [reflexivity|]. apply Math_round_nearest.
  - intros y. apply round_monotone.
  - intros y. apply round_compat.
  - apply round_nonneg.
  - apply round_nonpos.
  - vm_compute. reflexivity.
  - split; vm_compute; reflexivity.
Qed.
End Rounding.

Section RoundingExamples.
Local Open Scope Q_scope.

(** 1.234 and 1.236 are rounded to 1.23 and 1.24. *)
Lemma round_in_binary64_witness :
  MathUtils.round (Binary64.fl (1234 # 1000)) 2
  <= MathUtils.round (Binary64.fl (1236 # 1000)) 2
  /\ MathUtils.round (Binary64.fl (1234 # 1000)) 2 == Binary64.fl (123 # 100)
  /\ MathUtils.round (Binary64.fl (1236 # 1000)) 2 == Binary64.fl (124 # 100).
Proof.
  split.
  - refine (proj1 (proj2 (proj2 (round_in_binary64 (Binary64.fl (1234 # 1000)) 2 _)))
              (Binary64.fl (1236 # 1000)) _).
    + lia.
    + vm_compute. discriminate.
  - split; vm_compute; reflexivity.
Defined.
End RoundingExamples.

(** ** Maximum and minimum *)
Section MaxMin.
Local Open Scope Q_scope.

Lemma Qmax_cases (x y : Q) : (Qmax x y = x \/ Qmax x y = y) /\ x <= Qmax x y /\ y <= Qmax x y.
Proof.
  split; [|split; [apply Q.le_max_l | apply Q.le_max_r]].
  unfold Qmax, GenericMinMax.gmax. destruct (x ?= y); auto.
Qed.

Lemma Qmin_cases (x y : Q) : (Qmin x y = x \/ Qmin x y = y) /\ Qmin x y <= x /\ Qmin x y <= y.
Proof.
  split; [|split; [apply Q.le_min_l | apply Q.le_min_r]].
  unfold Qmin, GenericMinMax.gmin. destruct (x ?= y); auto.
Qed.

Lemma fold_Qmax_bounds (l : list Q) (x : Q) :
  let m := fold_left Qmax l x in
  (m = x \/ m ∈ l) /\ x <= m /\ (forall y, y ∈ l -> y <= m).
Proof.
  revert x. induction l as [|z l IH]; intros x; cbn.
  - split; [left; reflexivity|]. split; [apply Qle_refl|]. intros y Hy. inversion Hy.
  - destruct (IH (Qmax x z)) as (Hin & Hge & Hall).
    destruct (Qmax_cases x z) as (Hcase & Hx & Hz).
    split; [|split].
    + destruct Hin as [-> | Hin]; [|right; right; exact Hin].
      destruct Hcase as [-> | ->]; [left; reflexivity | right; left].
    + eapply Qle_trans; eassumption.
    + intros y Hy. apply elem_of_cons in Hy. destruct Hy as [-> | Hy].
      * eapply Qle_trans; eassumption.
      * apply Hall. exact Hy.
Qed.

Lemma fold_Qmin_bounds (l : list Q) (x : Q) :
  let m := fold_left Qmin l x in
  (m = x \/ m ∈ l) /\ m <= x /\ (forall y, y ∈ l -> m <= y).
Proof.
  revert x. induction l as [|z l IH]; intros x; cbn.
  - split; [left; reflexivity|]. split; [apply Qle_refl|]. intros y Hy. inversion Hy.
  - destruct (IH (Qmin x z)) as (Hin & Hge & Hall).
    destruct (Qmin_cases x z) as (Hcase & Hx & Hz).
    split; [|split].
    + destruct Hin as [-> | Hin]; [|right; right; exact Hin].
      destruct Hcase as [-> | ->]; [left; reflexivity | right; left].
    + eapply Qle_trans; eassumption.
    + intros y Hy. apply elem_of_cons in Hy. destruct Hy as [-> | Hy].
      * eapply Qle_trans; eassumption.
      * apply Hall. exact Hy.
Qed.

(** X2. [MathUtils.max] of a non-empty list is one of its numbers and no
    number of the list is above it; [MathUtils.min] is one of its
    numbers and none is below it; both have no number to give exactly
    for the empty list. *)
Theorem max_min_bounds (numbers : list Q) :
  (MathUtils.max numbers = None <-> numbers = [])
  /\ (MathUtils.min numbers = None <-> numbers = [])
  /\ (forall m, MathUtils.max numbers = Some m ->
                m ∈ numbers /\ forall x, x ∈ numbers -> x <= m)
  /\ (forall m, MathUtils.min numbers = Some m ->
                m ∈ numbers /\ forall x, x ∈ numbers -> m <= x).
Proof.
  destruct numbers as [|x rest]; cbn.
  - repeat split; try discriminate; reflexivity.
  - split; [split; discriminate|]. split; [split; discriminate|]. split.
    + intros m [= <-]. destruct (fold_Qmax_bounds rest x) as (Hin & Hge & Hall).
      split.
      * destruct Hin as [-> | Hin]; [left | right; exact Hin].
      * intros y Hy. apply elem_of_cons in Hy. destruct Hy as [-> | Hy]; auto.
    + intros m [= <-]. destruct (fold_Qmin_bounds rest x) as (Hin & Hge & Hall).
      split.
      * destruct Hin as [-> | Hin]; [left | right; exact Hin].
      * intros y Hy. apply elem_of_cons in Hy. destruct Hy as [-> | Hy]; auto.
Qed.

Lemma max_min_bounds_witness :
  MathUtils.max [99; 1045 # 10; 100] = Some (1045 # 10)
  /\ (1045 # 10) ∈ [99; 1045 # 10; 100]
  /\ 100 <= 1045 # 10.
Proof.
  destruct (max_min_bounds [99; 1045 # 10; 100]) as (_ & _ & Hmax & _).
  destruct (Hmax (1045 # 10) eq_refl) as [Hin Hall].
  split; [reflexivity|]. split; [exact Hin|].
  apply Hall. right. right. left.
Defined.
End MaxMin.

(** ** The sign of a result *)
Section PriceMove.
Local Open Scope Q_scope.

Lemma stop_take_percent_signs (entryPrice leverage percent : Q) (direction : string) :
  Binary64.double entryPrice -> 0 < entryPrice -> 0 < leverage -> 0 <= percent ->
  MathUtils.calculateTradeResultPercent entryPrice
    (MathUtils.calculateStopLoss entryPrice direction leverage percent) direction <= 0
  /\ 0 <= MathUtils.calculateTradeResultPercent entryPrice
            (MathUtils.calculateTakeProfit entryPrice direction leverage percent) direction.
Proof.
  intros Hd He Hl Hp.
  pose proof (stop_take_sides entryPrice leverage percent percent direction Hd
                (Qlt_le_weak _ _ He) Hl Hp Hp) as Hsides.
  cbv zeta in Hsides. unfold MathUtils.calculateTradeResultPercent.
  destruct (String.eqb direction "LONG"); destruct Hsides as [H1 H2]; split.
  - apply mul_nonpos; [|discriminate]. apply div_nonpos; [|exact He].
    apply sub_nonpos. exact H1.
  - apply mul_nonneg; [|discriminate]. apply div_nonneg; [|exact He].
    apply sub_nonneg. exact H2.
  - apply mul_nonpos; [|discriminate]. apply div_nonpos; [|exact He].
    apply sub_nonpos. exact H2.
  - apply mul_nonneg; [|discriminate]. apply div_nonneg; [|exact He].
    apply sub_nonneg. exact H1.
Qed.

(** X4. A stop-loss never gains and a take-profit never loses.  For a
    positive entry price and leverage and percentages that are not
    negative, the price move percent of an exit at the stop-loss price
    is at most zero and that of an exit at the take-profit price is at
    least zero, in either direction; so a simulated trade that ends
    with SL, from a positive balance, has a [resultUSD] and a
    [resultPercent] of at most zero, and one that ends with TP of at
    least zero.  (In binary64 the magnitude need not be the configured
    percentage of the balance to the cent.) *)
Theorem stop_loses_take_gains :
  (forall entryPrice direction leverage percent,
      Binary64.double entryPrice -> 0 < entryPrice -> 0 < leverage -> 0 <= percent ->
      MathUtils.calculateTradeResultPercent entryPrice
        (MathUtils.calculateStopLoss entryPrice direction leverage percent) direction <= 0
      /\ 0 <= MathUtils.calculateTradeResultPercent entryPrice
                (MathUtils.calculateTakeProfit entryPrice direction leverage percent)
                direction)
  /\ (forall this signal remainingCandles trade this',
         TradeSimulator.simulateTradeSilent this signal remainingCandles
         = Return (trade, this') ->
         Binary64.double (Signal.entryPrice signal) ->
         0 < Signal.entryPrice signal -> 0 < TradeSimulator.leverage this ->
         0 <= TradeSimulator.stopLossPercent this ->
         0 <= TradeSimulator.takeProfitPercent this ->
         0 < TradeSimulator.currentBalance this ->
         (Trade.exitReason trade = Some "SL"%string ->
          Trade.resultUSD trade <= 0 /\ Trade.resultPercent trade <= 0)
         /\ (Trade.exitReason trade = Some "TP"%string ->
             0 <= Trade.resultUSD trade /\ 0 <= Trade.resultPercent trade)).
Proof.
  split.
  { intros e dir lev pct. apply stop_take_percent_signs. }
  intros this signal rem trade this' E Hd He Hl Hslp Htpp Hbal.
  apply Qlt_le_weak in Hbal.
  destruct (stop_take_percent_signs (Signal.entryPrice signal) (TradeSimulator.leverage this)
              (TradeSimulator.stopLossPercent this) (Signal.direction signal) Hd He Hl Hslp)
    as [Hsl _].
  destruct (stop_take_percent_signs (Signal.entryPrice signal) (TradeSimulator.leverage this)
              (TradeSimulator.takeProfitPercent this) (Signal.direction signal) Hd He Hl Htpp)
    as [_ Htp].
  apply simulateTradeSilent_inv in E.
  destruct E as [(pre & c & post & ec & _ & _ & Hc & _ & ->) | (base & lc & _ & ->)].
  - apply checkExitConditions_price in Hc.
    destruct Hc as [-> | [-> | ->]];
      cbn [TradeSimulator.closeTrade Trade.setResult Trade.close Trade.exitReason
           Trade.resultUSD Trade.resultPercent ExitChecks.TIME ExitChecks.SL ExitChecks.TP
           ExitCondition.price ExitCondition.reason];
      (split; [intros Hwhy | intros Hwhy]); try discriminate Hwhy.
    + unfold TradeSimulator.calculateTradeResult.
      cbn [Trade.exitPrice Trade.close Trade.entryPrice Trade.direction
           TradeSimulator.openTrade default fst snd Trade.stopLoss].
      unfold TradeSimulator.calculateStopLoss.
      split; apply round_nonpos.
      * apply mul_nonpos; [|apply Qlt_le_weak, Hl].
        apply mul_nonpos; [|exact Hbal]. apply div_nonpos; [exact Hsl | reflexivity].
      * apply mul_nonpos; [exact Hsl | apply Qlt_le_weak, Hl].
    + unfold TradeSimulator.calculateTradeResult.
      cbn [Trade.exitPrice Trade.close Trade.entryPrice Trade.direction
           TradeSimulator.openTrade default fst snd Trade.takeProfit].
      unfold TradeSimulator.calculateTakeProfit.
      split; apply round_nonneg.
      * apply mul_nonneg; [|apply Qlt_le_weak, Hl].
        apply mul_nonneg; [|exact Hbal]. apply div_nonneg; [exact Htp | reflexivity].
      * apply mul_nonneg; [exact Htp | apply Qlt_le_weak, Hl].
  - cbn [TradeSimulator.closeTrade Trade.setResult Trade.close Trade.exitReason].
    split; discriminate.
Qed.

(** The stopped trade of [tieSimulator] loses 5.03 and ten percent. *)
Lemma stop_loses_take_gains_witness :
  exists trade this',
    TradeSimulator.simulateTradeSilent Samples.tieSimulator Samples.longAt100
      [Samples.stopBar] = Return (trade, this')
    /\ Trade.exitReason trade = Some "SL"%string
    /\ Trade.resultUSD trade <= 0 /\ Trade.resultPercent trade <= 0.
Proof.
  destruct (TradeSimulator.simulateTradeSilent Samples.tieSimulator Samples.longAt100
              [Samples.stopBar]) as [[trade this']|e] eqn:E;
    [|vm_compute in E; discriminate E].
  exists trade, this'. split; [reflexivity|].
  assert (Hwhy : Trade.exitReason trade = Some "SL"%string).
  { pose proof E as E'. vm_compute in E'. injection E' as <- _. reflexivity. }
  split; [exact Hwhy|].
  refine (proj1 (proj2 stop_loses_take_gains _ _ _ _ _ E _ _ _ _ _ _) Hwhy);
    vm_compute; first [reflexivity | discriminate].
Defined.
End PriceMove.

(** ** Grouping by date *)
Section Grouping.
Context `{Moment}.

(** The fold that groups candles, and signals, by a string key. *)
Lemma group_fold {A : Type} (key : A -> string) (l : list A)
    (acc : gmap string (list A)) (d : string) :
  default [] (fold_left (fun m x => <[key x := default [] (m !! key x) ++ [x]]> m) l acc !! d)
  = default [] (acc !! d) ++ filter (fun x => key x = d) l.
Proof.
  revert acc. induction l as [|x l IH]; intros acc; cbn [fold_left].
  - rewrite filter_nil, app_nil_r. reflexivity.
  - rewrite IH. destruct (decide (key x = d)) as [E|NE].
    + rewrite filter_cons_True by exact E.
      rewrite E, lookup_insert_eq. cbn. rewrite <- app_assoc. reflexivity.
    + rewrite filter_cons_False by exact NE.
      rewrite lookup_insert_ne by exact NE. reflexivity.
Qed.

Lemma groupCandlesByDay_filter (candles : list Candle) (date : string) :
  default [] (DateUtils.groupCandlesByDay candles !! date)
  = filter (fun c => DateUtils.getDateOnly (openTime c) = date) candles.
Proof.
  unfold DateUtils.groupCandlesByDay.
  rewrite (group_fold (fun c => DateUtils.getDateOnly (openTime c)) candles ∅ date).
  rewrite lookup_empty. reflexivity.
Qed.

(** X5. [groupCandlesByDay] gives each date that occurs the candles of
    that date, all of them and in their order in the input, and gives
    no entry, rather than an empty group, to a date that does not
    occur. *)
Theorem groups_are_the_days (candles : list Candle) (date : string) :
  match DateUtils.groupCandlesByDay candles !! date with
  | Some group =>
      group <> []
      /\ group = filter (fun c => DateUtils.getDateOnly (openTime c) = date) candles
  | None => filter (fun c => DateUtils.getDateOnly (openTime c) = date) candles = []
  end.
Proof.
  pose proof (groupCandlesByDay_filter candles date) as Hf.
  pose proof (groupCandlesByDay_is_Some candles date) as Hs.
  destruct (DateUtils.groupCandlesByDay candles !! date) as [group|]; cbn in Hf.
  - split; [|exact Hf].
    destruct Hs as [Hs _]. destruct Hs as (c & Hc & Hd); [eauto|].
    intros ->. symmetry in Hf.
    assert (c ∈ filter (fun c => DateUtils.getDateOnly (openTime c) = date) candles) as Hin
      by (apply list_elem_of_filter; split; assumption).
    rewrite Hf in Hin. inversion Hin.
  - symmetry. exact Hf.
Qed.
End Grouping.

(** ** The levels of each day *)
Section LevelsOfDays.
Local Open Scope Q_scope.
Import BreakoutStrategy.
Context `{Moment}.

(** The entry the loop writes for a date: its own high, low and candles,
    and the high and low of the date just before it in the walk. *)
Lemma levelsLoop_entry dailyCandles previousDate pre date post dailyLevels :
  NoDup (pre ++ date :: post) ->
  let before := match last pre with Some d => Some d | None => previousDate end in
  exists levels,
    levelsLoop dailyCandles previousDate (pre ++ date :: post) dailyLevels !! date
    = Some levels
    /\ DayLevels.candles levels = default [] (dailyCandles !! date)
    /\ DayLevels.currentHigh levels
       = MathUtils.max (map high (default [] (dailyCandles !! date)))
    /\ DayLevels.currentLow levels
       = MathUtils.min (map low (default [] (dailyCandles !! date)))
    /\ DayLevels.previousHigh levels
       = match before with
         | Some d => MathUtils.max (map high (default [] (dailyCandles !! d)))
         | None => None
         end
    /\ DayLevels.previousLow levels
       = match before with
         | Some d => MathUtils.min (map low (default [] (dailyCandles !! d)))
         | None => None
         end.
Proof.
  revert previousDate dailyLevels.
  induction pre as [|p pre IH]; intros previousDate dailyLevels Hnd; cbn [app] in *.
  - apply NoDup_cons in Hnd. destruct Hnd as [Hnotin _]. cbn.
    rewrite levelsLoop_other by exact Hnotin. rewrite lookup_insert_eq.
    eexists. split; [reflexivity|]. cbn. destruct previousDate; repeat split; reflexivity.
  - apply NoDup_cons in Hnd. destruct Hnd as [_ Hnd]. cbn [levelsLoop].
    edestruct (IH (Some p)) as (levels & Hl & Hrest); [exact Hnd|].
    exists levels. split; [exact Hl|].
    rewrite last_cons. destruct (last pre); exact Hrest.
Qed.

(** X6. The daily levels have an entry exactly for the dates of the
    candles; the entry of a date holds the candles of that date, a
    current high no high of the day is above and a current low no low of
    the day is below; and in the sorted order of the dates the previous
    high and low of a date are the current high and low of the date
    just before it. *)
Theorem levels_of_each_day (candles : list Candle) :
  let dailyLevels := calculateDailyLevels candles in
  (forall date,
      is_Some (dailyLevels !! date)
      <-> exists c, c ∈ candles /\ DateUtils.getDateOnly (openTime c) = date)
  /\ (forall c, c ∈ candles ->
        exists levels hi lo,
          dailyLevels !! DateUtils.getDateOnly (openTime c) = Some levels
          /\ DayLevels.candles levels
             = filter (fun c' => DateUtils.getDateOnly (openTime c')
                                 = DateUtils.getDateOnly (openTime c)) candles
          /\ DayLevels.currentHigh levels = Some hi
          /\ DayLevels.currentLow levels = Some lo
          /\ high c <= hi /\ lo <= low c)
  /\ (forall pre earlier later post,
         sortedKeys (DateUtils.groupCandlesByDay candles)
         = pre ++ earlier :: later :: post ->
         exists levels1 levels2,
           dailyLevels !! earlier = Some levels1
           /\ dailyLevels !! later = Some levels2
           /\ DayLevels.previousHigh levels2 = DayLevels.currentHigh levels1
           /\ DayLevels.previousLow levels2 = DayLevels.currentLow levels1).
Proof.
  cbv zeta. unfold calculateDailyLevels.
  pose proof (sortedKeys_NoDup (DateUtils.groupCandlesByDay candles)) as Hnd.
  assert (Hkey : forall date,
             date ∈ sortedKeys (DateUtils.groupCandlesByDay candles) ->
             exists levels,
               levelsLoop (DateUtils.groupCandlesByDay candles) None
                 (sortedKeys (DateUtils.groupCandlesByDay candles)) ∅ !! date = Some levels
               /\ DayLevels.candles levels
                  = default [] (DateUtils.groupCandlesByDay candles !! date)
               /\ DayLevels.currentHigh levels
                  = MathUtils.max
                      (map high (default [] (DateUtils.groupCandlesByDay candles !! date)))
               /\ DayLevels.currentLow levels
                  = MathUtils.min
                      (map low (default [] (DateUtils.groupCandlesByDay candles !! date)))).
  { intros date Hin. apply list_elem_of_split in Hin. destruct Hin as (pre & post & Hsplit).
    rewrite Hsplit in Hnd |- *.
    destruct (levelsLoop_entry (DateUtils.groupCandlesByDay candles) None pre date post ∅ Hnd)
      as (levels & Hl & Hc & Hh & Hlow & _).
    exists levels. repeat split; assumption. }
  split; [|split].
  - intros date. rewrite <- groupCandlesByDay_is_Some. split.
    + intros Hs. apply elem_of_sortedKeys.
      apply levelsLoop_keys in Hs. destruct Hs as [Hs | [x Hx]]; [exact Hs|].
      rewrite lookup_empty in Hx. discriminate.
    + intros Hin. apply elem_of_sortedKeys in Hin.
      destruct (Hkey date Hin) as (levels & Hl & _). eauto.
  - intros c Hc.
    assert (Hin : DateUtils.getDateOnly (openTime c)
                  ∈ sortedKeys (DateUtils.groupCandlesByDay candles)).
    { apply elem_of_sortedKeys, groupCandlesByDay_is_Some. eauto. }
    destruct (Hkey _ Hin) as (levels & Hl & Hcs & Hh & Hlow).
    rewrite groupCandlesByDay_filter in Hcs, Hh, Hlow.
    set (day := filter _ candles) in *.
    assert (Hday : c ∈ day) by (apply list_elem_of_filter; split; [reflexivity | exact Hc]).
    destruct (max_min_bounds (map high day)) as (Hnone & _ & Hmax & _).
    destruct (max_min_bounds (map low day)) as (_ & Hnone' & _ & Hmin).
    destruct (MathUtils.max (map high day)) as [hi|] eqn:Ehi.
    2: { destruct Hnone as [Hnone _]. specialize (Hnone eq_refl).
         apply map_eq_nil in Hnone. rewrite Hnone in Hday. inversion Hday. }
    destruct (MathUtils.min (map low day)) as [lo|] eqn:Elo.
    2: { destruct Hnone' as [Hnone' _]. specialize (Hnone' eq_refl).
         apply map_eq_nil in Hnone'. rewrite Hnone' in Hday. inversion Hday. }
    exists levels, hi, lo. repeat split; try assumption.
    + apply (proj2 (Hmax hi eq_refl)). apply list_elem_of_In, in_map, list_elem_of_In, Hday.
    + apply (proj2 (Hmin lo eq_refl)). apply list_elem_of_In, in_map, list_elem_of_In, Hday.
  - intros pre earlier later post Hkeys. rewrite Hkeys in Hnd |- *.
    destruct (levelsLoop_entry (DateUtils.groupCandlesByDay candles) None
                pre earlier (later :: post) ∅ Hnd) as (l1 & Hl1 & _ & Hh1 & Hlow1 & _).
    assert (Hnd' : NoDup ((pre ++ [earlier]) ++ later :: post))
      by (rewrite <- app_assoc; exact Hnd).
    destruct (levelsLoop_entry (DateUtils.groupCandlesByDay candles) None
                (pre ++ [earlier]) later post ∅ Hnd')
      as (l2 & Hl2 & _ & _ & _ & Hph & Hpl).
    rewrite <- app_assoc in Hl2. cbn [app] in Hl2.
    rewrite last_snoc in Hph, Hpl.
    exists l1, l2. repeat split; try assumption; congruence.
Qed.

End LevelsOfDays.

Section LevelsOfDaysExamples.
Import BreakoutStrategy.

Lemma levels_of_each_day_witness :
  exists levels1 levels2,
    calculateDailyLevels Samples.takeProfitRun !! "2025-08-25"%string = Some levels1
    /\ calculateDailyLevels Samples.takeProfitRun !! "2025-08-26"%string = Some levels2
    /\ DayLevels.previousHigh levels2 = DayLevels.currentHigh levels1
    /\ DayLevels.previousLow levels2 = DayLevels.currentLow levels1.
Proof.
  destruct (levels_of_each_day (H := moment_utc) Samples.takeProfitRun) as (_ & _ & Hprev).
  apply (Hprev [] "2025-08-25"%string "2025-08-26"%string []).
  vm_compute. reflexivity.
Defined.
End LevelsOfDaysExamples.

(** ** What a signal says about its bar *)
Section SignalSoundness.
Local Open Scope Q_scope.
Import BreakoutStrategy.

(** A breakout with a direction, read back: which level the bar broke
    and where its body lies. *)
Lemma detectBreakout_sound candle dailyHigh dailyLow breakout direction :
  detectBreakout candle (Some dailyHigh) (Some dailyLow) = Some breakout ->
  Breakout.direction breakout = Some direction ->
  ~ dailyHigh == 0 /\ ~ dailyLow == 0
  /\ ((Breakout.type breakout = Some "BREAKOUT_HIGH"%string
       /\ dailyHigh < high candle
       /\ ((direction = "LONG"%string
            /\ dailyHigh < open candle /\ dailyHigh < close candle)
           \/ (direction = "SHORT"%string
               /\ open candle < dailyHigh /\ close candle < dailyHigh)))
      \/ (Breakout.type breakout = Some "BREAKOUT_LOW"%string
          /\ ~ dailyHigh < high candle /\ low candle < dailyLow
          /\ ((direction = "SHORT"%string
               /\ open candle < dailyLow /\ close candle < dailyLow)
              \/ (direction = "LONG"%string
                  /\ dailyLow < open candle /\ dailyLow < close candle)))).
Proof.
  unfold detectBreakout.
  destruct (truthy (Some dailyHigh)) eqn:Th; [|discriminate].
  destruct (truthy (Some dailyLow)) eqn:Tl; [|discriminate]. cbn [negb orb].
  apply truthy_Some in Th. apply truthy_Some in Tl.
  destruct (Qltb dailyHigh (high candle)) eqn:Bh.
  - apply Qltb_lt in Bh.
    destruct (Qltb dailyHigh (open candle) && Qltb dailyHigh (close candle)) eqn:Above.
    + apply andb_true_iff in Above. destruct Above as [Ho Hc].
      apply Qltb_lt in Ho. apply Qltb_lt in Hc.
      intros [= <-] [= <-]. cbn. tauto.
    + destruct (Qltb (open candle) dailyHigh && Qltb (close candle) dailyHigh) eqn:Below.
      * apply andb_true_iff in Below. destruct Below as [Ho Hc].
        apply Qltb_lt in Ho. apply Qltb_lt in Hc.
        intros [= <-] [= <-]. cbn. tauto.
      * intros [= <-]. cbn. discriminate.
  - apply Qltb_nlt in Bh.
    destruct (Qltb (low candle) dailyLow) eqn:Bl; [|discriminate].
    apply Qltb_lt in Bl.
    destruct (Qltb (open candle) dailyLow && Qltb (close candle) dailyLow) eqn:Below.
    + apply andb_true_iff in Below. destruct Below as [Ho Hc].
      apply Qltb_lt in Ho. apply Qltb_lt in Hc.
      intros [= <-] [= <-]. cbn. tauto.
    + destruct (Qltb dailyLow (open candle) && Qltb dailyLow (close candle)) eqn:Above.
      * apply andb_true_iff in Above. destruct Above as [Ho Hc].
        apply Qltb_lt in Ho. apply Qltb_lt in Hc.
        intros [= <-] [= <-]. cbn. tauto.
      * intros [= <-]. cbn. discriminate.
Qed.

Lemma filter_length_split {A : Type} (P Q : A -> Prop)
    `{!forall x, Decision (P x)} `{!forall x, Decision (Q x)} (l : list A) :
  (forall x, x ∈ l -> (P x \/ Q x) /\ ~ (P x /\ Q x)) ->
  (length (filter P l) + length (filter Q l))%nat = length l.
Proof.
  induction l as [|x l IH]; intros Hall; [reflexivity|].
  destruct (Hall x) as [Hor Hnot]; [left|].
  assert (IH' : (length (filter P l) + length (filter Q l))%nat = length l)
    by (apply IH; intros y Hy; apply Hall; right; exact Hy).
  destruct (decide (P x)) as [HP|HP], (decide (Q x)) as [HQ|HQ]; try tauto.
  - rewrite (filter_cons_True P) by exact HP. rewrite (filter_cons_False Q) by exact HQ.
    cbn. lia.
  - rewrite (filter_cons_False P) by exact HP. rewrite (filter_cons_True Q) by exact HQ.
    cbn. lia.
Qed.

Section WithZone.
Context `{Moment}.

(** X7. Every signal of [processCandles] is justified by its bar: the
    levels it carries are the previous-day levels of its date, neither
    null nor zero; either the bar's high is above the previous high, the
    type is BREAKOUT_HIGH and the direction is LONG with the body above
    that level or SHORT with the body below it, or there is no high
    breakout, the bar's low is below the previous low, the type is
    BREAKOUT_LOW and the direction is SHORT with the body below that
    level or LONG with the body above it.  So in the statistics of the
    signals the long and the short ones add up to the total, and so do
    the high and the low breakouts. *)
Theorem signals_are_justified (candles : list Candle) :
  let signals := processCandles candles in
  (forall s, s ∈ signals ->
     exists levels previousHigh previousLow,
       calculateDailyLevels candles !! Signal.date s = Some levels
       /\ DayLevels.previousHigh levels = Some previousHigh
       /\ DayLevels.previousLow levels = Some previousLow
       /\ Signal.dailyHigh s = Some previousHigh
       /\ Signal.dailyLow s = Some previousLow
       /\ ~ previousHigh == 0 /\ ~ previousLow == 0
       /\ ((Signal.type s = Some "BREAKOUT_HIGH"%string
            /\ previousHigh < high (Signal.candle s)
            /\ ((Signal.direction s = "LONG"%string
                 /\ previousHigh < open (Signal.candle s)
                 /\ previousHigh < close (Signal.candle s))
                \/ (Signal.direction s = "SHORT"%string
                    /\ open (Signal.candle s) < previousHigh
                    /\ close (Signal.candle s) < previousHigh)))
           \/ (Signal.type s = Some "BREAKOUT_LOW"%string
               /\ ~ previousHigh < high (Signal.candle s)
               /\ low (Signal.candle s) < previousLow
               /\ ((Signal.direction s = "SHORT"%string
                    /\ open (Signal.candle s) < previousLow
                    /\ close (Signal.candle s) < previousLow)
                   \/ (Signal.direction s = "LONG"%string
                       /\ previousLow < open (Signal.candle s)
                       /\ previousLow < close (Signal.candle s))))))
  /\ (exists total long short breakoutHigh breakoutLow,
         getSignalsStats signals
         = [ ("total", total); ("long", long); ("short", short);
             ("breakoutHigh", breakoutHigh); ("breakoutLow", breakoutLow) ]%string
         /\ total = length signals
         /\ (long + short)%nat = total
         /\ (breakoutHigh + breakoutLow)%nat = total).
Proof.
  cbv zeta.
  assert (Hsound : forall s, s ∈ processCandles candles ->
     exists levels previousHigh previousLow,
       calculateDailyLevels candles !! Signal.date s = Some levels
       /\ DayLevels.previousHigh levels = Some previousHigh
       /\ DayLevels.previousLow levels = Some previousLow
       /\ Signal.dailyHigh s = Some previousHigh
       /\ Signal.dailyLow s = Some previousLow
       /\ ~ previousHigh == 0 /\ ~ previousLow == 0
       /\ ((Signal.type s = Some "BREAKOUT_HIGH"%string
            /\ previousHigh < high (Signal.candle s)
            /\ ((Signal.direction s = "LONG"%string
                 /\ previousHigh < open (Signal.candle s)
                 /\ previousHigh < close (Signal.candle s))
                \/ (Signal.direction s = "SHORT"%string
                    /\ open (Signal.candle s) < previousHigh
                    /\ close (Signal.candle s) < previousHigh)))
           \/ (Signal.type s = Some "BREAKOUT_LOW"%string
               /\ ~ previousHigh < high (Signal.candle s)
               /\ low (Signal.candle s) < previousLow
               /\ ((Signal.direction s = "SHORT"%string
                    /\ open (Signal.candle s) < previousLow
                    /\ close (Signal.candle s) < previousLow)
                   \/ (Signal.direction s = "LONG"%string
                       /\ previousLow < open (Signal.candle s)
                       /\ previousLow < close (Signal.candle s)))))).
  { intros s Hs. apply processCandles_signal in Hs. destruct Hs as (c & _ & Hs).
    unfold shouldOpenTrade in Hs. cbn [length Nat.ltb Nat.leb] in Hs.
    destruct (calculateDailyLevels candles !! DateUtils.getDateOnly (openTime c))
      as [levels|] eqn:Hl; [|discriminate].
    destruct (truthy (DayLevels.previousHigh levels)) eqn:Th; [|discriminate].
    destruct (truthy (DayLevels.previousLow levels)) eqn:Tl; [|discriminate].
    cbn [negb orb] in Hs.
    destruct (DayLevels.previousHigh levels) as [ph|] eqn:Eh; [|discriminate].
    destruct (DayLevels.previousLow levels) as [pl|] eqn:El; [|discriminate].
    destruct (detectBreakout c (Some ph) (Some pl)) as [b|] eqn:Hb; [|discriminate].
    destruct (Breakout.direction b) as [dir|] eqn:Hd; [|discriminate].
    injection Hs as <-. cbn.
    destruct (detectBreakout_sound c ph pl b dir Hb Hd) as (Hh & Hlo & Hcases).
    exists levels, ph, pl. repeat split; try assumption; reflexivity. }
  split; [exact Hsound|].
  eexists _, _, _, _, _. split; [reflexivity|]. split; [reflexivity|]. split.
  - apply filter_length_split. intros s Hs.
    destruct (Hsound s Hs) as (levels & ph & pl & _ & _ & _ & _ & _ & _ & _ & Hcases).
    split; [|intros [E1 E2]; congruence].
    destruct Hcases as [(_ & _ & [(D & _) | (D & _)]) | (_ & _ & _ & [(D & _) | (D & _)])];
      tauto.
  - apply filter_length_split. intros s Hs.
    destruct (Hsound s Hs) as (levels & ph & pl & _ & _ & _ & _ & _ & _ & _ & Hcases).
    split; [|intros [E1 E2]; congruence].
    destruct Hcases as [(T & _) | (T & _)]; tauto.
Qed.
End WithZone.
End SignalSoundness.

Section SignalSoundnessExamples.
Import BreakoutStrategy.

Lemma signals_are_justified_witness :
  exists previousHigh previousLow,
    Signal.dailyHigh Samples.longAt100 = Some previousHigh
    /\ Signal.dailyLow Samples.longAt100 = Some previousLow
    /\ ~ (previousHigh == 0)%Q /\ ~ (previousLow == 0)%Q.
Proof.
  destruct (proj1 (signals_are_justified (H := moment_utc) Samples.takeProfitRun)
              Samples.longAt100)
    as (levels & ph & pl & _ & _ & _ & Hdh & Hdl & Hh & Hl & _).
  - assert (processCandles Samples.takeProfitRun = [Samples.longAt100]) as ->
      by (vm_compute; reflexivity).
    apply list_elem_of_singleton. reflexivity.
  - exists ph, pl. repeat split; assumption.
Defined.
End SignalSoundnessExamples.

(** ** The time limit *)
Section TimeLimit.
Local Open Scope Q_scope.
Import TradeSimulator ExitChecks.

Lemma shouldCloseByTime_later entryTime time1 time2 maxHours :
  (time1 <= time2)%Z ->
  DateUtils.shouldCloseByTime entryTime time1 maxHours = true ->
  DateUtils.shouldCloseByTime entryTime time2 maxHours = true.
Proof.
  unfold DateUtils.shouldCloseByTime, DateUtils.getHoursDifference.
  intros Hle H1. apply Qleb_le in H1. apply Qleb_le.
  eapply Qle_trans; [exact H1|]. rewrite <- Zle_Qle.
  apply Z.quot_le_mono; lia.
Qed.

(** Which checks can give which reason. *)
Lemma checkExitConditions_time this candle trade exitCondition :
  checkExitConditions this candle trade = Some exitCondition ->
  (exitCondition = TIME candle
   /\ DateUtils.shouldCloseByTime (Trade.entryTime trade) (openTime candle)
        (maxHours this) = true)
  \/ ((exitCondition = SL trade \/ exitCondition = TP trade)
      /\ DateUtils.shouldCloseByTime (Trade.entryTime trade) (openTime candle)
           (maxHours this) = false).
Proof.
  rewrite checkExitConditions_cascade.
  destruct (DateUtils.shouldCloseByTime _ _ _).
  - intros [= <-]. left. split; reflexivity.
  - repeat (match goal with |- context [if ?b then _ else _] => destruct b end);
      intros [= <-]; right; split; auto.
Qed.

(** X8. The time check only looks at whole hours since the entry: on a
    bar [k] hours after the entry it holds exactly when [maxHours <= k],
    and once it holds it holds on every later bar.  So a simulated
    trade that ends with TIME lasted at least [maxHours] whole hours,
    and one that ends with SL or TP lasted fewer; in each case
    [durationHours] is the whole hours from the entry bar to the exit
    bar. *)
Theorem time_limit_of_a_trade :
  (forall entryTime k maxHours,
      DateUtils.shouldCloseByTime entryTime (entryTime + k * 3600000) maxHours = true
      <-> maxHours <= inject_Z k)
  /\ (forall entryTime time1 time2 maxHours,
         (time1 <= time2)%Z ->
         DateUtils.shouldCloseByTime entryTime time1 maxHours = true ->
         DateUtils.shouldCloseByTime entryTime time2 maxHours = true)
  /\ (forall this signal remainingCandles trade this',
         simulateTradeSilent this signal remainingCandles = Return (trade, this') ->
         (exists exitTime,
             Trade.exitTime trade = Some exitTime
             /\ Trade.durationHours trade
                = Z.quot (exitTime - openTime (Signal.candle signal)) 3600000)
         /\ (Trade.exitReason trade = Some "TIME"%string ->
             maxHours this <= inject_Z (Trade.durationHours trade))
         /\ (Trade.exitReason trade = Some "SL"%string
             \/ Trade.exitReason trade = Some "TP"%string ->
             inject_Z (Trade.durationHours trade) < maxHours this)).
Proof.
  split; [|split].
  - intros entryTime k maxHours.
    unfold DateUtils.shouldCloseByTime, DateUtils.getHoursDifference.
    replace (entryTime + k * 3600000 - entryTime)%Z with (k * 3600000)%Z by lia.
    rewrite Z.quot_mul by lia. apply Qleb_le.
  - apply shouldCloseByTime_later.
  - intros this signal rem trade this' E.
    pose proof (simulateTradeSilent_entry _ _ _ _ _ E)
      as (_ & _ & _ & _ & _ & _ & Hexit & _).
    split; [exact Hexit|]. clear Hexit.
    apply simulateTradeSilent_inv in E.
    destruct E as [(pre & c & post & ec & _ & _ & Hc & _ & ->) | (base & lc & _ & ->)].
    + apply checkExitConditions_time in Hc. cbn.
      destruct Hc as [[-> Ht] | [[-> | ->] Ht]]; cbn; split;
        try (intros Hwhy; discriminate Hwhy);
        try (intros [Hwhy | Hwhy]; discriminate Hwhy).
      * intros _. apply Qleb_le. exact Ht.
      * intros _. apply Qnot_le_lt. apply Qleb_nle. exact Ht.
      * intros _. apply Qnot_le_lt. apply Qleb_nle. exact Ht.
    + cbn. split; [discriminate | intros [Hwhy | Hwhy]; discriminate Hwhy].
Qed.

Lemma time_limit_of_a_trade_witness :
  inject_Z (Trade.durationHours Samples.tpTrade) < maxHours Samples.simulator.
Proof.
  refine (proj2 (proj2 (proj2 (proj2 time_limit_of_a_trade) Samples.simulator
                          Samples.longAt100 [Samples.reachingBar] Samples.tpTrade
                          Samples.tpState _)) _).
  - vm_compute. reflexivity.
  - right. reflexivity.
Defined.
End TimeLimit.

(** ** The bars a trade is simulated on *)
Section SliceAfterEntry.
Import BreakoutStrategy.

Lemma findIndex_first {A : Type} (p : A -> bool) (pre : list A) (x : A) (post : list A) :
  Forall (fun y => p y = false) pre -> p x = true ->
  findIndex p (pre ++ x :: post) = Some (length pre).
Proof.
  intros Hpre Hx. induction Hpre as [|y pre Hy _ IH]; cbn.
  - rewrite Hx. reflexivity.
  - rewrite Hy, IH. reflexivity.
Qed.

Lemma findIndex_none {A : Type} (p : A -> bool) (l : list A) :
  findIndex p l = None <-> Forall (fun y => p y = false) l.
Proof.
  induction l as [|y l IH]; cbn.
  - split; [constructor | reflexivity].
  - destruct (p y) eqn:E.
    + split; [discriminate|]. intros Hall. apply Forall_cons in Hall.
      destruct Hall as [Hy _]. congruence.
    + destruct (findIndex p l) as [i|]; cbn.
      * split; [discriminate|]. intros Hall. apply Forall_cons in Hall.
        destruct Hall as [_ Hl]. apply IH in Hl. discriminate.
      * split; [|reflexivity]. intros _. constructor; [exact E|]. apply IH. reflexivity.
Qed.

Lemma remainingCandles_after pre candle post signal :
  openTime candle = openTime (Signal.candle signal) ->
  Forall (fun c => openTime c <> openTime (Signal.candle signal)) pre ->
  BacktestEngine.remainingCandles (pre ++ candle :: post) signal = Some post.
Proof.
  intros Hc Hpre. unfold BacktestEngine.remainingCandles.
  rewrite findIndex_first.
  - cbn. f_equal. rewrite Nat.add_1_r.
    change (drop (S (length pre)) (pre ++ candle :: post)) with
      (drop (S (length pre)) (pre ++ [candle] ++ post)).
    rewrite app_assoc. rewrite drop_app_length'; [reflexivity|].
    rewrite length_app. cbn. lia.
  - eapply Forall_impl; [exact Hpre|]. cbn. intros c Hne. apply Z.eqb_neq. exact Hne.
  - apply Z.eqb_eq. exact Hc.
Qed.

Lemma sorted_split_times pre candle post :
  StronglySorted Z.lt (openTime <$> (pre ++ candle :: post)) ->
  Forall (fun c => (openTime c < openTime candle)%Z) pre
  /\ Forall (fun c => (openTime candle < openTime c)%Z) post.
Proof.
  rewrite fmap_app, fmap_cons. intros Hsorted. split.
  - apply Forall_forall. intros c Hc.
    eapply (StronglySorted_app_1_elem_of Z.lt); [exact Hsorted | | left].
    apply list_elem_of_fmap. eauto.
  - apply StronglySorted_app_1_r in Hsorted.
    apply StronglySorted_inv in Hsorted. destruct Hsorted as [_ Hall].
    apply Forall_forall. intros c Hc.
    eapply Forall_forall in Hall; [exact Hall|].
    apply list_elem_of_fmap. eauto.
Qed.

Section WithZone.
Context `{Moment}.

(** For bars in strictly increasing time order the bars after a
    signal's entry are the bars of the input after the signal's bar. *)
Lemma remainingCandles_of_signal candles signal :
  StronglySorted Z.lt (openTime <$> candles) ->
  signal ∈ processCandles candles ->
  exists pre post,
    candles = pre ++ Signal.candle signal :: post
    /\ BacktestEngine.remainingCandles candles signal = Some post
    /\ Forall (fun c => (openTime (Signal.candle signal) < openTime c)%Z) post.
Proof.
  intros Hsorted Hin.
  apply processCandles_signal in Hin. destruct Hin as (c & Hc & Hs).
  apply shouldOpenTrade_Some in Hs.
  destruct Hs as (_ & _ & _ & _ & _ & _ & _ & _ & Hcandle & _). subst c.
  apply list_elem_of_split in Hc. destruct Hc as (pre & post & ->).
  destruct (sorted_split_times _ _ _ Hsorted) as [Hpre Hpost].
  exists pre, post. split; [reflexivity|]. split; [|exact Hpost].
  apply remainingCandles_after; [reflexivity|].
  eapply Forall_impl; [exact Hpre|]. cbn. intros c Hlt. lia.
Qed.

(** X9. The bars handed to the simulator for a signal are the bars
    after the first bar with the open time of the signal's candle, and
    there are none to hand over only when no bar has that open time.
    For bars in strictly increasing time order these are, for every
    signal of [processCandles], exactly the bars of the input after the
    signal's own bar, all of them later than the entry. *)
Theorem bars_after_the_entry :
  (forall candles signal,
      BacktestEngine.remainingCandles candles signal = None
      <-> Forall (fun c => openTime c <> openTime (Signal.candle signal)) candles)
  /\ (forall pre candle post signal,
         openTime candle = openTime (Signal.candle signal) ->
         Forall (fun c => openTime c <> openTime (Signal.candle signal)) pre ->
         BacktestEngine.remainingCandles (pre ++ candle :: post) signal = Some post)
  /\ (forall candles signal,
         StronglySorted Z.lt (openTime <$> candles) ->
         signal ∈ processCandles candles ->
         exists pre post,
           candles = pre ++ Signal.candle signal :: post
           /\ BacktestEngine.remainingCandles candles signal = Some post
           /\ Forall (fun c => (openTime (Signal.candle signal) < openTime c)%Z) post).
Proof.
  split; [|split].
  - intros candles signal. unfold BacktestEngine.remainingCandles.
    destruct (findIndex _ candles) as [i|] eqn:E; cbn.
    + split; [discriminate|]. intros Hall.
      assert (findIndex (fun c => (openTime c =? openTime (Signal.candle signal))%Z) candles
              = None) as E'.
      { apply findIndex_none. eapply Forall_impl; [exact Hall|].
        cbn. intros c Hne. apply Z.eqb_neq. exact Hne. }
      congruence.
    + split; [|reflexivity]. intros _. apply findIndex_none in E.
      eapply Forall_impl; [exact E|]. cbn. intros c Hc. apply Z.eqb_neq. exact Hc.
  - apply remainingCandles_after.
  - apply remainingCandles_of_signal.
Qed.
End WithZone.
End SliceAfterEntry.

Section SliceAfterEntryExamples.

Lemma bars_after_the_entry_witness :
  exists pre post,
    Samples.takeProfitRun = pre ++ Signal.candle Samples.longAt100 :: post
    /\ BacktestEngine.remainingCandles Samples.takeProfitRun Samples.longAt100 = Some post
    /\ Forall (fun c => (openTime (Signal.candle Samples.longAt100) < openTime c)%Z) post.
Proof.
  apply (proj2 (proj2 (bars_after_the_entry (H := moment_utc)))
           Samples.takeProfitRun Samples.longAt100).
  - repeat (constructor; try reflexivity).
  - assert (BreakoutStrategy.processCandles Samples.takeProfitRun = [Samples.longAt100])
      as -> by (vm_compute; reflexivity).
    apply list_elem_of_singleton. reflexivity.
Defined.
End SliceAfterEntryExamples.

(** ** A run of trades *)
Section RunOfTrades.
Local Open Scope Q_scope.
Import TradeSimulator.

Lemma forEach_app {A S : Type} (body : S -> A -> Completion S) (l1 l2 : list A) (st : S) :
  forEach body (l1 ++ l2) st = forEach body l1 st ≫= forEach body l2.
Proof.
  revert st. induction l1 as [|x l1 IH]; intros st; cbn; [reflexivity|].
  destruct (body st x) as [st'|e]; cbn; [apply IH | reflexivity].
Qed.

Lemma forEach_ext {A S : Type} (body1 body2 : S -> A -> Completion S) (l : list A) (st : S) :
  (forall st x, body1 st x = body2 st x) -> forEach body1 l st = forEach body2 l st.
Proof.
  intros Hext. revert st. induction l as [|x l IH]; intros st; cbn; [reflexivity|].
  rewrite Hext. destruct (body2 st x) as [st'|e]; cbn; [apply IH | reflexivity].
Qed.

(** A loop within a loop is one loop over the concatenation. *)
Lemma forEach_concat {A B S : Type} (body : S -> A -> Completion S) (f : B -> list A)
    (l : list B) (st : S) :
  forEach (fun st x => forEach body (f x) st) l st = forEach body (l ≫= f) st.
Proof.
  revert st. induction l as [|x l IH]; intros st; cbn; [reflexivity|].
  rewrite forEach_app. destruct (forEach body (f x) st) as [st'|e]; cbn;
    [apply IH | reflexivity].
Qed.

Lemma bind_ext_in {A B : Type} (f g : A -> list B) (l : list A) :
  (forall x, x ∈ l -> f x = g x) -> l ≫= f = l ≫= g.
Proof.
  induction l as [|x l IH]; intros Hext; cbn; [reflexivity|].
  rewrite (Hext x) by left. rewrite IH; [reflexivity|].
  intros y Hy. apply Hext. right. exact Hy.
Qed.

(** Filtering by each key of a duplicate-free list that has all the
    keys gives the list back, rearranged. *)
Lemma bind_filter_Permutation {A : Type} (key : A -> string) (keys : list string)
    (l : list A) :
  NoDup keys -> (forall x, x ∈ l -> key x ∈ keys) ->
  keys ≫= (fun k => filter (fun x => key x = k) l) ≡ₚ l.
Proof.
  intros Hnd. induction l as [|x l IH]; intros Hkeys.
  - induction keys as [|k keys IHk]; [reflexivity|].
    rewrite bind_cons, filter_nil. cbn [app]. apply IHk.
    + apply NoDup_cons in Hnd. tauto.
    + intros x Hx. inversion Hx.
  - assert (Hx : key x ∈ keys) by (apply Hkeys; left).
    apply list_elem_of_split in Hx. destruct Hx as (k1 & k2 & Hsplit).
    assert (IH' : keys ≫= (fun k => filter (fun x => key x = k) l) ≡ₚ l)
      by (apply IH; intros y Hy; apply Hkeys; right; exact Hy).
    rewrite Hsplit in Hnd, IH' |- *.
    apply NoDup_app in Hnd. destruct Hnd as (_ & Hdisj & Hnd2).
    apply NoDup_cons in Hnd2. destruct Hnd2 as [Hnot2 _].
    rewrite !bind_app, !bind_cons in IH' |- *.
    rewrite (filter_cons_True (fun y => key y = key x)) by reflexivity.
    rewrite (bind_ext_in (fun k => filter (fun y => key y = k) (x :: l))
               (fun k => filter (fun y => key y = k) l) k1).
    2: { intros k Hk. apply filter_cons_False. intros E. subst k.
         apply (Hdisj (key x) Hk). left. }
    rewrite (bind_ext_in (fun k => filter (fun y => key y = k) (x :: l))
               (fun k => filter (fun y => key y = k) l) k2).
    2: { intros k Hk. apply filter_cons_False. intros E. subst k. contradiction. }
    cbn [app]. rewrite <- Permutation_middle. constructor. exact IH'.
Qed.

(** One turn of the loop over the signals: the signal is skipped or a
    trade is simulated and appended. *)
Lemma simulateSignal_step candles engine signal engine' :
  RunLog.simulateSignal candles engine signal = Return engine' ->
  (BacktestEngine.remainingCandles candles signal = None /\ engine' = engine)
  \/ (exists remaining trade,
         BacktestEngine.remainingCandles candles signal = Some remaining
         /\ simulateTradeSilent (BacktestEngine.simulator engine) signal remaining
            = Return (trade, BacktestEngine.simulator engine')
         /\ BacktestEngine.trades engine' = BacktestEngine.trades engine ++ [trade]
         /\ BacktestEngine.signals engine' = BacktestEngine.signals engine).
Proof.
  unfold RunLog.simulateSignal, BacktestEngine.showSignalAndTrade.
  destruct (BacktestEngine.remainingCandles candles signal) as [rem|].
  - destruct (simulateTradeSilent _ signal rem) as [[trade sim']|e] eqn:E; cbn;
      [|discriminate].
    intros [= <-]. right. exists rem, trade. cbn. repeat split. exact E.
  - intros [= <-]. left. split; reflexivity.
Qed.

(** What the loop over a list of signals leaves. *)
Lemma run_log candles signals engine engine' :
  forEach (RunLog.simulateSignal candles) signals engine = Return engine' ->
  exists done,
    BacktestEngine.trades engine' = BacktestEngine.trades engine ++ done
    /\ BacktestEngine.signals engine' = BacktestEngine.signals engine
    /\ trades (BacktestEngine.simulator engine')
       = trades (BacktestEngine.simulator engine) ++ done
    /\ (Trade.signal <$> done) `sublist_of` signals
    /\ currentBalance (BacktestEngine.simulator engine')
       = RunLog.balanceAfter (currentBalance (BacktestEngine.simulator engine)) done
    /\ dailyResults (BacktestEngine.simulator engine')
       = RunLog.record
           (RunLog.dailyEntries (currentBalance (BacktestEngine.simulator engine)) done)
           (dailyResults (BacktestEngine.simulator engine))
    /\ (initialCapital (BacktestEngine.simulator engine')
        = initialCapital (BacktestEngine.simulator engine)
        /\ leverage (BacktestEngine.simulator engine')
           = leverage (BacktestEngine.simulator engine))
    /\ Forall (fun t => exists n : Z, Trade.resultUSD t = inject_Z n ⊘ 100) done
    /\ (forall pre t post,
           done = pre ++ t :: post ->
           Trade.positionSize t
           = RunLog.balanceAfter (currentBalance (BacktestEngine.simulator engine)) pre
             ⊗ leverage (BacktestEngine.simulator engine)).
Proof.
  revert engine. induction signals as [|s signals IH]; intros engine; cbn.
  - intros [= <-]. exists []. rewrite !app_nil_r. repeat split; try reflexivity.
    + constructor.
    + intros [|? ?] t post Hsplit; discriminate Hsplit.
  - destruct (RunLog.simulateSignal candles engine s) as [engine1|e] eqn:Hstep;
      cbn; [|discriminate].
    intros Hrest. destruct (IH engine1 Hrest)
      as (done & Ht & Hs & Hst & Hsub & Hbal & Hdaily & (Hcap & Hlev) & Hres & Hsize).
    apply simulateSignal_step in Hstep.
    destruct Hstep as [[_ ->] | (rem & trade & _ & Hsim & Ht1 & Hs1)].
    + exists done. repeat split; try assumption. apply sublist_cons. exact Hsub.
    + pose proof (simulateTradeSilent_entry _ _ _ _ _ Hsim)
        as (Hsig & _ & _ & _ & _ & _ & _ & Hround).
      destruct (simulateTradeSilent_closed _ _ _ _ _ Hsim)
        as (Hsim' & base & price & c & why & Htrade & _ & _ & _ & _ & Hpos).
      assert (Hpos' : Trade.positionSize trade
                      = currentBalance (BacktestEngine.simulator engine)
                        ⊗ leverage (BacktestEngine.simulator engine))
        by (rewrite Htrade; exact Hpos).
      clear base price c why Htrade Hpos.
      rewrite Hsim' in Hst, Hbal, Hdaily, Hcap, Hlev, Hsize. cbn in Hst, Hbal, Hdaily, Hcap, Hlev, Hsize.
      exists (trade :: done). repeat split.
      * rewrite Ht, Ht1, <- app_assoc. reflexivity.
      * congruence.
      * rewrite Hst, <- app_assoc. reflexivity.
      * cbn. rewrite Hsig. apply sublist_skip. exact Hsub.
      * exact Hbal.
      * rewrite Hdaily. cbn. rewrite Hsig. reflexivity.
      * exact Hcap.
      * exact Hlev.
      * constructor; assumption.
      * intros [|t0 pre] t post Hsplit; injection Hsplit as -> Hsplit.
        -- exact Hpos'.
        -- exact (Hsize pre t post Hsplit).
Qed.

(** With a bar after each entry the loop returns, one trade for each
    signal in their order. *)
Lemma run_returns candles signals engine :
  (forall s, s ∈ signals ->
             exists remaining,
               BacktestEngine.remainingCandles candles s = Some remaining
               /\ remaining <> []) ->
  exists engine',
    forEach (RunLog.simulateSignal candles) signals engine = Return engine'
    /\ Trade.signal <$> BacktestEngine.trades engine'
       = (Trade.signal <$> BacktestEngine.trades engine) ++ signals.
Proof.
  revert engine. induction signals as [|s signals IH]; intros engine Hall;
    cbn [forEach].
  - eexists. split; [reflexivity|]. rewrite app_nil_r. reflexivity.
  - destruct (Hall s) as (rem & Hrem & Hne); [left|].
    destruct (simulateTradeSilent_returns (BacktestEngine.simulator engine) s rem Hne)
      as (trade & sim' & Hsim).
    pose proof (simulateTradeSilent_entry _ _ _ _ _ Hsim) as (Hsig & _).
    assert (Hstep : exists engine1,
               RunLog.simulateSignal candles engine s = Return engine1
               /\ BacktestEngine.trades engine1 = BacktestEngine.trades engine ++ [trade]).
    { unfold RunLog.simulateSignal, BacktestEngine.showSignalAndTrade.
      rewrite Hrem, Hsim. cbn. eexists. split; reflexivity. }
    destruct Hstep as (engine1 & Hstep & Htrades1).
    destruct (IH engine1) as (engine' & Hrun & Htrades);
      [intros s' Hs'; apply Hall; right; exact Hs'|].
    exists engine'. split; [rewrite Hstep; exact Hrun|].
    rewrite Htrades, Htrades1, fmap_app. cbn. rewrite Hsig, <- app_assoc. reflexivity.
Qed.
End RunOfTrades.

(** ** A run of the engine *)
Section EngineRun.
Local Open Scope Q_scope.
Import BreakoutStrategy.
Context `{Moment}.

(** The signals in the order the engine takes them: day by day in the
    order of the sorted dates, within a day as they come. *)
Lemma simulateAllTradesWithLogs_flat engine candles :
  BacktestEngine.simulateAllTradesWithLogs engine candles
  = forEach (RunLog.simulateSignal candles)
      (BacktestEngine.getAllDays candles
         ≫= (fun day => filter (fun s => Signal.date s = day) (BacktestEngine.signals engine)))
      {| BacktestEngine.simulator := BacktestEngine.simulator engine;
         BacktestEngine.signals := BacktestEngine.signals engine;
         BacktestEngine.trades := [] |}.
Proof.
  unfold BacktestEngine.simulateAllTradesWithLogs. cbv zeta.
  rewrite <- forEach_concat. apply forEach_ext. intros st day.
  unfold BacktestEngine.groupSignalsByDay. cbn [BacktestEngine.signals].
  rewrite group_fold, lookup_empty. cbn [default app].
  destruct (filter _ (BacktestEngine.signals engine)) as [|s l]; reflexivity.
Qed.

Lemma getAllDays_NoDup candles : NoDup (BacktestEngine.getAllDays candles).
Proof.
  unfold BacktestEngine.getAllDays. cbv zeta.
  rewrite merge_sort_Permutation. apply NoDup_elements.
Qed.

Lemma signal_of_a_candle candles s :
  s ∈ processCandles candles ->
  Signal.candle s ∈ candles
  /\ Signal.date s = DateUtils.getDateOnly (openTime (Signal.candle s)).
Proof.
  intros Hs. apply processCandles_signal in Hs. destruct Hs as (c & Hc & Hs).
  apply shouldOpenTrade_Some in Hs.
  destruct Hs as (_ & _ & _ & _ & _ & _ & _ & -> & -> & _).
  split; [exact Hc | reflexivity].
Qed.

(** The order in which the engine takes the signals of [processCandles]
    leaves none out and takes none twice. *)
Lemma engine_order_Permutation candles :
  BacktestEngine.getAllDays candles
    ≫= (fun day => filter (fun s => Signal.date s = day) (processCandles candles))
  ≡ₚ processCandles candles.
Proof.
  apply bind_filter_Permutation; [apply getAllDays_NoDup|].
  intros s Hs. destruct (signal_of_a_candle candles s Hs) as [Hc ->].
  apply getAllDays_elem. exact Hc.
Qed.

(** X10. For bars in strictly increasing time order, [runBacktest]
    returns exactly when no signal of [processCandles] is on the last
    bar.  What it returns then has one trade for each signal and no
    other: the trades' signals are the signals taken date by date in
    the order of the sorted dates, a rearrangement of the signals; the
    engine's [trades] are the returned ones, and the simulator's
    [trades] are those it had followed by them. *)
Theorem run_returns_one_trade_per_signal engine candles symbol :
  StronglySorted Z.lt (openTime <$> candles) ->
  ((forall s, s ∈ processCandles candles -> last candles <> Some (Signal.candle s))
   <-> exists engine' data,
         BacktestEngine.runBacktest engine candles symbol = Return (engine', data))
  /\ (forall engine' data,
         BacktestEngine.runBacktest engine candles symbol = Return (engine', data) ->
         BacktestData.signals data = processCandles candles
         /\ Trade.signal <$> BacktestData.trades data
            = BacktestEngine.getAllDays candles
                ≫= (fun day => filter (fun s => Signal.date s = day) (processCandles candles))
         /\ Trade.signal <$> BacktestData.trades data ≡ₚ processCandles candles
         /\ length (BacktestData.trades data) = length (BacktestData.signals data)
         /\ BacktestEngine.trades engine' = BacktestData.trades data
         /\ TradeSimulator.trades (BacktestEngine.simulator engine')
            = TradeSimulator.trades (BacktestEngine.simulator engine)
              ++ BacktestData.trades data).
Proof.
  intros Hsorted.
  set (start := {| BacktestEngine.simulator := BacktestEngine.simulator engine;
                   BacktestEngine.signals := processCandles candles;
                   BacktestEngine.trades := [] |}).
  set (order := BacktestEngine.getAllDays candles
                  ≫= (fun day => filter (fun s => Signal.date s = day)
                                   (processCandles candles))).
  assert (Hrun : BacktestEngine.runBacktest engine candles symbol
                 = (this ← forEach (RunLog.simulateSignal candles) order start;
                    Return (this,
                      {| BacktestData.symbol := symbol;
                         BacktestData.totalCandles := length candles;
                         BacktestData.signals := BacktestEngine.signals this;
                         BacktestData.trades := BacktestEngine.trades this;
                         BacktestData.stats := getSignalsStats (BacktestEngine.signals this);
                         BacktestData.tradingStats :=
                           TradeSimulator.getTradingStats (BacktestEngine.simulator this);
                         BacktestData.dailyResults :=
                           TradeSimulator.getDailyResults (BacktestEngine.simulator this) |}))).
  { unfold BacktestEngine.runBacktest. cbv zeta.
    rewrite simulateAllTradesWithLogs_flat. reflexivity. }
  assert (Hgood : (forall s, s ∈ processCandles candles ->
                             last candles <> Some (Signal.candle s)) ->
                  exists engine',
                    forEach (RunLog.simulateSignal candles) order start = Return engine'
                    /\ Trade.signal <$> BacktestEngine.trades engine' = order).
  { intros Hlast.
    destruct (run_returns candles order start) as (engine' & Hloop & Htrades).
    - intros s Hs.
      assert (Hs' : s ∈ processCandles candles)
        by (rewrite <- (engine_order_Permutation candles); exact Hs).
      destruct (remainingCandles_of_signal candles s Hsorted Hs')
        as (pre & post & Hsplit & Hrem & _).
      exists post. split; [exact Hrem|]. intros ->.
      apply (Hlast s Hs'). rewrite Hsplit. apply last_snoc.
    - exists engine'. split; [exact Hloop | exact Htrades]. }
  split.
  - split.
    + intros Hlast. destruct (Hgood Hlast) as (engine' & Hloop & _).
      rewrite Hrun, Hloop. cbn. eexists _, _. reflexivity.
    + intros (engine' & data & Hret) s Hs Hlast.
      destruct (runBacktest_last_bar engine candles symbol s Hs Hlast Hsorted)
        as (error & Herr).
      congruence.
  - intros engine' data Hret.
    assert (Hlast : forall s, s ∈ processCandles candles ->
                              last candles <> Some (Signal.candle s)).
    { intros s Hs Hl.
      destruct (runBacktest_last_bar engine candles symbol s Hs Hl Hsorted)
        as (error & Herr).
      congruence. }
    destruct (Hgood Hlast) as (engine1 & Hloop & Htrades).
    destruct (run_log _ _ _ _ Hloop) as (done & Ht & Hs & Hst & _).
    rewrite Hrun, Hloop in Hret. cbn in Hret. injection Hret as <- <-.
    cbn. cbn in Ht, Hs, Hst. subst done.
    assert (Hperm : Trade.signal <$> BacktestEngine.trades engine1
                    ≡ₚ processCandles candles)
      by (rewrite Htrades; apply engine_order_Permutation).
    repeat split.
    + exact Hs.
    + exact Htrades.
    + exact Hperm.
    + rewrite Hs. rewrite <- (length_fmap Trade.signal). apply Permutation_length.
      exact Hperm.
    + exact Hst.
Qed.
End EngineRun.

Section EngineRunExamples.

Lemma run_returns_one_trade_per_signal_witness :
  exists engine' data,
    BacktestEngine.runBacktest (H := moment_utc) (BacktestEngine.new 100 5 4 10 20)
      Samples.takeProfitRun "BTCUSDT" = Return (engine', data).
Proof.
  apply (proj1 (proj1 (run_returns_one_trade_per_signal (H := moment_utc)
                         (BacktestEngine.new 100 5 4 10 20) Samples.takeProfitRun
                         "BTCUSDT"%string
                         ltac:(repeat (constructor; try reflexivity))))).
  assert (BreakoutStrategy.processCandles Samples.takeProfitRun = [Samples.longAt100])
    as -> by (vm_compute; reflexivity).
  intros s Hs. apply list_elem_of_singleton in Hs. subst s. discriminate.
Defined.
End EngineRunExamples.

(** ** The books after a run *)
Section Books.
Local Open Scope Q_scope.
Import TradeSimulator.

Lemma balanceAfter_app balance l1 l2 :
  RunLog.balanceAfter balance (l1 ++ l2)
  = RunLog.balanceAfter (RunLog.balanceAfter balance l1) l2.
Proof. apply fold_left_app. Qed.

Lemma dailyEntries_keys trades : forall balance,
  (RunLog.dailyEntries balance trades).*1
  = (fun t => Signal.date (Trade.signal t)) <$> trades.
Proof.
  induction trades as [|t trades IH]; intros balance; cbn; [reflexivity|].
  rewrite IH. reflexivity.
Qed.

Lemma dailyEntries_split pre trade post : forall balance,
  RunLog.dailyEntries balance (pre ++ trade :: post)
  = RunLog.dailyEntries balance pre
    ++ (Signal.date (Trade.signal trade),
        RunLog.dailyResult (RunLog.balanceAfter balance (pre ++ [trade])) trade)
    :: RunLog.dailyEntries (RunLog.balanceAfter balance (pre ++ [trade])) post.
Proof.
  induction pre as [|t pre IH]; intros balance; cbn; [reflexivity|].
  rewrite IH. reflexivity.
Qed.

Lemma record_app {V : Type} (entries1 entries2 : list (string * V)) (o : gmap string V) :
  RunLog.record (entries1 ++ entries2) o = RunLog.record entries2 (RunLog.record entries1 o).
Proof. apply fold_left_app. Qed.

Lemma record_lookup_notin {V : Type} (entries : list (string * V)) : forall o k,
  k ∉ entries.*1 -> RunLog.record entries o !! k = o !! k.
Proof.
  induction entries as [|[k' v] entries IH]; intros o k Hk; [reflexivity|].
  cbn in Hk. apply not_elem_of_cons in Hk. destruct Hk as [Hne Hk].
  change (RunLog.record entries (<[k' := v]> o) !! k = o !! k).
  rewrite IH by exact Hk. apply lookup_insert_ne. congruence.
Qed.

Lemma record_lookup_last {V : Type} (pre post : list (string * V)) k v o :
  k ∉ post.*1 -> RunLog.record (pre ++ (k, v) :: post) o !! k = Some v.
Proof.
  intros Hk. rewrite record_app.
  change (RunLog.record post (<[k := v]> (RunLog.record pre o)) !! k = Some v).
  rewrite record_lookup_notin by exact Hk. apply lookup_insert_eq.
Qed.

Context `{Moment}.

Lemma processCandles_dates_NoDup candles :
  NoDup (Signal.date <$> BreakoutStrategy.processCandles candles).
Proof. apply (scanCandles_marks_init (BreakoutStrategy.calculateDailyLevels candles) candles). Qed.

(** What a returned run leaves in the simulator, in terms of the
    returned trades. *)
Lemma runBacktest_log engine candles symbol engine' data :
  BacktestEngine.runBacktest engine candles symbol = Return (engine', data) ->
  let start := currentBalance (BacktestEngine.simulator engine) in
  let done := BacktestData.trades data in
  BacktestData.dailyResults data = dailyResults (BacktestEngine.simulator engine')
  /\ BacktestData.tradingStats data = getTradingStats (BacktestEngine.simulator engine')
  /\ (Trade.signal <$> done)
       `sublist_of` (BacktestEngine.getAllDays candles
                       ≫= (fun day => filter (fun s => Signal.date s = day)
                                        (BreakoutStrategy.processCandles candles)))
  /\ currentBalance (BacktestEngine.simulator engine') = RunLog.balanceAfter start done
  /\ dailyResults (BacktestEngine.simulator engine')
     = RunLog.record (RunLog.dailyEntries start done)
         (dailyResults (BacktestEngine.simulator engine))
  /\ initialCapital (BacktestEngine.simulator engine')
     = initialCapital (BacktestEngine.simulator engine)
  /\ Forall (fun t => exists n : Z, Trade.resultUSD t = inject_Z n ⊘ 100) done
  /\ (forall pre t post,
         done = pre ++ t :: post ->
         Trade.positionSize t
         = RunLog.balanceAfter start pre ⊗ leverage (BacktestEngine.simulator engine)).
Proof.
  unfold BacktestEngine.runBacktest. cbv zeta.
  rewrite simulateAllTradesWithLogs_flat. cbn [BacktestEngine.signals BacktestEngine.simulator].
  destruct (forEach _ _ _) as [engine1|e] eqn:Hloop; cbn; [|discriminate].
  intros [= <- <-]. cbn.
  destruct (run_log _ _ _ _ Hloop)
    as (done & Ht & _ & _ & Hsub & Hbal & Hdaily & (Hcap & _) & Hres & Hsize).
  cbn in Ht, Hbal, Hdaily, Hcap, Hsize. subst done.
  repeat split; assumption.
Qed.

Lemma run_dates_NoDup engine candles symbol engine' data :
  BacktestEngine.runBacktest engine candles symbol = Return (engine', data) ->
  NoDup ((fun t => Signal.date (Trade.signal t)) <$> BacktestData.trades data).
Proof.
  intros Hret. destruct (runBacktest_log _ _ _ _ _ Hret) as (_ & _ & Hsub & _).
  change (fun t => Signal.date (Trade.signal t)) with (Signal.date ∘ Trade.signal).
  rewrite list_fmap_compose.
  eapply sublist_NoDup; [|apply fmap_sublist; exact Hsub].
  rewrite engine_order_Permutation. apply processCandles_dates_NoDup.
Qed.

(** X11. The balance compounds over a run: each trade is sized on the
    balance left by the trades before it times the leverage, that
    balance being the starting balance with each earlier result added
    and the sum rounded to two decimals in turn; the balance the run
    ends on, which the statistics report as [finalBalance], is the
    starting balance compounded over all the trades, and the initial
    capital is reported as it was.  Every operation is that of
    binary64. *)
Theorem balance_compounds engine candles symbol engine' data :
  BacktestEngine.runBacktest engine candles symbol = Return (engine', data) ->
  let start := currentBalance (BacktestEngine.simulator engine) in
  let done := BacktestData.trades data in
  currentBalance (BacktestEngine.simulator engine') = RunLog.balanceAfter start done
  /\ prop (BacktestData.tradingStats data) "finalBalance"
     = Some (RunLog.balanceAfter start done)
  /\ prop (BacktestData.tradingStats data) "initialCapital"
     = Some (initialCapital (BacktestEngine.simulator engine))
  /\ (forall pre trade post,
         done = pre ++ trade :: post ->
         Trade.positionSize trade
         = RunLog.balanceAfter start pre ⊗ leverage (BacktestEngine.simulator engine)).
Proof.
  intros Hret start done.
  destruct (runBacktest_log _ _ _ _ _ Hret)
    as (_ & Hstats & _ & Hbal & _ & Hcap & Hres & Hsize).
  fold start done in Hbal, Hres, Hsize.
  split; [exact Hbal|]. rewrite Hstats. split; [|split].
  - unfold getTradingStats. cbv zeta. unfold prop. cbn [List.find String.eqb Ascii.eqb Bool.eqb fst snd fmap option_fmap option_map].
    rewrite Hbal. reflexivity.
  - unfold getTradingStats. cbv zeta. unfold prop. cbn [List.find String.eqb Ascii.eqb Bool.eqb fst snd fmap option_fmap option_map].
    rewrite Hcap. reflexivity.
  - exact Hsize.
Qed.

(** Under the date of a trade of the run stands the record of that
    trade. *)
Lemma daily_result_of_a_trade engine candles symbol engine' data pre trade post :
  BacktestEngine.runBacktest engine candles symbol = Return (engine', data) ->
  BacktestData.trades data = pre ++ trade :: post ->
  BacktestData.dailyResults data !! Signal.date (Trade.signal trade)
  = Some (RunLog.dailyResult
            (RunLog.balanceAfter (currentBalance (BacktestEngine.simulator engine))
               (pre ++ [trade])) trade).
Proof.
  intros Hret Hsplit.
  pose proof (run_dates_NoDup _ _ _ _ _ Hret) as Hnd.
  destruct (runBacktest_log _ _ _ _ _ Hret) as (Hdaily & _ & _ & _ & Hrecord & _).
  rewrite Hdaily, Hrecord. rewrite Hsplit in Hnd |- *.
  rewrite dailyEntries_split. apply record_lookup_last.
  rewrite dailyEntries_keys.
  rewrite fmap_app, fmap_cons in Hnd. apply NoDup_app in Hnd.
  destruct Hnd as (_ & _ & Hnd). apply NoDup_cons in Hnd. tauto.
Qed.

(** A date without a trade of the run has what it had. *)
Lemma daily_result_elsewhere engine candles symbol engine' data date :
  BacktestEngine.runBacktest engine candles symbol = Return (engine', data) ->
  (forall trade, trade ∈ BacktestData.trades data ->
                 Signal.date (Trade.signal trade) <> date) ->
  BacktestData.dailyResults data !! date
  = dailyResults (BacktestEngine.simulator engine) !! date.
Proof.
  intros Hret Hno.
  destruct (runBacktest_log _ _ _ _ _ Hret) as (Hdaily & _ & _ & _ & Hrecord & _).
  rewrite Hdaily, Hrecord. apply record_lookup_notin. rewrite dailyEntries_keys.
  intros Hin. apply list_elem_of_fmap in Hin. destruct Hin as (t & -> & Ht).
  exact (Hno t Ht eq_refl).
Qed.

(** X12. The daily results after a run: the dates of the trades are
    pairwise different; under the date of each trade stands the record
    of that trade, executed, with the balance after the trade (the
    starting balance compounded up to it), the balance before as that
    minus the result, and the result as the day's return; every other
    date has what it had before the run, so that a simulator that
    started with no daily results has entries only for days with a
    trade, none of them a no-trade entry. *)
Theorem daily_results_of_a_run engine candles symbol engine' data :
  BacktestEngine.runBacktest engine candles symbol = Return (engine', data) ->
  let start := currentBalance (BacktestEngine.simulator engine) in
  let done := BacktestData.trades data in
  NoDup ((fun t => Signal.date (Trade.signal t)) <$> done)
  /\ (forall pre trade post,
         done = pre ++ trade :: post ->
         BacktestData.dailyResults data !! Signal.date (Trade.signal trade)
         = Some (RunLog.dailyResult (RunLog.balanceAfter start (pre ++ [trade])) trade))
  /\ (forall date,
         (forall trade, trade ∈ done -> Signal.date (Trade.signal trade) <> date) ->
         BacktestData.dailyResults data !! date
         = dailyResults (BacktestEngine.simulator engine) !! date)
  /\ (dailyResults (BacktestEngine.simulator engine) = ∅ ->
      forall date result,
        BacktestData.dailyResults data !! date = Some result ->
        DailyResult.tradeExecuted result = true
        /\ exists trade,
            trade ∈ done
            /\ DailyResult.trade result = Some trade
            /\ Signal.date (Trade.signal trade) = date
            /\ DailyResult.dailyReturn result = Trade.resultUSD trade).
Proof.
  intros Hret start done.
  pose proof (run_dates_NoDup _ _ _ _ _ Hret) as Hnd. fold done in Hnd.
  split; [exact Hnd|]. split; [|split].
  - intros pre trade post Hsplit.
    exact (daily_result_of_a_trade _ _ _ _ _ _ _ _ Hret Hsplit).
  - intros date Hno. exact (daily_result_elsewhere _ _ _ _ _ _ Hret Hno).
  - intros Hempty date result Hlook.
    destruct (decide (date ∈ (fun t => Signal.date (Trade.signal t)) <$> done))
      as [Hin|Hout].
    + apply list_elem_of_fmap in Hin. destruct Hin as (t & -> & Ht).
      pose proof Ht as Ht'.
      apply list_elem_of_split in Ht. destruct Ht as (pre & post & Hsplit).
      rewrite (daily_result_of_a_trade _ _ _ _ _ _ _ _ Hret Hsplit) in Hlook.
      injection Hlook as <-.
      split; [reflexivity|]. exists t. repeat split. exact Ht'.
    + rewrite (daily_result_elsewhere _ _ _ _ _ _ Hret), Hempty, lookup_empty in Hlook;
        [discriminate|].
      intros t Ht E. apply Hout. apply list_elem_of_fmap. exists t.
      split; [congruence | exact Ht].
Qed.
End Books.

Section BooksExamples.
Local Open Scope Q_scope.

Lemma balance_compounds_witness :
  exists engine' data,
    BacktestEngine.runBacktest (H := moment_utc) (BacktestEngine.new 100 5 4 10 20)
      Samples.winLossRun "BTCUSDT" = Return (engine', data)
    /\ prop (BacktestData.tradingStats data) "finalBalance"
       = Some (RunLog.balanceAfter 100 (BacktestData.trades data))
    /\ RunLog.balanceAfter 100 (BacktestData.trades data) == 108
    /\ Trade.positionSize <$> BacktestData.trades data = [500; 600].
Proof.
  destruct (BacktestEngine.runBacktest (H := moment_utc) (BacktestEngine.new 100 5 4 10 20)
              Samples.winLossRun "BTCUSDT") as [[engine' data]|e] eqn:E;
    [|vm_compute in E; discriminate E].
  exists engine', data. split; [reflexivity|].
  destruct (balance_compounds (H := moment_utc) _ _ _ _ _ E)
    as (_ & Hfinal & _ & _).
  split; [exact Hfinal|].
  pose proof E as E'. vm_compute in E'. injection E' as _ <-.
  split; vm_compute; reflexivity.
Defined.

Lemma daily_results_of_a_run_witness :
  exists engine' data,
    BacktestEngine.runBacktest (H := moment_utc) (BacktestEngine.new 100 5 4 10 20)
      Samples.takeProfitRun "BTCUSDT" = Return (engine', data)
    /\ forall date result,
        BacktestData.dailyResults data !! date = Some result ->
        DailyResult.tradeExecuted result = true.
Proof.
  destruct (BacktestEngine.runBacktest (H := moment_utc) (BacktestEngine.new 100 5 4 10 20)
              Samples.takeProfitRun "BTCUSDT") as [[engine' data]|e] eqn:E;
    [|vm_compute in E; discriminate E].
  exists engine', data. split; [reflexivity|].
  destruct (daily_results_of_a_run (H := moment_utc) _ _ _ _ _ E)
    as (_ & _ & _ & Hfresh).
  intros date result Hlook. apply (Hfresh eq_refl date result Hlook).
Defined.
End BooksExamples.

(** ** Validation of the data to export *)
Section Validation.
Local Open Scope Q_scope.
Import DataFormatter.

(** [Math.round(x * 100) / 100], as the check writes it. *)
Local Abbreviation cents x := (inject_Z (MathUtils.Math_round (x ⊗ 100)) ⊘ 100).

(** One turn of the loop over the dates. *)
Lemma checkBalance_cases dailyResults expected date result :
  dailyResults !! date = Some result ->
  (checkBalance dailyResults expected date
   = Return (Some (FormattedResult.balanceAfter result))
   /\ forall e, expected = Some e ->
                cents (FormattedResult.balanceBefore result) == cents e)
  \/ (checkBalance dailyResults expected date
      = Throw ("Balance inconsistency on " +:+ date)
      /\ exists e, expected = Some e
                   /\ ~ cents (FormattedResult.balanceBefore result) == cents e).
Proof.
  intros Hr. unfold checkBalance. rewrite Hr. destruct expected as [e|].
  - destruct (Qeq_bool _ _) eqn:E; cbn [negb].
    + left. split; [reflexivity|]. intros e' [= <-]. apply Qeq_bool_iff. exact E.
    + right. split; [reflexivity|]. exists e. split; [reflexivity|].
      intros Heq. apply Qeq_bool_iff in Heq. congruence.
  - left. split; [reflexivity|]. intros e' [=].
Qed.

Lemma forEach_checkBalance dailyResults dates : forall expected,
  (forall d, d ∈ dates -> is_Some (dailyResults !! d)) ->
  ((exists final, forEach (checkBalance dailyResults) dates expected = Return final)
   <-> ((forall e d rest r,
            expected = Some e -> dates = d :: rest -> dailyResults !! d = Some r ->
            cents (FormattedResult.balanceBefore r) == cents e)
        /\ (forall pre d1 d2 post r1 r2,
               dates = pre ++ d1 :: d2 :: post ->
               dailyResults !! d1 = Some r1 -> dailyResults !! d2 = Some r2 ->
               BalanceChain.follows r1 r2)))
  /\ (forall error,
         forEach (checkBalance dailyResults) dates expected = Throw error ->
         exists d, d ∈ dates /\ error = "Balance inconsistency on " +:+ d).
Proof.
  induction dates as [|d dates IH]; intros expected Hkeys.
  - split; [split|].
    + intros _. split.
      * intros e d rest r _ Hnil. discriminate Hnil.
      * intros [|x pre] d1 d2 post r1 r2 Hnil; discriminate Hnil.
    + intros _. eexists. reflexivity.
    + intros error Herr. discriminate Herr.
  - destruct (Hkeys d) as [r Hr]; [left|].
    assert (Hkeys' : forall d', d' ∈ dates -> is_Some (dailyResults !! d'))
      by (intros d' Hd'; apply Hkeys; right; exact Hd').
    cbn [forEach].
    destruct (checkBalance_cases dailyResults expected d r Hr)
      as [[Hcb Hok] | [Hcb (e & He & Hne)]]; rewrite Hcb; cbn.
    + destruct (IH (Some (FormattedResult.balanceAfter r)) Hkeys') as [IHiff IHerr].
      split.
      * rewrite IHiff. split.
        -- intros [Hhead Hpairs]. split.
           ++ intros e d' rest r' He [= <- <-] Hr'. rewrite Hr in Hr'.
              injection Hr' as <-. exact (Hok e He).
           ++ intros [|x pre] d1 d2 post r1 r2 Hsplit H1 H2.
              ** injection Hsplit as <- ->. rewrite Hr in H1. injection H1 as <-.
                 exact (Hhead _ d2 post r2 eq_refl eq_refl H2).
              ** injection Hsplit as <- ->. exact (Hpairs pre d1 d2 post r1 r2 eq_refl H1 H2).
        -- intros [Hhead Hpairs]. split.
           ++ intros e d' rest r' [= <-] -> Hr'.
              exact (Hpairs [] d d' rest r r' eq_refl Hr Hr').
           ++ intros pre d1 d2 post r1 r2 ->.
              exact (Hpairs (d :: pre) d1 d2 post r1 r2 eq_refl).
      * intros error Herr. destruct (IHerr error Herr) as (d' & Hd' & ->).
        exists d'. split; [right; exact Hd' | reflexivity].
    + split; [split|].
      * intros [final Hf]. discriminate Hf.
      * intros [Hhead _]. exfalso. apply Hne. exact (Hhead e d dates r He eq_refl Hr).
      * intros error [= <-]. exists d. split; [left | reflexivity].
Qed.

Lemma validateBalanceConsistency_chained dailyResults :
  validateBalanceConsistency dailyResults = Return tt
  <-> BalanceChain.chained dailyResults.
Proof.
  destruct (forEach_checkBalance dailyResults (sortedKeys dailyResults) None)
    as [Hiff _]; [intros d Hd; apply elem_of_sortedKeys; exact Hd|].
  unfold validateBalanceConsistency. cbv zeta. split.
  - intros Hret. refine (proj2 (proj1 Hiff _)).
    destruct (forEach _ _ _) as [final|e]; [|discriminate Hret]. eexists. reflexivity.
  - intros Hchain.
    destruct (proj2 Hiff) as [final ->]; [|reflexivity].
    split; [intros e d rest r [=] | exact Hchain].
Qed.

Lemma no_keys_empty {V : Type} (o : gmap string V) :
  (length (map_to_list o).*1 =? 0)%nat = true <-> o = ∅.
Proof.
  rewrite Nat.eqb_eq, length_fmap. rewrite <- (map_to_list_empty_iff o).
  destruct (map_to_list o); cbn; split; congruence.
Qed.

Lemma validateData_true data :
  validateData data = true
  <-> Metadata.symbol (ExportData.metadata data) <> ""%string
      /\ ExportData.dailyResults data <> ∅
      /\ BalanceChain.chained (ExportData.dailyResults data).
Proof.
  unfold validateData, validateDataChecks.
  destruct (String.eqb_spec (Metadata.symbol (ExportData.metadata data)) "") as [Hs|Hs].
  { split; [discriminate | tauto]. }
  destruct (length (map_to_list (ExportData.dailyResults data)).*1 =? 0)%nat eqn:Hlen.
  { apply no_keys_empty in Hlen. split; [discriminate | tauto]. }
  assert (Hne : ExportData.dailyResults data <> ∅).
  { intros Hempty. apply no_keys_empty in Hempty. congruence. }
  rewrite <- validateBalanceConsistency_chained.
  destruct (validateBalanceConsistency (ExportData.dailyResults data)) as [[]|e].
  - tauto.
  - split; [discriminate|]. intros (_ & _ & Hbad). discriminate Hbad.
Qed.

(** X13. [validateBalanceConsistency] returns exactly when, along the
    sorted dates, the balance before each day and the balance after
    the day before it agree to the hundredth; what it throws otherwise
    is the balance inconsistency of a date of the results, never
    another error.  [validateData] is true exactly when the symbol is
    not empty, there is a daily result, and the balances are so
    chained. *)
Theorem validation_is_the_balance_chain :
  (forall dailyResults,
      validateBalanceConsistency dailyResults = Return tt
      <-> BalanceChain.chained dailyResults)
  /\ (forall dailyResults error,
         validateBalanceConsistency dailyResults = Throw error ->
         exists date,
           is_Some (dailyResults !! date)
           /\ error = "Balance inconsistency on " +:+ date)
  /\ (forall data,
         validateData data = true
         <-> Metadata.symbol (ExportData.metadata data) <> ""%string
             /\ ExportData.dailyResults data <> ∅
             /\ BalanceChain.chained (ExportData.dailyResults data)).
Proof.
  split; [exact validateBalanceConsistency_chained|]. split; [|exact validateData_true].
  intros dailyResults error.
  destruct (forEach_checkBalance dailyResults (sortedKeys dailyResults) None)
    as [_ Herr]; [intros d Hd; apply elem_of_sortedKeys; exact Hd|].
  unfold validateBalanceConsistency. cbv zeta.
  destruct (forEach _ _ _) as [final|e] eqn:E; cbn; [discriminate|].
  intros [= <-]. destruct (Herr e eq_refl) as (d & Hd & ->).
  exists d. split; [apply elem_of_sortedKeys; exact Hd | reflexivity].
Qed.
End Validation.

Section ValidationExamples.

Lemma validation_is_the_balance_chain_witness :
  exists date,
    is_Some (Samples.brokenResults !! date)
    /\ ("Balance inconsistency on 2025-08-26" : string) = "Balance inconsistency on " +:+ date.
Proof.
  apply (proj1 (proj2 validation_is_the_balance_chain) Samples.brokenResults).
  vm_compute. reflexivity.
Defined.
End ValidationExamples.

(** ** The export of a run *)
Section ExportOfARun.
Local Open Scope Q_scope.
Import TradeSimulator.

#[local] Instance string_le_antisymm : AntiSymm eq string_le.
Proof. intros x y. apply string_le_antisym. Qed.

(** The sorted keys are the one sorted list of the keys. *)
Lemma sortedKeys_unique {V : Type} (o : gmap string V) (l : list string) :
  Sorted string_le l -> NoDup l -> (forall k, k ∈ l <-> is_Some (o !! k)) ->
  sortedKeys o = l.
Proof.
  intros Hsorted Hnd Hkeys. apply (Sorted_unique string_le).
  - apply Sorted_merge_sort. apply _.
  - exact Hsorted.
  - apply NoDup_Permutation; [apply sortedKeys_NoDup | exact Hnd|].
    intros k. rewrite elem_of_sortedKeys, Hkeys. reflexivity.
Qed.

Lemma filter_key_notin {A : Type} (key : A -> string) (l : list A) (k : string) :
  k ∉ key <$> l -> filter (fun x => key x = k) l = [].
Proof.
  induction l as [|x l IH]; intros Hk; [reflexivity|].
  cbn in Hk. apply not_elem_of_cons in Hk. destruct Hk as [Hne Hk].
  rewrite filter_cons_False by congruence. apply IH. exact Hk.
Qed.

Lemma filter_key_sublist {A : Type} (key : A -> string) (l : list A) (k : string) :
  NoDup (key <$> l) -> key <$> filter (fun x => key x = k) l `sublist_of` [k].
Proof.
  induction l as [|x l IH]; intros Hnd.
  - rewrite filter_nil. apply sublist_nil_l.
  - cbn in Hnd. apply NoDup_cons in Hnd. destruct Hnd as [Hx Hnd].
    destruct (decide (key x = k)) as [E|NE].
    + rewrite filter_cons_True by exact E. subst k.
      rewrite filter_key_notin by exact Hx. reflexivity.
    + rewrite filter_cons_False by exact NE. apply IH. exact Hnd.
Qed.

(** With pairwise different keys, taking the elements key by key gives
    keys in the order of the list of keys. *)
Lemma bind_filter_keys_sublist {A : Type} (key : A -> string) (keys : list string)
    (l : list A) :
  NoDup (key <$> l) ->
  key <$> (keys ≫= (fun k => filter (fun x => key x = k) l)) `sublist_of` keys.
Proof.
  intros Hnd. induction keys as [|k keys IH]; [reflexivity|].
  rewrite bind_cons, fmap_app. change (k :: keys) with ([k] ++ keys).
  apply sublist_app; [apply filter_key_sublist; exact Hnd | exact IH].
Qed.

Context `{Moment} `{MomentDays}.

(** The dates of the trades of a run are in the order of the sorted
    dates. *)
Lemma run_dates_sorted engine candles symbol engine' data :
  BacktestEngine.runBacktest engine candles symbol = Return (engine', data) ->
  StronglySorted string_le
    ((fun t => Signal.date (Trade.signal t)) <$> BacktestData.trades data).
Proof.
  intros Hret. destruct (runBacktest_log _ _ _ _ _ Hret) as (_ & _ & Hsub & _).
  change (fun t => Signal.date (Trade.signal t)) with (Signal.date ∘ Trade.signal).
  rewrite list_fmap_compose.
  eapply StronglySorted_sublist; [apply fmap_sublist; exact Hsub|].
  eapply StronglySorted_sublist.
  - apply bind_filter_keys_sublist. apply processCandles_dates_NoDup.
  - unfold BacktestEngine.getAllDays. cbv zeta.
    apply StronglySorted_merge_sort; apply _.
Qed.

Lemma formatDailyResult_balances balance trade :
  FormattedResult.balanceBefore
    (DataFormatter.formatDailyResult (RunLog.dailyResult balance trade))
  = balance ⊖ Trade.resultUSD trade
  /\ FormattedResult.balanceAfter
       (DataFormatter.formatDailyResult (RunLog.dailyResult balance trade))
     = balance.
Proof. split; reflexivity. Qed.

(** The formatted daily results of a run that started with none. *)
Lemma run_formatted_keys engine candles symbol engine' data :
  BacktestEngine.runBacktest engine candles symbol = Return (engine', data) ->
  dailyResults (BacktestEngine.simulator engine) = ∅ ->
  sortedKeys (DataFormatter.formatDailyResults (BacktestData.dailyResults data))
  = (fun t => Signal.date (Trade.signal t)) <$> BacktestData.trades data.
Proof.
  intros Hret Hempty. apply sortedKeys_unique.
  - apply StronglySorted_Sorted. exact (run_dates_sorted _ _ _ _ _ Hret).
  - exact (run_dates_NoDup _ _ _ _ _ Hret).
  - intros k. unfold DataFormatter.formatDailyResults. rewrite lookup_fmap.
    rewrite fmap_is_Some. split.
    + intros Hin. apply list_elem_of_fmap in Hin. destruct Hin as (t & -> & Ht).
      apply list_elem_of_split in Ht. destruct Ht as (pre & post & Hsplit).
      rewrite (daily_result_of_a_trade _ _ _ _ _ _ _ _ Hret Hsplit). eauto.
    + intros Hsome.
      destruct (decide (k ∈ (fun t => Signal.date (Trade.signal t))
                              <$> BacktestData.trades data)) as [Hin|Hout];
        [exact Hin|].
      rewrite (daily_result_elsewhere _ _ _ _ _ _ Hret), Hempty, lookup_empty in Hsome.
      * destruct Hsome as [x Hx]. discriminate Hx.
      * intros t Ht E. apply Hout. apply list_elem_of_fmap. exists t.
        split; [congruence | exact Ht].
Qed.

(** What a run that started with no daily results exports. *)
Lemma run_export engine candles symbol config engine' data :
  BacktestEngine.runBacktest engine candles symbol = Return (engine', data) ->
  dailyResults (BacktestEngine.simulator engine) = ∅ ->
  ((exists exported,
       ResultsExporter.formatBacktestData data symbol candles config = Return exported)
   <-> candles <> [])
  /\ forall exported,
      ResultsExporter.formatBacktestData data symbol candles config = Return exported ->
      sortedKeys (ExportData.dailyResults exported)
      = (fun t => Signal.date (Trade.signal t)) <$> BacktestData.trades data
      /\ (forall pre trade post,
             BacktestData.trades data = pre ++ trade :: post ->
             exists result,
               ExportData.dailyResults exported !! Signal.date (Trade.signal trade)
               = Some result
               /\ FormattedResult.balanceAfter result
                  = RunLog.balanceAfter (currentBalance (BacktestEngine.simulator engine))
                      (pre ++ [trade])
               /\ FormattedResult.balanceBefore result
                  = FormattedResult.balanceAfter result ⊖ Trade.resultUSD trade)
      /\ (DataFormatter.validateData exported = true
          <-> symbol <> ""%string
              /\ BacktestData.trades data <> []
              /\ DataFormatter.validateBalanceConsistency
                   (ExportData.dailyResults exported) = Return tt).
Proof.
  intros Hret Hempty. split.
  - unfold ResultsExporter.formatBacktestData, DataFormatter.formatMetadata.
    destruct candles as [|c candles]; cbn [head].
    + split; [intros [exported Hx]; discriminate Hx | congruence].
    + split; [discriminate|]. intros _.
      destruct (last (c :: candles)) as [lastCandle|] eqn:Hlast.
      * cbn. eexists. reflexivity.
      * apply last_None in Hlast. discriminate Hlast.
  - intros exported Hx.
    assert (Hfields : ExportData.dailyResults exported
                      = DataFormatter.formatDailyResults (BacktestData.dailyResults data)
                      /\ Metadata.symbol (ExportData.metadata exported) = symbol).
    { unfold ResultsExporter.formatBacktestData, DataFormatter.formatMetadata in Hx.
      destruct (head candles); [|discriminate Hx].
      destruct (last candles); [|discriminate Hx].
      cbn in Hx. injection Hx as <-. split; reflexivity. }
    destruct Hfields as [Hdaily Hsymbol].
    pose proof (run_formatted_keys _ _ _ _ _ Hret Hempty) as Hkeys.
    rewrite <- Hdaily in Hkeys.
    split; [exact Hkeys|]. split.
    { intros pre trade post Hsplit. rewrite Hdaily.
      unfold DataFormatter.formatDailyResults. rewrite lookup_fmap.
      rewrite (daily_result_of_a_trade _ _ _ _ _ _ _ _ Hret Hsplit).
      eexists. split; [reflexivity|].
      rewrite (proj1 (formatDailyResult_balances _ _)),
        (proj2 (formatDailyResult_balances _ _)).
      split; reflexivity. }
    rewrite validateData_true, Hsymbol, <- validateBalanceConsistency_chained.
    assert (Hne : ExportData.dailyResults exported <> ∅ <-> BacktestData.trades data <> []).
    { split.
      - intros Hm Hnil. apply Hm. apply map_empty. intros k.
        destruct (ExportData.dailyResults exported !! k) eqn:Hk; [|reflexivity].
        assert (Hin : k ∈ sortedKeys (ExportData.dailyResults exported))
          by (apply elem_of_sortedKeys; eauto).
        rewrite Hkeys, Hnil in Hin. inversion Hin.
      - intros Hts Hm. apply Hts.
        rewrite Hm in Hkeys. unfold sortedKeys in Hkeys.
        rewrite map_to_list_empty in Hkeys. cbn in Hkeys.
        symmetry in Hkeys. apply fmap_nil_inv in Hkeys. exact Hkeys. }
    rewrite Hne. tauto.
Qed.
End ExportOfARun.

Section ExportOfARunChecked.
Local Open Scope Q_scope.
Import TradeSimulator.

(** X14. The export of a run that started with no daily results:
    formatting succeeds exactly when there is a bar; the sorted dates
    of the formatted daily results are the dates of the trades in the
    order they were made; the day of each trade carries the balance
    after that trade and, as the balance before, that balance less the
    result of the trade, a subtraction of binary64 numbers;
    [validateData] accepts the formatted data exactly when the symbol
    is not empty, the run made a trade and
    [validateBalanceConsistency] returns, so that the data of a run
    without a trade is refused.  The balance check is not passed by
    every run: with a capital of 115093447303985.39 the two trades of
    the sample run are made, and the check throws on the second day,
    whose balance before, recovered by the subtraction, is a hundredth
    away from the balance after the first day. *)
Theorem export_of_a_run :
  (forall `{Moment} `{MomentDays} engine candles symbol config engine' data,
      BacktestEngine.runBacktest engine candles symbol = Return (engine', data) ->
      dailyResults (BacktestEngine.simulator engine) = ∅ ->
      ((exists exported,
           ResultsExporter.formatBacktestData data symbol candles config = Return exported)
       <-> candles <> [])
      /\ forall exported,
          ResultsExporter.formatBacktestData data symbol candles config = Return exported ->
          sortedKeys (ExportData.dailyResults exported)
          = (fun t => Signal.date (Trade.signal t)) <$> BacktestData.trades data
          /\ (forall pre trade post,
                 BacktestData.trades data = pre ++ trade :: post ->
                 exists result,
                   ExportData.dailyResults exported !! Signal.date (Trade.signal trade)
                   = Some result
                   /\ FormattedResult.balanceAfter result
                      = RunLog.balanceAfter
                          (currentBalance (BacktestEngine.simulator engine))
                          (pre ++ [trade])
                   /\ FormattedResult.balanceBefore result
                      = FormattedResult.balanceAfter result ⊖ Trade.resultUSD trade)
          /\ (DataFormatter.validateData exported = true
              <-> symbol <> ""%string
                  /\ BacktestData.trades data <> []
                  /\ DataFormatter.validateBalanceConsistency
                       (ExportData.dailyResults exported) = Return tt))
  /\ (exists engine' data exported,
         BacktestEngine.runBacktest (H := moment_utc)
           (BacktestEngine.new (Binary64.fl (11509344730398539 # 100)) 5 4 10 20)
           Samples.winLossRun "BTCUSDT" = Return (engine', data)
         /\ ResultsExporter.formatBacktestData (H := moment_utc) (H0 := moment_days_utc)
              data "BTCUSDT" Samples.winLossRun Samples.config
            = Return exported
         /\ length (BacktestData.trades data) = 2%nat
         /\ DataFormatter.validateBalanceConsistency (ExportData.dailyResults exported)
            = Throw "Balance inconsistency on 2025-08-27"
         /\ DataFormatter.validateData exported = false).
Proof.
  split; [intros ? ?; apply run_export|].
  destruct (BacktestEngine.runBacktest (H := moment_utc)
              (BacktestEngine.new (Binary64.fl (11509344730398539 # 100)) 5 4 10 20)
              Samples.winLossRun "BTCUSDT") as [[engine' data]|e] eqn:E;
    [|vm_compute in E; discriminate E].
  destruct (ResultsExporter.formatBacktestData (H := moment_utc) (H0 := moment_days_utc)
              data "BTCUSDT" Samples.winLossRun Samples.config)
    as [exported|e] eqn:F;
    [|vm_compute in E; injection E as _ <-; vm_compute in F; discriminate F].
  exists engine', data, exported.
  split; [reflexivity|]. split; [exact F|].
  vm_compute in E. injection E as _ <-. vm_compute in F. injection F as <-.
  split; [reflexivity|]. split; vm_compute; reflexivity.
Qed.

Lemma export_of_a_run_witness :
  exists engine' data exported,
    BacktestEngine.runBacktest (H := moment_utc) (BacktestEngine.new 100 5 4 10 20)
      Samples.takeProfitRun "BTCUSDT" = Return (engine', data)
    /\ ResultsExporter.formatBacktestData (H := moment_utc) (H0 := moment_days_utc)
         data "BTCUSDT" Samples.takeProfitRun
         Samples.config
       = Return exported
    /\ DataFormatter.validateData exported = true.
Proof.
  destruct (BacktestEngine.runBacktest (H := moment_utc) (BacktestEngine.new 100 5 4 10 20)
              Samples.takeProfitRun "BTCUSDT") as [[engine' data]|e] eqn:E;
    [|vm_compute in E; discriminate E].
  destruct (proj1 export_of_a_run moment_utc moment_days_utc _ _ _
              Samples.config
              _ _ E eq_refl) as [Hformat Hvalid].
  destruct (proj2 Hformat) as [exported Hx]; [discriminate|].
  exists engine', data, exported. split; [reflexivity|]. split; [exact Hx|].
  apply (Hvalid exported Hx). split; [discriminate|].
  pose proof E as E'. vm_compute in E'. injection E' as _ <-.
  split; [discriminate|].
  vm_compute in Hx. injection Hx as <-. vm_compute. reflexivity.
Defined.
End ExportOfARunChecked.

(** ** The statistics of the trades *)
Section TradingStats.
Local Open Scope Q_scope.
Import TradeSimulator.

Lemma round_at_most_100 (x : Q) : x <= 100 -> MathUtils.round x 2 <= 100.
Proof.
  intros Hx. assert (H100 : MathUtils.round 100 2 == 100) by (vm_compute; reflexivity).
  rewrite <- H100. apply round_monotone. exact Hx.
Qed.

Lemma add_nonneg (x y : Q) : 0 <= x -> 0 <= y -> 0 <= x ⊕ y.
Proof. intros Hx Hy. apply fl_nonneg. lra. Qed.

Lemma count_nonneg {A : Type} (l : list A) : 0 <= inject_Z (Z.of_nat (length l)).
Proof. change 0 with (inject_Z 0). rewrite <- Zle_Qle. lia. Qed.

Lemma count_pos {A : Type} (l : list A) :
  (0 <? length l)%nat = true -> 0 < inject_Z (Z.of_nat (length l)).
Proof.
  intros Hl. apply Nat.ltb_lt in Hl. change 0 with (inject_Z 0).
  rewrite <- Zlt_Qlt. lia.
Qed.

(** A list has no more elements in two classes that exclude one
    another than it has elements. *)
Lemma filter_disjoint_length {A : Type} (p q : A -> bool) (l : list A) :
  (forall x, p x = true -> q x = false) ->
  (length (List.filter p l) + length (List.filter q l) <= length l)%nat.
Proof.
  intros Hpq. induction l as [|x l IH]; cbn; [lia|].
  destruct (p x) eqn:Hp.
  - rewrite (Hpq x Hp). cbn. lia.
  - destruct (q x); cbn; lia.
Qed.

Lemma sum_results_nonneg (l : list Trade.t) : forall acc,
  0 <= acc ->
  Forall (fun t => 0 <= Trade.resultUSD t) l ->
  0 <= fold_left (fun sum t => sum ⊕ Trade.resultUSD t) l acc.
Proof.
  induction l as [|t l IH]; intros acc Hacc Hall; cbn [fold_left]; [exact Hacc|].
  apply Forall_cons in Hall. destruct Hall as [Ht Hall].
  apply IH; [apply add_nonneg; assumption | exact Hall].
Qed.

(** A part of a whole, as a percentage. *)
Lemma share_percent (part whole : Q) :
  0 <= part -> part <= whole -> 0 < whole ->
  0 <= (part ⊘ whole) ⊗ 100 <= 100.
Proof.
  intros Hpart Hle Hpos.
  assert (H1 : Binary64.fl 1 == 1) by (vm_compute; reflexivity).
  assert (H100 : Binary64.fl 100 == 100) by (vm_compute; reflexivity).
  assert (Hlow : 0 <= part ⊘ whole) by (apply div_nonneg; assumption).
  assert (Hhigh : part ⊘ whole <= 1).
  { apply Qle_trans with (Binary64.fl 1); [|rewrite H1; apply Qle_refl].
    apply fl_monotone. apply Qle_shift_div_r; [exact Hpos | lra]. }
  split; [apply mul_nonneg; [exact Hlow | lra]|].
  apply Qle_trans with (Binary64.fl 100); [|rewrite H100; apply Qle_refl].
  apply fl_monotone. lra.
Qed.

(** X15. The statistics of [getTradingStats]: the winners and the
    losers are no more than the trades; the win rate is between 0 and
    100, the average win and the average loss are not negative; with
    no winner the win rate and the average win are 0 and with no loser
    the average loss is 0, no division by an empty count being made;
    and the [maxDrawdown] of the exported summary is three times the
    average loss, as the binary64 product gives it, and not negative. *)
Theorem trading_stats_ranges (this : TradeSimulator.t) :
  let stats := getTradingStats this in
  exists (wins losses : nat) (winRate avgWin avgLoss : Q),
    prop stats "totalTrades" = Some (inject_Z (Z.of_nat (length (trades this))))
    /\ prop stats "winningTrades" = Some (inject_Z (Z.of_nat wins))
    /\ prop stats "losingTrades" = Some (inject_Z (Z.of_nat losses))
    /\ (wins + losses <= length (trades this))%nat
    /\ prop stats "winRate" = Some winRate
    /\ prop stats "avgWin" = Some avgWin
    /\ prop stats "avgLoss" = Some avgLoss
    /\ 0 <= winRate <= 100
    /\ 0 <= avgWin
    /\ 0 <= avgLoss
    /\ (wins = 0%nat -> winRate == 0 /\ avgWin == 0)
    /\ (losses = 0%nat -> avgLoss == 0)
    /\ prop (DataFormatter.formatSummary stats) "maxDrawdown"
       = Some (Some (Qabs avgLoss ⊗ 3))
    /\ Qabs avgLoss ⊗ 3 == avgLoss ⊗ 3
    /\ 0 <= avgLoss ⊗ 3.
Proof.
  cbv zeta.
  set (W := List.filter (fun t => Qltb 0 (Trade.resultUSD t)) (trades this)).
  set (L := List.filter (fun t => Qltb (Trade.resultUSD t) 0) (trades this)).
  set (count := fun l : list Trade.t => inject_Z (Z.of_nat (length l))).
  set (sum := fun l : list Trade.t =>
                fold_left (fun sum t => sum ⊕ Trade.resultUSD t) l 0).
  set (winRate := if (0 <? length (trades this))%nat
                  then (count W ⊘ count (trades this)) ⊗ 100 else 0).
  set (avgWin := if (0 <? length W)%nat then sum W ⊘ count W else 0).
  set (avgLoss := if (0 <? length L)%nat then Qabs (sum L ⊘ count L) else 0).
  assert (Hrate : 0 <= winRate <= 100).
  { unfold winRate. destruct (0 <? length (trades this))%nat eqn:Hn; [|lra].
    pose proof (count_pos _ Hn) as Hpos. fold (count (trades this)) in Hpos.
    apply share_percent; [apply count_nonneg | | exact Hpos].
    unfold count. rewrite <- Zle_Qle. apply inj_le. apply filter_length_le. }
  assert (Hwin : 0 <= avgWin).
  { unfold avgWin. destruct (0 <? length W)%nat eqn:Hn; [|lra].
    pose proof (count_pos _ Hn) as Hpos.
    apply div_nonneg; [|exact Hpos].
    apply sum_results_nonneg; [lra|].
    apply Forall_forall. intros t Ht. apply list_elem_of_In, filter_In in Ht.
    destruct Ht as [_ Ht]. apply Qltb_lt in Ht. lra. }
  assert (Hloss : 0 <= avgLoss).
  { unfold avgLoss. destruct (0 <? length L)%nat; [apply Qabs_nonneg | lra]. }
  exists (length W), (length L), (MathUtils.round winRate 2),
    (MathUtils.round avgWin 2), (MathUtils.round avgLoss 2).
  split; [reflexivity|]. split; [reflexivity|]. split; [reflexivity|].
  split.
  { apply filter_disjoint_length. intros t Ht. apply Qltb_lt in Ht.
    apply Qltb_nlt. lra. }
  split; [reflexivity|]. split; [reflexivity|]. split; [reflexivity|].
  split; [split; [apply round_nonneg | apply round_at_most_100]; tauto|].
  split; [apply round_nonneg; exact Hwin|].
  split; [apply round_nonneg; exact Hloss|].
  split; [|split; [|split; [|split]]].
  - intros Hnone.
    assert (HrateZero : winRate == 0).
    { destruct Hrate as [Hlow Hhigh]. apply Qle_antisym; [|exact Hlow].
      unfold winRate in *. destruct (0 <? length (trades this))%nat eqn:Hn; [|lra].
      pose proof (count_pos _ Hn) as Hpos.
      apply mul_nonpos; [|lra]. apply div_nonpos; [|exact Hpos].
      unfold count. rewrite Hnone. apply Qle_refl. }
    assert (HwinZero : avgWin = 0) by (unfold avgWin; rewrite Hnone; reflexivity).
    split.
    + rewrite (round_compat _ 0 2 HrateZero). apply round_0.
    + rewrite HwinZero. apply round_0.
  - intros Hnone.
    assert (HlossZero : avgLoss = 0) by (unfold avgLoss; rewrite Hnone; reflexivity).
    rewrite HlossZero. apply round_0.
  - reflexivity.
  - assert (E : Qabs (MathUtils.round avgLoss 2) * 3 == MathUtils.round avgLoss 2 * 3)
      by (rewrite Qabs_pos by (apply round_nonneg; exact Hloss); reflexivity).
    unfold Binary64.mul. rewrite (fl_comp _ _ E). reflexivity.
  - apply mul_nonneg; [apply round_nonneg; exact Hloss | lra].
Qed.
End TradingStats.

Section TradingStatsExamples.
Local Open Scope Q_scope.

Lemma trading_stats_ranges_witness :
  exists avgLoss,
    prop (TradeSimulator.getTradingStats Samples.tpState) "avgLoss" = Some avgLoss
    /\ avgLoss == 0.
Proof.
  destruct (trading_stats_ranges Samples.tpState)
    as (wins & losses & winRate & avgWin & avgLoss
        & _ & _ & Hlosses & _ & _ & _ & Hloss & _ & _ & _ & _ & Hzero & _).
  exists avgLoss. split; [exact Hloss|]. apply Hzero.
  destruct losses as [|n]; [reflexivity|].
  vm_compute in Hlosses. discriminate Hlosses.
Defined.
End TradingStatsExamples.
